(** * Sneeuwhistorie: seasonal snow records

    A shallow embedding of [sneeuwhistorie.py]: the calendar arithmetic of
    Python's [datetime.date] that the program relies on, the seasonal
    ordinal, the season labels, the record engine over a daily series and
    the chunked retrieval loop, followed by the properties proved of them. *)

From Stdlib Require Import ZArith Bool List String Ascii Lia.
From Stdlib Require Import DecimalString DecimalZ DecimalPos.
From Stdlib Require Import Sorting.Permutation Sorting.Sorted.
From Equations Require Import Equations.
From stdpp Require gmap.
Import ListNotations.
Open Scope Z_scope.

(* ================================================================== *)
(** ** Exceptions *)

(** The two exceptions that the calendar operations used by the program
    can raise. *)
Inductive exn : Type :=
| ValueError
| OverflowError.

(** A Python call either returns a value or raises. *)
Inductive outcome (A : Type) : Type :=
| Returns (a : A)
| Raises (e : exn).

Arguments Returns {A} a.
Arguments Raises {A} e.

Definition bind {A B : Type} (c : outcome A) (k : A -> outcome B) : outcome B :=
  match c with
  | Returns a => k a
  | Raises e => Raises e
  end.

Notation "x <- c ;; k" := (bind c (fun x => k))
  (at level 100, c at next level, right associativity).

(** [try: c  except ValueError: h] *)
Definition try_except_ValueError {A : Type} (c h : outcome A) : outcome A :=
  match c with
  | Raises ValueError => h
  | other => other
  end.

(* ================================================================== *)
(** ** Python's [datetime.date] *)

Module PyDatetime.

Definition MINYEAR : Z := 1.
Definition MAXYEAR : Z := 9999.

Record date : Type := mkdate { year : Z; month : Z; day : Z }.

(** [_DAYS_IN_MONTH] and [_DAYS_BEFORE_MONTH]; index 0 is a placeholder. *)
Definition DAYS_IN_MONTH : list Z :=
  [-1; 31; 28; 31; 30; 31; 30; 31; 31; 30; 31; 30; 31].

Definition DAYS_BEFORE_MONTH : list Z :=
  [-1; 0; 31; 59; 90; 120; 151; 181; 212; 243; 273; 304; 334].

Definition table_get (t : list Z) (i : Z) : Z := nth (Z.to_nat i) t (-1).

(** [year % 4 == 0 and (year % 100 != 0 or year % 400 == 0)] *)
Definition is_leap (y : Z) : bool :=
  (y mod 4 =? 0) && (negb (y mod 100 =? 0) || (y mod 400 =? 0)).

(** [y = year - 1; y*365 + y//4 - y//100 + y//400] *)
Definition days_before_year (y : Z) : Z :=
  let y' := y - 1 in y' * 365 + y' / 4 - y' / 100 + y' / 400.

Definition days_in_month (y m : Z) : Z :=
  if (m =? 2) && is_leap y then 29 else table_get DAYS_IN_MONTH m.

Definition days_before_month (y m : Z) : Z :=
  table_get DAYS_BEFORE_MONTH m + (if (2 <? m) && is_leap y then 1 else 0).

(** [_check_date_fields], as a boolean. *)
Definition check_date_fields (y m d : Z) : bool :=
  (MINYEAR <=? y) && (y <=? MAXYEAR) &&
  (1 <=? m) && (m <=? 12) &&
  (1 <=? d) && (d <=? days_in_month y m).

(** [datetime.date(y, m, d)]: raises [ValueError] on fields out of range. *)
Definition date_new (y m d : Z) : outcome date :=
  if check_date_fields y m d then Returns (mkdate y m d) else Raises ValueError.

(** The values of type [datetime.date] are the field triples that pass the
    constructor's check. *)
Definition valid_date (d : date) : Prop :=
  check_date_fields (year d) (month d) (day d) = true.

(** [d.replace(month=m, day=dd)] rebuilds the date through the constructor. *)
Definition date_replace_month_day (d : date) (m dd : Z) : outcome date :=
  date_new (year d) m dd.

(** [d.timetuple().tm_yday] *)
Definition tm_yday (d : date) : Z :=
  days_before_month (year d) (month d) + day d.

(** [d.toordinal()], i.e. [_ymd2ord]: day 1 is 0001-01-01. *)
Definition toordinal (d : date) : Z :=
  days_before_year (year d) + days_before_month (year d) (month d) + day d.

(** Comparison of dates is comparison of the triples (year, month, day). *)
Definition date_compare (a b : date) : comparison :=
  match year a ?= year b with
  | Eq => match month a ?= month b with
          | Eq => day a ?= day b
          | c => c
          end
  | c => c
  end.

Definition date_leb (a b : date) : bool :=
  match date_compare a b with Gt => false | _ => true end.

Definition date_eqb (a b : date) : bool :=
  match date_compare a b with Eq => true | _ => false end.

Definition date_le (a b : date) : Prop := date_leb a b = true.

(** [a - b] as a [timedelta], read through [.days]. *)
Definition days_between (a b : date) : Z := toordinal a - toordinal b.

(** The calendar successor of a date (the date one [timedelta(days=1)]
    later), by fields. *)
Definition next_day (d : date) : date :=
  if day d <? days_in_month (year d) (month d)
  then mkdate (year d) (month d) (day d + 1)
  else if month d <? 12
       then mkdate (year d) (month d + 1) 1
       else mkdate (year d + 1) 1 1.

End PyDatetime.

Import PyDatetime.

(* ================================================================== *)
(** ** The seasonal ordinal *)

(** [get_seasonal_ordinal(date)] *)
Definition get_seasonal_ordinal (d : date) : outcome Z :=
  jun_30_ordinal <-
    try_except_ValueError
      (j <- date_new (year d) 6 30 ;; Returns (tm_yday j))
      (j <- date_replace_month_day d 6 30 ;; Returns (tm_yday j)) ;;
  if 7 <=? month d then
    Returns (tm_yday d - jun_30_ordinal)
  else
    let prev_year := year d - 1 in
    prev_year_dec_31 <- date_new prev_year 12 31 ;;
    prev_year_jun_30 <- date_new prev_year 6 30 ;;
    let prev_year_dec_31_ordinal := tm_yday prev_year_dec_31 in
    let prev_year_jun_30_ordinal := tm_yday prev_year_jun_30 in
    let days_in_prev_second_half :=
      prev_year_dec_31_ordinal - prev_year_jun_30_ordinal in
    Returns (tm_yday d + days_in_prev_second_half).

(** The same function with the [try] body alone: what the code computes
    when the [except ValueError] handler is never entered. *)
Definition get_seasonal_ordinal_no_handler (d : date) : outcome Z :=
  jun_30_ordinal <- (j <- date_new (year d) 6 30 ;; Returns (tm_yday j)) ;;
  if 7 <=? month d then
    Returns (tm_yday d - jun_30_ordinal)
  else
    let prev_year := year d - 1 in
    prev_year_dec_31 <- date_new prev_year 12 31 ;;
    prev_year_jun_30 <- date_new prev_year 6 30 ;;
    Returns (tm_yday d + (tm_yday prev_year_dec_31 - tm_yday prev_year_jun_30)).

(** Whether the [except ValueError] handler of [get_seasonal_ordinal] is
    entered on input [d]. *)
Definition enters_ValueError_handler (d : date) : bool :=
  match date_new (year d) 6 30 with
  | Raises ValueError => true
  | _ => false
  end.

(* ================================================================== *)
(** ** Strings *)

(** [str(n)] of a Python integer: its decimal numeral. *)
Definition str (n : Z) : string := NilZero.string_of_int (Z.to_int n).

Fixpoint zeros (k : nat) (s : string) : string :=
  match k with
  | O => s
  | S k' => String "0"%char (zeros k' s)
  end.

(** Zero-padding on the left up to [width] characters. *)
Definition zfill (width : nat) (s : string) : string :=
  zeros (Nat.sub width (String.length s)) s.

(** [d.strftime("%d-%m")] *)
Definition strftime_dm (d : date) : string :=
  (zfill 2 (str (day d)) ++ "-" ++ zfill 2 (str (month d)))%string.

(** The directive [%Y]: [strftime] hands it to the C library, and glibc
    prints the year as it is, without padding: year 999 reads [999].  From
    year 1000 on the numeral has its four digits. *)
Definition strftime_Y (d : date) : string := str (year d).

(** [d.strftime("%d-%m-%Y")] *)
Definition strftime_dmY (d : date) : string :=
  (zfill 2 (str (day d)) ++ "-" ++ zfill 2 (str (month d)) ++ "-"
   ++ strftime_Y d)%string.

(* ================================================================== *)
(** ** Sorting and selection, as pandas does them *)

Section StableSort.
Context {A : Type} (leb : A -> A -> bool).

Fixpoint insert_sorted (x : A) (l : list A) : list A :=
  match l with
  | [] => [x]
  | y :: l' => if leb x y then x :: l else y :: insert_sorted x l'
  end.

(** An ascending sort that keeps equal keys in their original order. *)
Fixpoint stable_sort (l : list A) : list A :=
  match l with
  | [] => []
  | x :: l' => insert_sorted x (stable_sort l')
  end.
End StableSort.

(** [sort_values] orders by one integer key.  For [ascending=False] pandas
    reverses the data, sorts ascending and reverses the outcome.  Which of
    two equal keys comes first is left open by the default sort kind; the
    model keeps their original order. *)
Definition sort_values {A : Type} (key : A -> Z) (ascending : bool)
    (l : list A) : list A :=
  let asc := stable_sort (fun a b => key a <=? key b) in
  if ascending then asc l else rev (asc (rev l)).

(** [.head(n)] *)
Definition head {A : Type} (n : nat) (l : list A) : list A := firstn n l.

(** [Series.max()] of a non-empty series (pandas gives NaN on an empty
    one, which no caller below produces; the model gives 0 there). *)
Definition series_max (l : list Z) : Z :=
  match l with
  | [] => 0
  | x :: l' => fold_left Z.max l' x
  end.

Definition date_min2 (a b : date) : date := if date_leb a b then a else b.
Definition date_max2 (a b : date) : date := if date_leb a b then b else a.

(** [index.min()] and [index.max()] of a non-empty index. *)
Definition index_min (l : list date) : option date :=
  match l with
  | [] => None
  | x :: l' => Some (fold_left date_min2 l' x)
  end.

Definition index_max (l : list date) : option date :=
  match l with
  | [] => None
  | x :: l' => Some (fold_left date_max2 l' x)
  end.

(** The distinct values of a list, in order of first appearance. *)
Fixpoint unique {A : Type} (eqb : A -> A -> bool) (l : list A) : list A :=
  match l with
  | [] => []
  | x :: l' => x :: filter (fun y => negb (eqb y x)) (unique eqb l')
  end.

Fixpoint mapM {A B : Type} (f : A -> outcome B) (l : list A) : outcome (list B) :=
  match l with
  | [] => Returns []
  | x :: l' => y <- f x ;; ys <- mapM f l' ;; Returns (y :: ys)
  end.

(* ================================================================== *)
(** ** The daily series and its season labels *)

(** A data frame with a date index and the one column
    ['Max Sneeuwdiepte (cm)'].  Depths are stored rounded to one decimal
    ([(daily_max * 100).round(1)], missing days set to 0.0); the record
    engine only compares them, and the model keeps each depth as its whole
    number of tenths of a centimetre. *)
Definition DataFrame : Type := list (date * Z).

Definition index (df : DataFrame) : list date := map fst df.

(** [index.year], [index.month] *)
Definition index_year (idx : list date) : list Z := map year idx.
Definition index_month (idx : list date) : list Z := map month idx.

(** [self.where(cond, other)]: the entry of [self] where [cond] holds, the
    entry of [other] elsewhere. *)
Fixpoint Index_where (self : list Z) (cond : list bool) (other : list Z) : list Z :=
  match self, cond, other with
  | x :: xs, c :: cs, o :: os => (if c then x else o) :: Index_where xs cs os
  | _, _, _ => []
  end.

(** [.astype(str)] *)
Definition astype_str (l : list Z) : list string := map str l.

(** [a + '/'] and [a + b] on string indexes. *)
Definition Index_add_scalar (a : list string) (s : string) : list string :=
  map (fun x => (x ++ s)%string) a.

Fixpoint Index_add (a b : list string) : list string :=
  match a, b with
  | x :: a', y :: b' => (x ++ y)%string :: Index_add a' b'
  | _, _ => []
  end.

(** [year_start], [year_end] and the column ['Seizoen'] that
    [calculate_snow_records] derives from the index. *)
Definition year_start (idx : list date) : list Z :=
  Index_where (index_year idx)
              (map (fun m => 7 <=? m) (index_month idx))
              (map (fun y => y - 1) (index_year idx)).

Definition year_end (idx : list date) : list Z :=
  map (fun y => y + 1) (year_start idx).

Definition seizoen_column (idx : list date) : list string :=
  Index_add (Index_add_scalar (astype_str (year_start idx)) "/")
            (astype_str (year_end idx)).

(** The season of one date, pointwise: start year and label. *)
Definition season_start_year (d : date) : Z :=
  if 7 <=? month d then year d else year d - 1.

Definition season_label (d : date) : string :=
  (str (season_start_year d) ++ "/" ++ str (season_start_year d + 1))%string.

(** A row of [temp_df]: index, depth and season label. *)
Record row : Type := mkrow { r_date : date; r_depth : Z; r_seizoen : string }.

Fixpoint add_column (df : DataFrame) (col : list string) : list row :=
  match df, col with
  | (d, x) :: df', s :: col' => mkrow d x s :: add_column df' col'
  | _, _ => []
  end.

(** [temp_df] after [temp_df['Seizoen'] = ...] *)
Definition temp_df_of (df : DataFrame) : list row :=
  add_column df (seizoen_column (index df)).

(* ================================================================== *)
(** ** Grouping *)

(** [groupby('Seizoen')] lists the groups by sorted key. *)
Definition groupby_keys (rows : list row) : list string :=
  stable_sort String.leb (unique String.eqb (map r_seizoen rows)).

Definition group (key : string) (rows : list row) : list row :=
  filter (fun r => String.eqb (r_seizoen r) key) rows.

(** [groupby('Seizoen')[col].max()] *)
Definition groupby_max (rows : list row) : list (string * Z) :=
  map (fun k => (k, series_max (map r_depth (group k rows)))) (groupby_keys rows).

(** [groupby('Seizoen').size()] *)
Definition groupby_size (rows : list row) : list (string * Z) :=
  map (fun k => (k, Z.of_nat (List.length (group k rows)))) (groupby_keys rows).

(** [groupby('Seizoen').apply(lambda x: x.index.min())] and [... max()] *)
Definition groupby_index_min (rows : list row) : list (string * date) :=
  flat_map (fun k => match index_min (map r_date (group k rows)) with
                     | Some d => [(k, d)]
                     | None => []
                     end) (groupby_keys rows).

Definition groupby_index_max (rows : list row) : list (string * date) :=
  flat_map (fun k => match index_max (map r_date (group k rows)) with
                     | Some d => [(k, d)]
                     | None => []
                     end) (groupby_keys rows).

(* ================================================================== *)
(** ** The longest unbroken period *)

(** [s.diff().dt.days]: nothing for the first entry, then the number of
    days from the previous entry. *)
Fixpoint diff_days_from (prev : date) (l : list date) : list (option Z) :=
  match l with
  | [] => []
  | d :: l' => Some (days_between d prev) :: diff_days_from d l'
  end.

Definition diff_days (l : list date) : list (option Z) :=
  match l with
  | [] => []
  | d :: l' => None :: diff_days_from d l'
  end.

(** [.ne(1)]: a missing value differs from 1. *)
Definition ne_1 (x : option Z) : bool :=
  match x with
  | None => true
  | Some k => negb (k =? 1)
  end.

(** [.cumsum()] of a boolean series. *)
Fixpoint cumsum_from (acc : Z) (l : list bool) : list Z :=
  match l with
  | [] => []
  | b :: l' => let acc' := acc + (if b then 1 else 0) in acc' :: cumsum_from acc' l'
  end.

Definition cumsum (l : list bool) : list Z := cumsum_from 0 l.

Definition consecutive_groups (days : list date) : list Z :=
  cumsum (map ne_1 (diff_days days)).

Definition count_eq (g : Z) (l : list Z) : Z :=
  Z.of_nat (List.length (filter (fun x => x =? g) l)).

(** [.value_counts()]: one row per distinct value with its number of
    occurrences, most frequent first. *)
Definition value_counts (l : list Z) : list (Z * Z) :=
  sort_values snd false (map (fun g => (g, count_eq g l)) (unique Z.eqb l)).

(** [.idxmax()]: the label of the first row holding the maximum. *)
Definition idxmax (s : list (Z * Z)) : option Z :=
  let m := series_max (map snd s) in
  match filter (fun p => snd p =? m) s with
  | [] => None
  | p :: _ => Some (fst p)
  end.

(** [snow_present_days[consecutive_groups == g]] *)
Fixpoint select_group (days : list date) (groups : list Z) (g : Z) : list date :=
  match days, groups with
  | d :: days', x :: groups' =>
      if x =? g then d :: select_group days' groups' g
      else select_group days' groups' g
  | _, _ => []
  end.

(** Length, first and last day of the period that the engine reports. *)
Definition longest_streak (days : list date) : option (Z * date * date) :=
  let groups := consecutive_groups days in
  let streak_lengths := value_counts groups in
  let longest_streak_length := series_max (map snd streak_lengths) in
  match idxmax streak_lengths with
  | None => None
  | Some longest_streak_group =>
      let sel := select_group days groups longest_streak_group in
      match index_min sel, index_max sel with
      | Some a, Some b => Some (longest_streak_length, a, b)
      | _, _ => None
      end
  end.

(** [f"{n} dagen ({start} t/m {end})"] *)
Definition format_streak (s : Z * date * date) : string :=
  let '(n, a, b) := s in
  (str n ++ " dagen (" ++ strftime_dmY a ++ " t/m " ++ strftime_dmY b ++ ")")%string.

(* ================================================================== *)
(** ** The record engine *)

(** The dictionary [results]; the last two entries are only set inside
    [if not snow_present_days.empty]. *)
Record RecordSet : Type := mkRecordSet {
  top10_hoogste_max : list (string * Z);                (* Seizoen, Max (cm) *)
  top10_vroegste_start : list (string * string);        (* DD-MM, Seizoen *)
  top10_laatste_start : list (string * string);
  top10_vroegste_einde : list (string * string);
  top10_laatste_einde : list (string * string);
  top10_meeste_dagen : list (string * Z);               (* Seizoen, Aantal Dagen *)
  absoluut_langste_periode : option string;
  totaal_dagen_met_sneeuw : option Z
}.

(** [snow_days = temp_df[temp_df['Max Sneeuwdiepte (cm)'] > 0.0]] *)
Definition snow_days_of (temp_df : list row) : list row :=
  filter (fun r => 0 <? r_depth r) temp_df.

(** Adds the column ['Seasonal_Ordinal']; a raising call aborts. *)
Definition add_seasonal_ordinal (tbl : list (string * date))
  : outcome (list (string * date * Z)) :=
  mapM (fun sd => o <- get_seasonal_ordinal (snd sd) ;; Returns (sd, o)) tbl.

(** One of the four start and end rankings: order by seasonal ordinal,
    keep ten, show day-month and season. *)
Definition ordinal_ranking (ascending : bool) (tbl : list (string * date))
  : outcome (list (string * string)) :=
  t <- add_seasonal_ordinal tbl ;;
  Returns (map (fun x => (strftime_dm (snd (fst x)), fst (fst x)))
               (head 10 (sort_values snd ascending t))).

(** Ranking 1 of the engine. *)
Definition yearly_max (temp_df : list row) : list (string * Z) :=
  head 10 (sort_values snd false (groupby_max temp_df)).

(** [calculate_snow_records(df)], on the rows of [temp_df].  The result is
    [None] (no snow day) or the dictionary of records. *)
Definition records_of_temp_df (temp_df : list row) : outcome (option RecordSet) :=
  let snow_days := snow_days_of temp_df in
  match snow_days with
  | [] => Returns None
  | _ :: _ =>
      let top_max := yearly_max temp_df in
      let earliest_snow_all := groupby_index_min snow_days in
      let latest_snow_all := groupby_index_max snow_days in
      earliest_start <- ordinal_ranking true earliest_snow_all ;;
      latest_start <- ordinal_ranking false earliest_snow_all ;;
      earliest_end <- ordinal_ranking true latest_snow_all ;;
      latest_end <- ordinal_ranking false latest_snow_all ;;
      let snow_days_per_season :=
        head 10 (sort_values snd false (groupby_size snow_days)) in
      let snow_present_days :=
        map r_date (filter (fun r => 0 <? r_depth r) temp_df) in
      let '(streak, total) :=
        match snow_present_days with
        | [] => (None, None)
        | _ :: _ =>
            (option_map format_streak (longest_streak snow_present_days),
             Some (Z.of_nat (List.length snow_days)))
        end in
      Returns (Some (mkRecordSet top_max earliest_start latest_start
                                 earliest_end latest_end snow_days_per_season
                                 streak total))
  end.

Definition calculate_snow_records (df : DataFrame) : outcome (option RecordSet) :=
  records_of_temp_df (temp_df_of df).

(* ================================================================== *)
(** ** Retrieval in chunks *)

(** Inside [get_all_historical_data] a date is only shifted by a number of
    days, compared, and handed to the fetch.  The model keeps such a date
    as its proleptic ordinal ([toordinal]), on which these operations are
    addition, [<=] and [min]; [date.min] has ordinal 1 and [date.max] has
    ordinal [MAXORDINAL]. *)
Definition MAXORDINAL : Z := 3652059.

(** [d + timedelta(days=n)]: [OverflowError] outside the range of dates. *)
Definition date_add_days (d n : Z) : outcome Z :=
  let r := d + n in
  if (1 <=? r) && (r <=? MAXORDINAL) then Returns r else Raises OverflowError.

Definition inspect {A : Type} (a : A) : {b : A | a = b} := exist _ a eq_refl.

Definition loop_measure (delta end_date current_start : Z) : nat :=
  Z.to_nat (if 0 <=? delta then end_date - current_start + 1 else current_start).

Section ChunkLoop.
Context {Frame : Type}.

(** [fetch_single_period_data(lat, lon, start, end)] for the fixed
    coordinates: a frame, or [None] when the request fails. *)
Variable fetch_single_period_data : Z -> Z -> option Frame.

(** [if chunk_df is not None: all_data_frames.append(chunk_df)] *)
Definition append_chunk (all_data_frames : list Frame) (chunk_df : option Frame)
  : list Frame :=
  match chunk_df with
  | Some f => all_data_frames ++ [f]
  | None => all_data_frames
  end.

(** The [while current_start <= end_date] loop. *)
Equations? chunk_loop (chunk_size_years end_date : Z)
    (all_data_frames : list Frame) (current_start : Z) : outcome (list Frame)
  by wf (loop_measure (chunk_size_years * 365 + 10) end_date current_start) lt :=
  chunk_loop k end_date acc cs with Z_le_gt_dec cs end_date := {
    | right _ => Returns acc
    | left Hle with inspect (date_add_days cs (k * 365 + 10)) := {
      | exist _ (Raises e) _ => Raises e
      | exist _ (Returns chunk_end_candidate) Hc
          with Z.eq_dec (Z.min chunk_end_candidate end_date) end_date := {
        | left _ =>
            Returns (append_chunk acc
                       (fetch_single_period_data cs (Z.min chunk_end_candidate end_date)))
        | right Hne
            with inspect (date_add_days (Z.min chunk_end_candidate end_date) 1) := {
          | exist _ (Raises e) _ => Raises e
          | exist _ (Returns next_start) Hn with Z_le_gt_dec next_start end_date := {
            | right _ =>
                Returns (append_chunk acc
                           (fetch_single_period_data cs
                              (Z.min chunk_end_candidate end_date)))
            | left _ =>
                chunk_loop k end_date
                  (append_chunk acc
                     (fetch_single_period_data cs (Z.min chunk_end_candidate end_date)))
                  next_start
            }
          }
        }
      }
    }.
Proof.
  unfold date_add_days in Hc, Hn.
  destruct ((1 <=? cs + (k * 365 + 10)) && (cs + (k * 365 + 10) <=? MAXORDINAL))
    eqn:E1; [|discriminate].
  destruct ((1 <=? Z.min chunk_end_candidate end_date + 1)
            && (Z.min chunk_end_candidate end_date + 1 <=? MAXORDINAL))
    eqn:E2; [|discriminate].
  injection Hc as <-. injection Hn as <-.
  apply andb_true_iff in E1 as [E1a E1b]. apply Z.leb_le in E1a.
  unfold loop_measure.
  destruct (0 <=? k * 365 + 10) eqn:E;
    [apply Z.leb_le in E | apply Z.leb_gt in E]; lia.
Qed.
End ChunkLoop.

(** The chunks that the loop requests, in order: the loop run with a fetch
    that records its two arguments. *)
Definition chunk_plan (chunk_size_years end_date start_date : Z)
  : outcome (list (Z * Z)) :=
  chunk_loop (fun a b => Some (a, b)) chunk_size_years end_date [] start_date.

(** [index.duplicated(keep='first')] *)
Fixpoint duplicated_from (seen idx : list date) : list bool :=
  match idx with
  | [] => []
  | d :: idx' => existsb (date_eqb d) seen :: duplicated_from (d :: seen) idx'
  end.

Definition duplicated (idx : list date) : list bool := duplicated_from [] idx.

(** [df[mask]] *)
Fixpoint boolean_mask {A : Type} (l : list A) (mask : list bool) : list A :=
  match l, mask with
  | x :: l', b :: mask' => if b then x :: boolean_mask l' mask' else boolean_mask l' mask'
  | _, _ => []
  end.

(** [combined_df[~combined_df.index.duplicated(keep='first')]] *)
Definition drop_duplicated (df : DataFrame) : DataFrame :=
  boolean_mask df (map negb (duplicated (index df))).

Section Retrieval.
(** [datetime.strptime(s, "%Y-%m-%d").date()], [None] standing for the
    [ValueError] of a string that does not parse. *)
Variable strptime_ymd : string -> option Z.
Variable fetch_single_period_data : Z -> Z -> option DataFrame.

(** [get_all_historical_data(lat, lon, start_date_api, end_date_api,
    chunk_size_years)] *)
Definition get_all_historical_data (start_date_api end_date_api : string)
    (chunk_size_years : Z) : outcome (option DataFrame) :=
  match strptime_ymd start_date_api, strptime_ymd end_date_api with
  | Some start_date, Some end_date =>
      all_data_frames <-
        chunk_loop fetch_single_period_data chunk_size_years end_date [] start_date ;;
      match all_data_frames with
      | [] => Returns None
      | _ :: _ => Returns (Some (drop_duplicated (List.concat all_data_frames)))
      end
  | _, _ => Returns None
  end.

(** The chunks of a request: none when a date string does not parse. *)
Definition requested_chunks (start_date_api end_date_api : string)
    (chunk_size_years : Z) : outcome (list (Z * Z)) :=
  match strptime_ymd start_date_api, strptime_ymd end_date_api with
  | Some start_date, Some end_date => chunk_plan chunk_size_years end_date start_date
  | _, _ => Returns []
  end.
End Retrieval.

(* ================================================================== *)
(** ** Data frames as objects *)

(** [calculate_snow_records] receives a reference to a data frame, copies
    the frame and assigns a column to the copy.  This section models the
    frames as objects in a store, so that the assignment is an update in
    place of the object it is applied to. *)
Module Heap.
Import stdpp.base stdpp.gmap.

(** A frame object: the rows (index and depth) and the column ['Seizoen']
    once it has been assigned. *)
Record frame_obj : Type := mkframe {
  fo_rows : DataFrame;
  fo_seizoen : option (list string)
}.

Abbreviation heap := (gmap positive frame_obj).

(** A computation on the store; [None] when it follows a reference to no
    object. *)
Definition St (A : Type) : Type := heap -> option (A * heap).

Definition st_ret {A : Type} (a : A) : St A := fun h => Some (a, h).

Definition st_bind {A B : Type} (c : St A) (k : A -> St B) : St B :=
  fun h => match c h with
           | Some (a, h') => k a h'
           | None => None
           end.

(** [df.copy()]: a new object with the same contents. *)
Definition df_copy (l : positive) : St positive :=
  fun h => match h !! l with
           | Some f => let l' := fresh (dom h) in Some (l', <[l' := f]> h)
           | None => None
           end.

(** [df.index] *)
Definition df_index (l : positive) : St (list date) :=
  fun h => match h !! l with
           | Some f => Some (index (fo_rows f), h)
           | None => None
           end.

(** [df['Seizoen'] = col]: updates the object in place. *)
Definition df_setitem_seizoen (l : positive) (col : list string) : St unit :=
  fun h => match h !! l with
           | Some f => Some (tt, <[l := mkframe (fo_rows f) (Some col)]> h)
           | None => None
           end.

(** The rows of a frame together with its column ['Seizoen']. *)
Definition df_rows (l : positive) : St (list row) :=
  fun h => match h !! l with
           | Some (mkframe rows (Some col)) => Some (add_column rows col, h)
           | _ => None
           end.

(** [calculate_snow_records(df)] on a reference [df]: everything after
    the assignment of the column reads [temp_df] and builds new values. *)
Definition calculate_snow_records_st (df : positive)
  : St (outcome (option RecordSet)) :=
  st_bind (df_copy df) (fun temp_df =>
  st_bind (df_index temp_df) (fun idx =>
  st_bind (df_setitem_seizoen temp_df (seizoen_column idx)) (fun _ =>
  st_bind (df_rows temp_df) (fun rows =>
  st_ret (records_of_temp_df rows))))).

End Heap.

(* ================================================================== *)
(** ** Notions used to state the properties *)

(** Whether a character occurs in a string. *)
Fixpoint contains_char (c : ascii) (s : string) : bool :=
  match s with
  | EmptyString => false
  | String c' s' => Ascii.eqb c' c || contains_char c s'
  end.

(** The runs of a list of days, following the description of the longest
    streak: a day stays in the run of the day before it when it comes
    exactly one calendar day later, and opens a new run otherwise. *)
Fixpoint split_runs (days : list date) : list (list date) :=
  match days with
  | [] => []
  | d :: days' =>
      match split_runs days' with
      | (d' :: r) :: rs =>
          if days_between d' d =? 1 then (d :: d' :: r) :: rs
          else [d] :: (d' :: r) :: rs
      | _ => [[d]]
      end
  end.

(** Each day of the list comes one calendar day after the one before. *)
Fixpoint consecutive_days (r : list date) : Prop :=
  match r with
  | a :: r' =>
      match r' with
      | b :: _ => days_between b a = 1 /\ consecutive_days r'
      | [] => True
      end
  | [] => True
  end.

(** Numbers the members of successive runs [i], [i+1], ... *)
Fixpoint label_runs (i : Z) (rs : list (list date)) : list Z :=
  match rs with
  | [] => []
  | r :: rs' => repeat i (List.length r) ++ label_runs (i + 1) rs'
  end.

(** The runs paired with their numbers. *)
Fixpoint number_runs (i : Z) (rs : list (list date)) : list (Z * list date) :=
  match rs with
  | [] => []
  | r :: rs' => (i, r) :: number_runs (i + 1) rs'
  end.

Definition first_day (r : list date) : option date := List.hd_error r.
Definition last_day (r : list date) : option date := List.hd_error (rev r).

(** [covers delta s e chunks]: the chunks split the inclusive range
    [s..e] from left to right, each chunk reaching [delta] days past its
    start unless the range ends earlier, the next one starting the day
    after. *)
Fixpoint covers (delta s e : Z) (chunks : list (Z * Z)) : Prop :=
  match chunks with
  | [] => e < s
  | (a, b) :: rest =>
      a = s /\ s <= e /\ b = Z.min (s + delta) e /\
      match rest with
      | [] => b = e
      | _ :: _ => b < e /\ covers delta (b + 1) e rest
      end
  end.

(** The frames of the chunks whose fetch succeeds, in order. *)
Definition successful_frames {Frame : Type} (fetch : Z -> Z -> option Frame)
    (chunks : list (Z * Z)) : list Frame :=
  flat_map (fun c => match fetch (fst c) (snd c) with
                     | Some f => [f]
                     | None => []
                     end) chunks.

(** The dates of the snow days of a series, in index order. *)
Definition snow_dates (df : DataFrame) : list date :=
  map fst (filter (fun e => 0 <? snd e) df).

(** The dates on which [get_seasonal_ordinal] has a result: the valid
    dates outside January to June of year [MINYEAR]. *)
Definition ordinal_defined (d : date) : Prop :=
  valid_date d /\ (7 <= month d \/ MINYEAR < year d).

(** The season labels that occur in a series, each once. *)
Definition seasons_of (df : DataFrame) : list string :=
  unique String.eqb (map season_label (index df)).

(** Whether a series has a snow day in the season with a given label. *)
Definition has_snow_day (df : DataFrame) (s : string) : Prop :=
  exists e, In e df /\ season_label (fst e) = s /\ 0 < snd e.

(** Two sample series.  The first has snow in season 2020/2021 and none
    in season 2021/2022.  The second has snow on 2020-12-01 to 2020-12-05,
    none on 2020-12-06 and snow again on 2020-12-07 to 2020-12-10. *)
Definition series_two_seasons : DataFrame :=
  [ (mkdate 2020 12 1, 120); (mkdate 2021 1 5, 30);
    (mkdate 2021 12 1, 0); (mkdate 2022 1 1, 0) ].

Definition series_december_2020 : DataFrame :=
  map (fun d => (mkdate 2020 12 d, 100)) [1; 2; 3; 4; 5]
  ++ [(mkdate 2020 12 6, 0)]
  ++ map (fun d => (mkdate 2020 12 d, 50)) [7; 8; 9; 10].

(** Snow on four days in a row, the last two of season 2020/2021 and the
    first two of season 2021/2022. *)
Definition series_across_july_1 : DataFrame :=
  [ (mkdate 2021 6 29, 10); (mkdate 2021 6 30, 10);
    (mkdate 2021 7 1, 10); (mkdate 2021 7 2, 10) ].

(** A sample request for the ten seasons from 2015-07-01 to 2025-06-30:
    the two date strings parse, and the fetch of the first chunk fails. *)
Definition sample_strptime (s : string) : option Z :=
  if String.eqb s "2015-07-01" then Some (toordinal (mkdate 2015 7 1))
  else if String.eqb s "2025-06-30" then Some (toordinal (mkdate 2025 6 30))
  else None.

Definition sample_fetch (a b : Z) : option DataFrame :=
  if a =? toordinal (mkdate 2015 7 1) then None
  else Some [(mkdate 2020 1 1, 5); (mkdate 2020 1 2, 7)].

Module HeapSample.
Import stdpp.base stdpp.gmap.

(** A store with one frame, at location 5. *)
Definition sample_heap : Heap.heap :=
  {[ 5%positive := Heap.mkframe series_two_seasons None ]}.

End HeapSample.

(* ================================================================== *)
(** ** The page: record analysis and detail statistics *)

(** [d.strftime("%Y-%m-%d")] *)
Definition strftime_Ymd (d : date) : string :=
  (strftime_Y d ++ "-" ++ zfill 2 (str (month d)) ++ "-"
   ++ zfill 2 (str (day d)))%string.

(** [datetime.date(start_year, 7, 1).strftime("%Y-%m-%d")] and
    [datetime.date(end_year, 6, 30).strftime("%Y-%m-%d")] *)
Definition record_start_date_api (start_year : Z) : outcome string :=
  d <- date_new start_year 7 1 ;; Returns (strftime_Ymd d).

Definition record_end_date_api (end_year : Z) : outcome string :=
  d <- date_new end_year 6 30 ;; Returns (strftime_Ymd d).

(** The seasons named in the heading of the analysis:
    [{start_year}/{start_year+1}] and [{end_year-1}/{end_year}]. *)
Definition heading_first_season (start_year : Z) : string :=
  (str start_year ++ "/" ++ str (start_year + 1))%string.

Definition heading_last_season (end_year : Z) : string :=
  (str (end_year - 1) ++ "/" ++ str end_year)%string.

Section RecordAnalysis.
Variable strptime_ymd : string -> option Z.
Variable fetch_single_period_data : Z -> Z -> option DataFrame.

(** [full_data = get_all_historical_data(LAT, LON, record_start_date_api,
    record_end_date_api)], with the default chunk size of 4 years. *)
Definition full_data (start_year end_year : Z) : outcome (option DataFrame) :=
  s <- record_start_date_api start_year ;;
  e <- record_end_date_api end_year ;;
  get_all_historical_data strptime_ymd fetch_single_period_data s e 4.

(** [records = calculate_snow_records(full_data)] when data came back. *)
Definition records (start_year end_year : Z)
  : outcome (option (option RecordSet)) :=
  fd <- full_data start_year end_year ;;
  match fd with
  | None => Returns None
  | Some df => r <- calculate_snow_records df ;; Returns (Some r)
  end.
End RecordAnalysis.

(** The statistics of the detail view: [col.max()] and
    [len(df[col > 0.0])]. *)
Definition max_depth (daily_data_detail : DataFrame) : Z :=
  series_max (map snd daily_data_detail).

Definition days_with_snow (daily_data_detail : DataFrame) : nat :=
  List.length (filter (fun e => 0 <? snd e) daily_data_detail).

(* ================================================================== *)
(** ** Further notions used to state the properties *)

(** [d] is a snow day of the series in the season labelled [s]. *)
Definition snow_date_in (df : DataFrame) (s : string) (d : date) : Prop :=
  season_label d = s /\ exists x, In (d, x) df /\ 0 < x.

(** [earliest_snow_all] and [latest_snow_all] of a series. *)
Definition earliest_snow_all (df : DataFrame) : list (string * date) :=
  groupby_index_min (snow_days_of (temp_df_of df)).

Definition latest_snow_all (df : DataFrame) : list (string * date) :=
  groupby_index_max (snow_days_of (temp_df_of df)).

(** A row of a start or end ranking, as shown: day-month and season. *)
Definition ranking_row (x : string * date * Z) : string * string :=
  (strftime_dm (snd (fst x)), fst (fst x)).

Definition sum_Z (l : list Z) : Z := fold_right Z.add 0 l.

(** A string parser that reads back the two dates of a record analysis. *)
Definition reads_back (strptime_ymd : string -> option Z) (d : date) : Prop :=
  strptime_ymd (strftime_Ymd d) = Some (toordinal d).

(** A sample parser for the years 2020 to 2022, and a fetch that always
    fails. *)
Definition sample_strptime_2020 (s : string) : option Z :=
  if String.eqb s "2020-07-01" then Some (toordinal (mkdate 2020 7 1))
  else if String.eqb s "2020-06-30" then Some (toordinal (mkdate 2020 6 30))
  else if String.eqb s "2022-06-30" then Some (toordinal (mkdate 2022 6 30))
  else None.

Definition failing_fetch (a b : Z) : option DataFrame := None.

(** A fetch that answers every request with the same two days, and a
    frame in which one date occurs twice. *)
Definition two_day_fetch (a b : Z) : option DataFrame :=
  Some [(mkdate 2020 12 1, 5); (mkdate 2020 12 2, 7)].

Definition frame_with_duplicate : DataFrame :=
  [(mkdate 2020 12 1, 5); (mkdate 2020 12 2, 7); (mkdate 2020 12 1, 9)].

(** A series with 1 cm of snow on the first day of the calendar. *)
Definition series_year_1 : DataFrame := [(mkdate 1 1 1, 10)].

(** A sample parser for three dates of the last ten years of the
    calendar. *)
Definition sample_strptime_9999 (s : string) : option Z :=
  if String.eqb s "9990-01-01" then Some (toordinal (mkdate 9990 1 1))
  else if String.eqb s "9999-01-01" then Some (toordinal (mkdate 9999 1 1))
  else if String.eqb s "9999-12-31" then Some (toordinal (mkdate 9999 12 31))
  else None.

(** [r] is what a start or end ranking shows for the table [tbl] of one
    date per season: ten rows of [tbl], or all if there are fewer, each
    with the seasonal ordinal of its date, in the order of the ordinals,
    such that a row left out does not come before a row shown. *)
Definition is_ordinal_ranking (ascending : bool) (tbl : list (string * date))
    (r : list (string * string)) : Prop :=
  exists shown : list (string * date * Z),
    r = map ranking_row shown /\
    List.length shown = Nat.min 10 (List.length tbl) /\
    Forall (fun x => In (fst x) tbl /\
                     get_seasonal_ordinal (snd (fst x)) = Returns (snd x)) shown /\
    StronglySorted (fun x y => if ascending then snd x <= snd y
                               else snd y <= snd x) shown /\
    forall sd o,
      In sd tbl -> get_seasonal_ordinal (snd sd) = Returns o ->
      In (sd, o) shown \/
      Forall (fun x => if ascending then snd x <= o else o <= snd x) shown.

(** The number of snow days of a series in the season labelled [s], and
    the labels of the seasons that have a snow day. *)
Definition snow_days_in_season (df : DataFrame) (s : string) : nat :=
  List.length (filter (fun e => (0 <? snd e) && String.eqb (season_label (fst e)) s) df).

Definition snow_seasons_of (df : DataFrame) : list string :=
  unique String.eqb (map season_label (snow_dates df)).

(* ================================================================== *)
(** ** Calendar facts *)

Lemma valid_date_fields d :
  valid_date d ->
  MINYEAR <= year d <= MAXYEAR /\ 1 <= month d <= 12 /\
  1 <= day d <= days_in_month (year d) (month d).
Proof.
  unfold valid_date, check_date_fields.
  rewrite !andb_true_iff, !Z.leb_le. tauto.
Qed.

Lemma valid_date_intro y m d :
  MINYEAR <= y <= MAXYEAR -> 1 <= m <= 12 -> 1 <= d <= days_in_month y m ->
  valid_date (mkdate y m d).
Proof.
  intros. unfold valid_date, check_date_fields; simpl.
  rewrite !andb_true_iff, !Z.leb_le. tauto.
Qed.

Lemma date_new_valid y m d :
  valid_date (mkdate y m d) -> date_new y m d = Returns (mkdate y m d).
Proof. unfold valid_date, date_new; simpl. now intros ->. Qed.

Lemma date_new_Returns y m d x :
  date_new y m d = Returns x -> x = mkdate y m d /\ valid_date x.
Proof.
  unfold date_new. destruct (check_date_fields y m d) eqn:E; [|discriminate].
  intros [= <-]. split; [reflexivity | exact E].
Qed.

(** Case analysis on a month known to lie in 1..12. *)
Lemma month_cases m :
  1 <= m <= 12 ->
  m = 1 \/ m = 2 \/ m = 3 \/ m = 4 \/ m = 5 \/ m = 6 \/
  m = 7 \/ m = 8 \/ m = 9 \/ m = 10 \/ m = 11 \/ m = 12.
Proof. lia. Qed.

(** Evaluates the table lookups and the comparisons whose arguments are
    literals, in the goal and in every hypothesis. *)
Ltac eval_closed t :=
  let v := eval vm_compute in t in
  lazymatch v with
  | true => change t with v in *
  | false => change t with v in *
  | Z0 => change t with v in *
  | Zpos _ => change t with v in *
  | Zneg _ => change t with v in *
  end.

Ltac calendar_step :=
  match goal with
  | |- context [table_get ?t ?m] => eval_closed (table_get t m)
  | H : context [table_get ?t ?m] |- _ => eval_closed (table_get t m)
  | |- context [Z.ltb ?a ?b] => eval_closed (Z.ltb a b)
  | H : context [Z.ltb ?a ?b] |- _ => eval_closed (Z.ltb a b)
  | |- context [Z.eqb ?a ?b] => eval_closed (Z.eqb a b)
  | H : context [Z.eqb ?a ?b] |- _ => eval_closed (Z.eqb a b)
  | |- context [Z.leb ?a ?b] => eval_closed (Z.leb a b)
  | H : context [Z.leb ?a ?b] |- _ => eval_closed (Z.leb a b)
  end.

Ltac calendar :=
  unfold tm_yday, toordinal, days_before_month, days_in_month in *;
  cbn [year month day] in *;
  repeat calendar_step;
  cbn [andb orb negb] in *.

Ltac split_month H :=
  let M := fresh "M" in
  destruct (month_cases _ H)
    as [M|[M|[M|[M|[M|[M|[M|[M|[M|[M|[M|M]]]]]]]]]]].

Lemma june_30_valid y :
  MINYEAR <= y <= MAXYEAR -> valid_date (mkdate y 6 30).
Proof.
  intros. apply valid_date_intro; try lia.
  change (days_in_month y 6) with 30. lia.
Qed.

Lemma december_31_valid y :
  MINYEAR <= y <= MAXYEAR -> valid_date (mkdate y 12 31).
Proof.
  intros. apply valid_date_intro; try lia.
  change (days_in_month y 12) with 31. lia.
Qed.

Lemma tm_yday_june_30 y :
  tm_yday (mkdate y 6 30) = 181 + (if is_leap y then 1 else 0).
Proof. calendar. destruct (is_leap y); lia. Qed.

Lemma tm_yday_december_31 y :
  tm_yday (mkdate y 12 31) = 365 + (if is_leap y then 1 else 0).
Proof. calendar. destruct (is_leap y); lia. Qed.

(** The second half of every year, July 1 to December 31, has 184 days. *)
Lemma second_half_length y :
  tm_yday (mkdate y 12 31) - tm_yday (mkdate y 6 30) = 184.
Proof. rewrite tm_yday_june_30, tm_yday_december_31. lia. Qed.

(** Closed form of the ordinal in the first half of the season. *)
Lemma get_seasonal_ordinal_second_half_of_year d :
  valid_date d -> 7 <= month d ->
  get_seasonal_ordinal d = Returns (tm_yday d - tm_yday (mkdate (year d) 6 30)).
Proof.
  intros V Hm. destruct (valid_date_fields d V) as (Hy & _ & _).
  unfold get_seasonal_ordinal.
  rewrite (date_new_valid _ _ _ (june_30_valid _ Hy)). simpl.
  apply Z.leb_le in Hm. now rewrite Hm.
Qed.

(** Closed form of the ordinal in the second half of the season. *)
Lemma get_seasonal_ordinal_first_half_of_year d :
  valid_date d -> month d < 7 -> MINYEAR < year d ->
  get_seasonal_ordinal d =
  Returns (tm_yday d + (tm_yday (mkdate (year d - 1) 12 31)
                        - tm_yday (mkdate (year d - 1) 6 30))).
Proof.
  intros V Hm Hprev. destruct (valid_date_fields d V) as (Hy & _ & _).
  assert (Hy' : MINYEAR <= year d - 1 <= MAXYEAR) by (unfold MINYEAR, MAXYEAR in *; lia).
  unfold get_seasonal_ordinal.
  rewrite (date_new_valid _ _ _ (june_30_valid _ Hy)). simpl.
  apply Z.leb_gt in Hm. rewrite Hm.
  rewrite (date_new_valid _ _ _ (june_30_valid _ Hy')).
  rewrite (date_new_valid _ _ _ (december_31_valid _ Hy')).
  reflexivity.
Qed.

(** In January to June of year 1 the previous year does not exist and the
    constructor call for its December 31 raises. *)
Lemma get_seasonal_ordinal_year_1 d :
  valid_date d -> month d < 7 -> year d = MINYEAR ->
  get_seasonal_ordinal d = Raises ValueError.
Proof.
  intros V Hm Hy1. destruct (valid_date_fields d V) as (Hy & _ & _).
  unfold get_seasonal_ordinal.
  rewrite (date_new_valid _ _ _ (june_30_valid _ Hy)). simpl.
  apply Z.leb_gt in Hm. rewrite Hm, Hy1. reflexivity.
Qed.

Lemma tm_yday_bounds d :
  valid_date d -> 1 <= tm_yday d <= 366.
Proof.
  intros V. destruct (valid_date_fields d V) as (_ & Hm & Hd).
  split_month Hm; calendar; rewrite M in *; calendar;
    destruct (is_leap (year d)); lia.
Qed.

Lemma tm_yday_second_half d :
  valid_date d -> 7 <= month d ->
  tm_yday (mkdate (year d) 6 30) < tm_yday d <= tm_yday (mkdate (year d) 6 30) + 184.
Proof.
  intros V H7. destruct (valid_date_fields d V) as (_ & Hm & Hd).
  rewrite tm_yday_june_30.
  split_month Hm; try lia; calendar; rewrite M in *; calendar;
    destruct (is_leap (year d)); lia.
Qed.


(* ------------------------------------------------------------------ *)
(** *** Years and ordinals *)

Lemma is_leap_spec y :
  is_leap y = true <-> y mod 4 = 0 /\ (y mod 100 <> 0 \/ y mod 400 = 0).
Proof.
  unfold is_leap.
  rewrite andb_true_iff, orb_true_iff, negb_true_iff, !Z.eqb_eq, Z.eqb_neq.
  tauto.
Qed.

Lemma days_before_year_succ y :
  days_before_year (y + 1) =
  days_before_year y + 365 + (if is_leap y then 1 else 0).
Proof.
  unfold days_before_year. cbv zeta.
  replace (y + 1 - 1) with y by lia.
  destruct (is_leap y) eqn:L.
  - apply is_leap_spec in L.
    Z.to_euclidean_division_equations; lia.
  - assert (N : ~ (y mod 4 = 0 /\ (y mod 100 <> 0 \/ y mod 400 = 0))).
    { rewrite <- is_leap_spec, L. discriminate. }
    Z.to_euclidean_division_equations; lia.
Qed.

Lemma days_before_year_mono a b :
  a <= b -> days_before_year a <= days_before_year b.
Proof.
  intros H. unfold days_before_year. cbv zeta.
  Z.to_euclidean_division_equations; lia.
Qed.

Lemma tm_yday_month_lt a b :
  valid_date a -> valid_date b -> year a = year b -> month a < month b ->
  tm_yday a < tm_yday b.
Proof.
  intros Va Vb Hy Hm.
  destruct (valid_date_fields a Va) as (_ & Ma & Da).
  destruct (valid_date_fields b Vb) as (_ & Mb & Db).
  unfold tm_yday, days_before_month. unfold days_in_month in Da, Db.
  rewrite <- Hy in *. clear Hy Va Vb.
  destruct (month_cases _ Ma) as [A|[A|[A|[A|[A|[A|[A|[A|[A|[A|[A|A]]]]]]]]]]];
  destruct (month_cases _ Mb) as [B|[B|[B|[B|[B|[B|[B|[B|[B|[B|[B|B]]]]]]]]]]];
  rewrite A, B in *; try lia; clear Hm Ma Mb; repeat calendar_step;
  destruct (is_leap (year a)); cbn [andb] in *; lia.
Qed.

Lemma tm_yday_upper d :
  valid_date d -> tm_yday d <= 365 + (if is_leap (year d) then 1 else 0).
Proof.
  intros V. destruct (valid_date_fields d V) as (_ & Hm & Hd).
  split_month Hm; calendar; rewrite M in *; calendar;
    destruct (is_leap (year d)); lia.
Qed.

(** Comparing two dates by their fields is comparing their ordinals. *)
Lemma date_compare_toordinal a b :
  valid_date a -> valid_date b ->
  date_compare a b = (toordinal a ?= toordinal b).
Proof.
  intros Va Vb. unfold date_compare.
  assert (T : forall d, toordinal d = days_before_year (year d) + tm_yday d).
  { intros d. unfold toordinal, tm_yday. lia. }
  rewrite !T.
  pose proof (tm_yday_bounds a Va) as Ba. pose proof (tm_yday_bounds b Vb) as Bb.
  pose proof (tm_yday_upper a Va) as Ua. pose proof (tm_yday_upper b Vb) as Ub.
  destruct (Z.compare_spec (year a) (year b)) as [E|L|G].
  - rewrite E.
    destruct (Z.compare_spec (month a) (month b)) as [E'|L'|G'].
    + unfold tm_yday. rewrite E, E'.
      destruct (Z.compare_spec (day a) (day b)); symmetry;
        [apply Z.compare_eq_iff | apply Z.compare_lt_iff | apply Z.compare_gt_iff]; lia.
    + pose proof (tm_yday_month_lt a b Va Vb E L').
      symmetry. apply Z.compare_lt_iff. lia.
    + pose proof (tm_yday_month_lt b a Vb Va (eq_sym E) G').
      symmetry. apply Z.compare_gt_iff. lia.
  - pose proof (days_before_year_succ (year a)) as S.
    pose proof (days_before_year_mono (year a + 1) (year b) ltac:(lia)).
    symmetry. apply Z.compare_lt_iff. lia.
  - pose proof (days_before_year_succ (year b)) as S.
    pose proof (days_before_year_mono (year b + 1) (year a) ltac:(lia)).
    symmetry. apply Z.compare_gt_iff. lia.
Qed.

Lemma date_le_toordinal a b :
  valid_date a -> valid_date b ->
  (date_le a b <-> toordinal a <= toordinal b).
Proof.
  intros Va Vb. unfold date_le, date_leb.
  rewrite (date_compare_toordinal a b Va Vb).
  destruct (Z.compare_spec (toordinal a) (toordinal b)); split; intros; try lia;
    try reflexivity; discriminate.
Qed.

Lemma date_eqb_eq a b : date_eqb a b = true <-> a = b.
Proof.
  unfold date_eqb, date_compare. destruct a as [ya ma da], b as [yb mb db]; simpl.
  destruct (Z.compare_spec ya yb); [|split; [discriminate | intros [=]; lia]..].
  destruct (Z.compare_spec ma mb); [|split; [discriminate | intros [=]; lia]..].
  destruct (Z.compare_spec da db); [|split; [discriminate | intros [=]; lia]..].
  subst. tauto.
Qed.

(* ------------------------------------------------------------------ *)
(** *** The seasonal ordinal in closed form *)

(** Where the ordinal is defined it is the distance, in days, from the
    June 30 that precedes the season. *)
Lemma get_seasonal_ordinal_defined d :
  valid_date d -> 7 <= month d \/ MINYEAR < year d ->
  exists n, get_seasonal_ordinal d = Returns n /\
            toordinal d - n =
            days_before_year (season_start_year d) +
            tm_yday (mkdate (season_start_year d) 6 30).
Proof.
  intros V H. unfold season_start_year.
  destruct (Z.leb_spec 7 (month d)) as [H7|H7].
  - eexists; split; [apply get_seasonal_ordinal_second_half_of_year; assumption|].
    unfold toordinal, tm_yday. cbn [year month day]. lia.
  - destruct H as [H|H]; [lia|].
    eexists; split; [apply get_seasonal_ordinal_first_half_of_year; assumption|].
    rewrite second_half_length.
    pose proof (days_before_year_succ (year d - 1)) as S.
    replace (year d - 1 + 1) with (year d) in S by lia.
    rewrite tm_yday_june_30. unfold toordinal, tm_yday. lia.
Qed.

(* ------------------------------------------------------------------ *)
(** *** Decimal numerals and season labels *)

Lemma to_int_not_nil n :
  Z.to_int n <> Decimal.Pos Decimal.Nil /\ Z.to_int n <> Decimal.Neg Decimal.Nil.
Proof.
  destruct n as [|p|p]; simpl; split; try discriminate;
    intros [= H]; exact (Unsigned.to_uint_nonnil p H).
Qed.

Lemma str_inj a b : str a = str b -> a = b.
Proof.
  unfold str. intros H.
  apply (f_equal NilZero.int_of_string) in H.
  destruct (to_int_not_nil a) as [A1 A2]. destruct (to_int_not_nil b) as [B1 B2].
  rewrite !NilZero.isi in H by assumption.
  injection H as H. apply (f_equal Z.of_int) in H.
  now rewrite !DecimalZ.of_to in H.
Qed.

Lemma string_of_uint_no_slash d :
  contains_char "/" (NilEmpty.string_of_uint d) = false.
Proof. induction d; simpl; auto. Qed.

Lemma str_no_slash n : contains_char "/" (str n) = false.
Proof.
  unfold str. destruct (Z.to_int n) as [d|d]; simpl.
  - destruct d; simpl; auto using string_of_uint_no_slash.
  - destruct d; simpl; auto using string_of_uint_no_slash.
Qed.

Lemma append_char_inj c s1 s2 t1 t2 :
  contains_char c s1 = false -> contains_char c s2 = false ->
  (s1 ++ String c t1)%string = (s2 ++ String c t2)%string ->
  s1 = s2 /\ t1 = t2.
Proof.
  revert s2. induction s1 as [|x s1 IH]; intros [|y s2]; simpl; intros H1 H2 E.
  - injection E as E. auto.
  - injection E as E1 E2. subst y. rewrite Ascii.eqb_refl in H2. discriminate.
  - injection E as E1 E2. subst x. rewrite Ascii.eqb_refl in H1. discriminate.
  - injection E as E1 E2. subst y.
    apply orb_false_iff in H1 as [_ H1]. apply orb_false_iff in H2 as [_ H2].
    destruct (IH s2 H1 H2 E2). subst. auto.
Qed.

(** Two dates have the same label exactly when their seasons start in the
    same year. *)
Lemma season_label_eq_iff a b :
  season_label a = season_label b <-> season_start_year a = season_start_year b.
Proof.
  unfold season_label. split; [|now intros ->].
  intros E.
  apply (append_char_inj "/"%char) in E; auto using str_no_slash.
  destruct E as [E _]. now apply str_inj.
Qed.

Lemma string_append_assoc (a b c : string) :
  ((a ++ b) ++ c)%string = (a ++ (b ++ c))%string.
Proof.
  induction a as [|x a IH]; [reflexivity|].
  change (String x ((a ++ b) ++ c) = String x (a ++ (b ++ c)))%string.
  now rewrite IH.
Qed.

(** The vectorised computation of the column agrees with the labelling of
    each date on its own. *)
Lemma year_start_pointwise idx : year_start idx = map season_start_year idx.
Proof.
  unfold year_start, index_year, index_month, season_start_year.
  induction idx as [|d idx IH]; simpl; [reflexivity|].
  now rewrite IH.
Qed.

Lemma seizoen_column_pointwise idx : seizoen_column idx = map season_label idx.
Proof.
  unfold seizoen_column, year_end, astype_str, Index_add_scalar.
  rewrite year_start_pointwise. unfold season_label.
  induction idx as [|d idx IH]; simpl; [reflexivity|].
  rewrite IH. f_equal.
  apply string_append_assoc.
Qed.

Lemma add_column_map (df : DataFrame) (f : date -> string) :
  add_column df (map f (index df)) =
  map (fun e => mkrow (fst e) (snd e) (f (fst e))) df.
Proof.
  unfold index. induction df as [|[d x] df IH]; simpl; [reflexivity|].
  now rewrite IH.
Qed.

Lemma temp_df_of_map df :
  temp_df_of df = map (fun e => mkrow (fst e) (snd e) (season_label (fst e))) df.
Proof. unfold temp_df_of. rewrite seizoen_column_pointwise. apply add_column_map. Qed.

Lemma get_seasonal_ordinal_defined_iff d :
  valid_date d ->
  (7 <= month d \/ MINYEAR < year d <-> MINYEAR <= season_start_year d).
Proof.
  intros V. destruct (valid_date_fields d V) as (Hy & _ & _).
  unfold season_start_year. destruct (Z.leb_spec 7 (month d)); lia.
Qed.

Lemma get_seasonal_ordinal_Returns d n :
  valid_date d -> get_seasonal_ordinal d = Returns n ->
  7 <= month d \/ MINYEAR < year d.
Proof.
  intros V H. destruct (valid_date_fields d V) as (Hy & _ & _).
  destruct (Z.le_gt_cases 7 (month d)) as [|Hm]; [now left|].
  destruct (Z.eq_dec (year d) MINYEAR) as [E|E]; [|right; lia].
  rewrite (get_seasonal_ordinal_year_1 d V) in H by lia. discriminate.
Qed.

Lemma next_day_valid d :
  valid_date d -> year d < MAXYEAR \/ month d < 12 \/ day d < 31 ->
  valid_date (next_day d) /\ toordinal (next_day d) = toordinal d + 1.
Proof.
  intros V Hmax. destruct (valid_date_fields d V) as (Hy & Hm & Hd).
  unfold next_day.
  destruct (Z.ltb_spec (day d) (days_in_month (year d) (month d))) as [L|L].
  - split; [apply valid_date_intro; lia|].
    unfold toordinal; cbn [year month day]. lia.
  - destruct (Z.ltb_spec (month d) 12) as [L2|L2].
    + split.
      * apply valid_date_intro; try lia.
        unfold days_in_month in *.
        split_month Hm; rewrite M in *; try lia; repeat calendar_step;
          destruct (is_leap (year d)); cbn [andb] in *; lia.
      * unfold toordinal, days_before_month; cbn [year month day].
        unfold days_in_month in *.
        split_month Hm; rewrite M in *; try lia; repeat calendar_step;
          destruct (is_leap (year d)); cbn [andb] in *; lia.
    + assert (M : month d = 12) by lia.
      unfold days_in_month in *. rewrite M in *. repeat calendar_step.
      cbn [andb] in *.
      split; [apply valid_date_intro; [lia | lia | ]|].
      * unfold days_in_month. repeat calendar_step. cbn [andb]. lia.
      * unfold toordinal, days_before_month; cbn [year month day].
        rewrite M, days_before_year_succ. repeat calendar_step. cbn [andb].
        destruct (is_leap (year d)); lia.
Qed.

Lemma next_day_season_start d :
  valid_date d ->
  (season_start_year (next_day d) <> season_start_year d <->
   month (next_day d) = 7 /\ day (next_day d) = 1).
Proof.
  intros V. destruct (valid_date_fields d V) as (Hy & Hm & Hd).
  unfold next_day, season_start_year.
  destruct (Z.ltb_spec (day d) (days_in_month (year d) (month d))) as [L|L];
    cbn [year month day].
  - destruct (Z.leb_spec 7 (month d)); lia.
  - destruct (Z.ltb_spec (month d) 12) as [L2|L2]; cbn [year month day].
    + destruct (Z.leb_spec 7 (month d)); destruct (Z.leb_spec 7 (month d + 1)); lia.
    + destruct (Z.leb_spec 7 (month d)); destruct (Z.leb_spec 7 1); lia.
Qed.

(* ------------------------------------------------------------------ *)
(** *** Properties of the seasonal ordinal *)

(** C9.  For every valid date the construction of June 30 of the date's
    year succeeds, so the [except ValueError] handler of
    [get_seasonal_ordinal] is never entered and the function computes what
    its [try] body alone computes. *)
Theorem june_30_construction_never_raises (d : date) :
  valid_date d ->
  date_new (year d) 6 30 = Returns (mkdate (year d) 6 30) /\
  enters_ValueError_handler d = false /\
  get_seasonal_ordinal d = get_seasonal_ordinal_no_handler d.
Proof.
  intros V. destruct (valid_date_fields d V) as (Hy & _ & _).
  pose proof (date_new_valid _ _ _ (june_30_valid _ Hy)) as E.
  unfold enters_ValueError_handler, get_seasonal_ordinal,
    get_seasonal_ordinal_no_handler.
  rewrite E. repeat split; reflexivity.
Qed.

Lemma june_30_construction_never_raises_witness :
  valid_date (mkdate 2024 2 29) /\
  (date_new 2024 6 30 = Returns (mkdate 2024 6 30) /\
   enters_ValueError_handler (mkdate 2024 2 29) = false /\
   get_seasonal_ordinal (mkdate 2024 2 29) =
   get_seasonal_ordinal_no_handler (mkdate 2024 2 29)).
Proof.
  split; [reflexivity|].
  apply (june_30_construction_never_raises (mkdate 2024 2 29)). reflexivity.
Defined.

(** C1, as amended.  For every valid date that is not in January to June
    of year 1, [get_seasonal_ordinal] returns: the day of the year minus
    the day of the year of June 30 of the same year when the month is at
    least 7; the day of the year plus the difference of the days of the
    year of December 31 and June 30 of the previous year when the month is
    below 7.  The result is 1 on July 1 and is positive. *)
Theorem seasonal_ordinal_formula (d : date) :
  valid_date d -> 7 <= month d \/ MINYEAR < year d ->
  exists n,
    get_seasonal_ordinal d = Returns n /\
    (7 <= month d -> n = tm_yday d - tm_yday (mkdate (year d) 6 30)) /\
    (month d < 7 ->
     n = tm_yday d + (tm_yday (mkdate (year d - 1) 12 31)
                      - tm_yday (mkdate (year d - 1) 6 30))) /\
    (month d = 7 -> day d = 1 -> n = 1) /\
    0 < n.
Proof.
  intros V H.
  destruct (Z.le_gt_cases 7 (month d)) as [H7|H7].
  - exists (tm_yday d - tm_yday (mkdate (year d) 6 30)).
    split; [now apply get_seasonal_ordinal_second_half_of_year|].
    pose proof (tm_yday_second_half d V H7).
    repeat split; try lia.
    intros M D. rewrite tm_yday_june_30. unfold tm_yday, days_before_month.
    rewrite M, D. repeat calendar_step. cbn [andb].
    destruct (is_leap (year d)); lia.
  - destruct H as [H|H]; [lia|].
    exists (tm_yday d + (tm_yday (mkdate (year d - 1) 12 31)
                         - tm_yday (mkdate (year d - 1) 6 30))).
    split; [now apply get_seasonal_ordinal_first_half_of_year|].
    pose proof (tm_yday_bounds d V). rewrite second_half_length.
    repeat split; lia.
Qed.

Lemma seasonal_ordinal_formula_witness :
  valid_date (mkdate 2020 11 15) /\
  (exists n,
     get_seasonal_ordinal (mkdate 2020 11 15) = Returns n /\
     (7 <= 11 -> n = tm_yday (mkdate 2020 11 15) - tm_yday (mkdate 2020 6 30)) /\
     (11 < 7 ->
      n = tm_yday (mkdate 2020 11 15)
          + (tm_yday (mkdate (2020 - 1) 12 31) - tm_yday (mkdate (2020 - 1) 6 30))) /\
     (11 = 7 -> 15 = 1 -> n = 1) /\
     0 < n).
Proof.
  split; [reflexivity|].
  apply (seasonal_ordinal_formula (mkdate 2020 11 15)); [reflexivity|].
  left. cbn. lia.
Defined.

(** C1, as stated, fails on 0001-01-01: the date is valid, and the call
    raises [ValueError] when it builds December 31 of year 0, so there is
    no result at all, positive or otherwise. *)
Lemma seasonal_ordinal_raises_in_year_1 :
  valid_date (mkdate 1 1 1) /\
  get_seasonal_ordinal (mkdate 1 1 1) = Raises ValueError /\
  ~ (exists n, get_seasonal_ordinal (mkdate 1 1 1) = Returns n /\ 0 < n).
Proof.
  split; [reflexivity|]. split; [reflexivity|].
  intros [n [H _]]. discriminate H.
Qed.

(** C3, as amended.  For every season Y/Y+1 whose two years are calendar
    years, the seasonal ordinal of June 30 of year Y+1, the last day of the
    season, is 366 if the ending year Y+1 is a leap year and 365
    otherwise. *)
Theorem june_30_ordinal_by_ending_year (Y : Z) :
  MINYEAR <= Y -> Y + 1 <= MAXYEAR ->
  season_label (mkdate (Y + 1) 6 30) = (str Y ++ "/" ++ str (Y + 1))%string /\
  get_seasonal_ordinal (mkdate (Y + 1) 6 30) =
  Returns (if is_leap (Y + 1) then 366 else 365).
Proof.
  intros H1 H2. split.
  - unfold season_label, season_start_year. cbn [year month day].
    change (7 <=? 6) with false. cbv iota.
    now replace (Y + 1 - 1) with Y by lia.
  - assert (V : valid_date (mkdate (Y + 1) 6 30))
      by (apply june_30_valid; unfold MINYEAR in *; lia).
    rewrite (get_seasonal_ordinal_first_half_of_year _ V)
      by (cbn [year month]; unfold MINYEAR in *; lia).
    cbn [year month day].
    rewrite second_half_length, tm_yday_june_30.
    destruct (is_leap (Y + 1)); reflexivity.
Qed.

Lemma june_30_ordinal_by_ending_year_witness :
  MINYEAR <= 2019 /\ 2019 + 1 <= MAXYEAR /\
  (season_label (mkdate (2019 + 1) 6 30) = (str 2019 ++ "/" ++ str (2019 + 1))%string /\
   get_seasonal_ordinal (mkdate (2019 + 1) 6 30) =
   Returns (if is_leap (2019 + 1) then 366 else 365)).
Proof.
  split; [unfold MINYEAR; lia|]. split; [unfold MAXYEAR; lia|].
  apply (june_30_ordinal_by_ending_year 2019); [unfold MINYEAR | unfold MAXYEAR]; lia.
Defined.

(** C3, as stated, fails on the seasons 2019/2020 and 2020/2021: 2019 is
    not a leap year and June 30 of 2020 has ordinal 366; 2020 is a leap
    year and June 30 of 2021 has ordinal 365. *)
Lemma june_30_ordinal_not_by_starting_year :
  (season_label (mkdate 2020 6 30) = "2019/2020"%string /\
   is_leap 2019 = false /\
   get_seasonal_ordinal (mkdate 2020 6 30) = Returns 366 /\
   get_seasonal_ordinal (mkdate 2020 6 30)
   <> Returns (if is_leap 2019 then 366 else 365)) /\
  (season_label (mkdate 2021 6 30) = "2020/2021"%string /\
   is_leap 2020 = true /\
   get_seasonal_ordinal (mkdate 2021 6 30) = Returns 365 /\
   get_seasonal_ordinal (mkdate 2021 6 30)
   <> Returns (if is_leap 2020 then 366 else 365)).
Proof.
  repeat split; try reflexivity; vm_compute; discriminate.
Qed.

(** C2.  For valid dates D1 and D2 with the same season label, whenever
    the two ordinals are computed they compare as the dates do, and they
    differ by the number of days between the dates; both are computed as
    soon as the season starts in a calendar year.  In particular the
    ordinal of January 1 is one more than the ordinal of the December 31
    before it, which lies in the same season one day earlier. *)
Theorem seasonal_ordinal_orders_season (D1 D2 : date) :
  valid_date D1 -> valid_date D2 -> season_label D1 = season_label D2 ->
  (forall o1 o2,
     get_seasonal_ordinal D1 = Returns o1 ->
     get_seasonal_ordinal D2 = Returns o2 ->
     (o1 <= o2 <-> date_le D1 D2) /\ o2 - o1 = days_between D2 D1) /\
  (7 <= month D1 \/ MINYEAR < year D1 ->
   exists o1 o2,
     get_seasonal_ordinal D1 = Returns o1 /\ get_seasonal_ordinal D2 = Returns o2) /\
  (forall Y, MINYEAR <= Y < MAXYEAR ->
     season_label (mkdate Y 12 31) = season_label (mkdate (Y + 1) 1 1) /\
     days_between (mkdate (Y + 1) 1 1) (mkdate Y 12 31) = 1 /\
     exists o,
       get_seasonal_ordinal (mkdate Y 12 31) = Returns o /\
       get_seasonal_ordinal (mkdate (Y + 1) 1 1) = Returns (o + 1)).
Proof.
  intros V1 V2 L. apply season_label_eq_iff in L.
  assert (Diff : forall o1 o2,
             get_seasonal_ordinal D1 = Returns o1 ->
             get_seasonal_ordinal D2 = Returns o2 ->
             o2 - o1 = days_between D2 D1).
  { intros o1 o2 E1 E2.
    destruct (get_seasonal_ordinal_defined D1 V1
                (get_seasonal_ordinal_Returns D1 o1 V1 E1)) as (n1 & N1 & F1).
    destruct (get_seasonal_ordinal_defined D2 V2
                (get_seasonal_ordinal_Returns D2 o2 V2 E2)) as (n2 & N2 & F2).
    rewrite E1 in N1. rewrite E2 in N2. injection N1 as <-. injection N2 as <-.
    unfold days_between. rewrite L in F1. lia. }
  split; [|split].
  - intros o1 o2 E1 E2. split; [|now apply Diff].
    rewrite (date_le_toordinal D1 D2 V1 V2).
    pose proof (Diff o1 o2 E1 E2) as D. unfold days_between in D. lia.
  - intros H1.
    destruct (get_seasonal_ordinal_defined D1 V1 H1) as (n1 & N1 & _).
    apply (get_seasonal_ordinal_defined_iff D1 V1) in H1. rewrite L in H1.
    apply (get_seasonal_ordinal_defined_iff D2 V2) in H1.
    destruct (get_seasonal_ordinal_defined D2 V2 H1) as (n2 & N2 & _).
    eauto.
  - intros Y HY.
    assert (Va : valid_date (mkdate Y 12 31))
      by (apply december_31_valid; unfold MAXYEAR in *; lia).
    assert (Vb : valid_date (mkdate (Y + 1) 1 1)).
    { apply valid_date_intro; unfold MINYEAR, MAXYEAR in *; try lia.
      unfold days_in_month. repeat calendar_step. cbn [andb]. lia. }
    split; [|split].
    + apply season_label_eq_iff. unfold season_start_year; cbn [year month day].
      change (7 <=? 12) with true. change (7 <=? 1) with false. cbv iota. lia.
    + unfold days_between, toordinal, days_before_month; cbn [year month day].
      rewrite days_before_year_succ. repeat calendar_step. cbn [andb].
      destruct (is_leap Y); lia.
    + rewrite (get_seasonal_ordinal_second_half_of_year _ Va)
        by (cbn [month]; lia).
      rewrite (get_seasonal_ordinal_first_half_of_year _ Vb)
        by (cbn [year month]; unfold MINYEAR in *; lia).
      cbn [year month day]. eexists; split; [reflexivity|]. f_equal.
      replace (Y + 1 - 1) with Y by lia.
      rewrite tm_yday_december_31, tm_yday_june_30.
      unfold tm_yday, days_before_month; cbn [year month day].
      repeat calendar_step. cbn [andb]. destruct (is_leap Y); lia.
Qed.

Lemma seasonal_ordinal_orders_season_witness :
  valid_date (mkdate 2020 11 15) /\ valid_date (mkdate 2021 3 2) /\
  season_label (mkdate 2020 11 15) = season_label (mkdate 2021 3 2) /\
  (138 <= 245 <-> date_le (mkdate 2020 11 15) (mkdate 2021 3 2)) /\
  245 - 138 = days_between (mkdate 2021 3 2) (mkdate 2020 11 15).
Proof.
  split; [reflexivity|]. split; [reflexivity|]. split; [reflexivity|].
  apply (seasonal_ordinal_orders_season (mkdate 2020 11 15) (mkdate 2021 3 2));
    reflexivity.
Defined.

(* ------------------------------------------------------------------ *)
(** *** Season labels *)

Lemma add_column_length (df : DataFrame) (col : list string) :
  List.length col = List.length df ->
  List.length (add_column df col) = List.length df.
Proof.
  revert col. induction df as [|[d x] df IH]; intros [|s col]; simpl; intros H;
    try reflexivity; try discriminate.
  f_equal. apply IH. now injection H.
Qed.

(** C7.  The column ['Seizoen'] that the record engine assigns holds, for
    every row, the label "Y/Y+1" of the row's date, where Y is the year of
    the date when its month is at least 7 and the year before otherwise;
    there is one label per row and no other start year gives the same
    label; and the label of the day after a valid date differs from the
    label of the date exactly when that next day is a July 1. *)
Theorem season_label_assignment (df : DataFrame) (d : date) :
  valid_date d -> year d < MAXYEAR \/ month d < 12 \/ day d < 31 ->
  (map r_seizoen (temp_df_of df) = map season_label (index df) /\
   map r_date (temp_df_of df) = index df /\
   List.length (temp_df_of df) = List.length df) /\
  (let Y := if 7 <=? month d then year d else year d - 1 in
   season_label d = (str Y ++ "/" ++ str (Y + 1))%string /\
   forall Y', season_label d = (str Y' ++ "/" ++ str (Y' + 1))%string -> Y' = Y) /\
  (valid_date (next_day d) /\ days_between (next_day d) d = 1 /\
   (season_label (next_day d) <> season_label d <->
    month (next_day d) = 7 /\ day (next_day d) = 1)).
Proof.
  intros V Hmax. split; [|split].
  - rewrite temp_df_of_map, !map_map, length_map. unfold index.
    rewrite map_map. cbn [r_seizoen r_date].
    split; [reflexivity|]. split; [|reflexivity].
    apply map_ext. reflexivity.
  - cbv zeta. split; [reflexivity|].
    intros Y' E. unfold season_label in E.
    apply (append_char_inj "/"%char) in E; auto using str_no_slash.
    destruct E as [E _]. apply str_inj in E. unfold season_start_year in E.
    now symmetry.
  - destruct (next_day_valid d V Hmax) as [V' T].
    split; [assumption|]. split; [unfold days_between; lia|].
    rewrite season_label_eq_iff. apply (next_day_season_start d V).
Qed.

Lemma season_label_assignment_witness :
  valid_date (mkdate 2021 6 30) /\
  (2021 < MAXYEAR \/ 6 < 12 \/ 30 < 31) /\
  season_label (mkdate 2021 6 30) = "2020/2021"%string /\
  season_label (next_day (mkdate 2021 6 30)) = "2021/2022"%string /\
  (season_label (next_day (mkdate 2021 6 30)) <> season_label (mkdate 2021 6 30) <->
   month (next_day (mkdate 2021 6 30)) = 7 /\ day (next_day (mkdate 2021 6 30)) = 1).
Proof.
  split; [reflexivity|]. split; [left; reflexivity|].
  split; [reflexivity|]. split; [reflexivity|].
  apply (season_label_assignment [] (mkdate 2021 6 30)); [reflexivity|].
  left. reflexivity.
Defined.

(* ------------------------------------------------------------------ *)
(** *** Sorting, maxima and distinct values *)

Section SortFacts.
Context {A : Type} (key : A -> Z).

Lemma insert_sorted_perm (leb : A -> A -> bool) x l :
  Permutation (insert_sorted leb x l) (x :: l).
Proof.
  induction l as [|y l IH]; simpl; [reflexivity|].
  destruct (leb x y); [reflexivity|].
  rewrite IH. apply perm_swap.
Qed.

Lemma stable_sort_perm (leb : A -> A -> bool) l :
  Permutation (stable_sort leb l) l.
Proof.
  induction l as [|x l IH]; simpl; [reflexivity|].
  rewrite insert_sorted_perm. now constructor.
Qed.

Lemma insert_sorted_sorted x l :
  StronglySorted (fun a b => key a <= key b) l ->
  StronglySorted (fun a b => key a <= key b)
                 (insert_sorted (fun a b => key a <=? key b) x l).
Proof.
  induction 1 as [|y l S IH F]; simpl; [repeat constructor|].
  destruct (Z.leb_spec (key x) (key y)) as [L|L].
  - constructor; [now constructor|].
    constructor; [exact L|].
    eapply Forall_impl; [|exact F]. cbn. intros; lia.
  - constructor; [exact IH|].
    eapply Permutation_Forall; [symmetry; apply insert_sorted_perm|].
    constructor; [lia | exact F].
Qed.

Lemma stable_sort_sorted l :
  StronglySorted (fun a b => key a <= key b)
                 (stable_sort (fun a b => key a <=? key b) l).
Proof.
  induction l as [|x l IH]; simpl; [constructor|].
  now apply insert_sorted_sorted.
Qed.

Lemma StronglySorted_snoc (R : A -> A -> Prop) l x :
  StronglySorted R l -> Forall (fun y => R y x) l -> StronglySorted R (l ++ [x]).
Proof.
  induction 1 as [|y l S IH F]; intros H; simpl; [repeat constructor|].
  inversion H as [|? ? Hy Hl]; subst.
  constructor; [now apply IH|].
  apply Forall_app. split; [exact F | repeat constructor; exact Hy].
Qed.

Lemma StronglySorted_rev (R : A -> A -> Prop) l :
  StronglySorted R l -> StronglySorted (fun a b => R b a) (rev l).
Proof.
  induction 1 as [|y l S IH F]; simpl; [constructor|].
  apply StronglySorted_snoc; [exact IH|].
  apply Forall_rev. exact F.
Qed.

Lemma sort_values_perm asc l : Permutation (sort_values key asc l) l.
Proof.
  unfold sort_values. destruct asc.
  - apply stable_sort_perm.
  - rewrite <- Permutation_rev, stable_sort_perm. symmetry. apply Permutation_rev.
Qed.

Lemma sort_values_descending l :
  StronglySorted (fun a b => key b <= key a) (sort_values key false l).
Proof.
  unfold sort_values.
  apply (StronglySorted_rev (fun a b => key a <= key b)). apply stable_sort_sorted.
Qed.

Lemma sort_values_ascending l :
  StronglySorted (fun a b => key a <= key b) (sort_values key true l).
Proof. unfold sort_values. apply stable_sort_sorted. Qed.

End SortFacts.

Lemma StronglySorted_firstn {A : Type} (R : A -> A -> Prop) n l :
  StronglySorted R l -> StronglySorted R (firstn n l).
Proof.
  intros S. revert n. induction S as [|x l S IH F]; intros [|n]; simpl;
    try constructor; [apply IH|].
  rewrite Forall_forall in *. intros y Hy. apply F.
  rewrite <- (firstn_skipn n l). apply in_or_app. now left.
Qed.

Lemma StronglySorted_firstn_skipn {A : Type} (R : A -> A -> Prop) n l x y :
  StronglySorted R l -> In x (firstn n l) -> In y (skipn n l) -> R x y.
Proof.
  intros S. revert n. induction S as [|z l S IH F]; intros [|n]; simpl;
    try contradiction.
  intros [->|Hx] Hy.
  - rewrite Forall_forall in F. apply F.
    rewrite <- (firstn_skipn n l). apply in_or_app. now right.
  - now apply (IH n).
Qed.

Lemma fold_left_max_ge l x :
  x <= fold_left Z.max l x /\ Forall (fun y => y <= fold_left Z.max l x) l.
Proof.
  revert x. induction l as [|y l IH]; intros x; simpl; [split; [lia|constructor]|].
  destruct (IH (Z.max x y)) as [H1 H2].
  split; [lia|]. constructor; [lia | exact H2].
Qed.

Lemma fold_left_max_In l x : In (fold_left Z.max l x) (x :: l).
Proof.
  revert x. induction l as [|y l IH]; intros x; simpl; [now left|].
  destruct (IH (Z.max x y)) as [H|H]; [|now right; right].
  destruct (Z.max_spec x y) as [[_ E]|[_ E]]; [right; left | left]; congruence.
Qed.

(** The maximum of a non-empty series is one of its values and bounds
    them all. *)
Lemma series_max_spec l :
  l <> [] -> In (series_max l) l /\ forall y, In y l -> y <= series_max l.
Proof.
  destruct l as [|x l]; [congruence|]. intros _. unfold series_max.
  split; [apply fold_left_max_In|].
  destruct (fold_left_max_ge l x) as [H1 H2]. rewrite Forall_forall in H2.
  intros y [<-|Hy]; auto.
Qed.

Section UniqueFacts.
Context {A : Type} (eqb : A -> A -> bool).
Hypothesis eqb_eq : forall a b, eqb a b = true <-> a = b.

Lemma unique_In x l : In x (unique eqb l) <-> In x l.
Proof.
  induction l as [|y l IH]; simpl; [tauto|].
  rewrite filter_In, IH, negb_true_iff.
  destruct (eqb x y) eqn:E.
  - apply eqb_eq in E. subst. tauto.
  - assert (N : y <> x).
    { intros ->. assert (T : eqb x x = true) by now apply eqb_eq. congruence. }
    tauto.
Qed.

Lemma unique_NoDup l : NoDup (unique eqb l).
Proof.
  induction l as [|y l IH]; simpl; constructor.
  - rewrite filter_In, negb_true_iff. intros [_ H].
    assert (E : eqb y y = true) by now apply eqb_eq. congruence.
  - now apply NoDup_filter.
Qed.

End UniqueFacts.

(* ------------------------------------------------------------------ *)
(** *** The record engine *)

Lemma filter_map_commute {A B : Type} (f : B -> bool) (g : A -> B) l :
  filter f (map g l) = map g (filter (fun x => f (g x)) l).
Proof.
  induction l as [|x l IH]; simpl; [reflexivity|].
  destruct (f (g x)); simpl; now rewrite IH.
Qed.

Lemma snow_days_of_temp_df df :
  snow_days_of (temp_df_of df) =
  map (fun e => mkrow (fst e) (snd e) (season_label (fst e)))
      (filter (fun e => 0 <? snd e) df).
Proof.
  unfold snow_days_of. rewrite temp_df_of_map, filter_map_commute. reflexivity.
Qed.

Lemma snow_dates_temp_df df :
  map r_date (snow_days_of (temp_df_of df)) = snow_dates df.
Proof.
  rewrite snow_days_of_temp_df, map_map. unfold snow_dates.
  apply map_ext. reflexivity.
Qed.

Lemma In_snow_dates df d :
  In d (snow_dates df) <-> exists x, In (d, x) df /\ 0 < x.
Proof.
  unfold snow_dates. rewrite in_map_iff. split.
  - intros ([d' x] & E & H). simpl in E. subst d'.
    apply filter_In in H as [H1 H2]. apply Z.ltb_lt in H2. eauto.
  - intros (x & H1 & H2). exists (d, x). split; [reflexivity|].
    apply filter_In. split; [assumption | now apply Z.ltb_lt].
Qed.

Lemma groupby_keys_perm rows :
  Permutation (groupby_keys rows) (unique String.eqb (map r_seizoen rows)).
Proof. apply stable_sort_perm. Qed.

Lemma groupby_keys_In rows k :
  In k (groupby_keys rows) <-> exists r, In r rows /\ r_seizoen r = k.
Proof.
  assert (P : In k (groupby_keys rows) <->
              In k (unique String.eqb (map r_seizoen rows))).
  { split; apply Permutation_in;
      [apply groupby_keys_perm | symmetry; apply groupby_keys_perm]. }
  rewrite P, (unique_In String.eqb String.eqb_eq), in_map_iff.
  split; intros (r & H1 & H2); eauto.
Qed.

Lemma groupby_keys_NoDup rows : NoDup (groupby_keys rows).
Proof.
  eapply Permutation_NoDup; [symmetry; apply groupby_keys_perm|].
  apply (unique_NoDup String.eqb String.eqb_eq).
Qed.

Lemma group_In k rows r :
  In r (group k rows) <-> In r rows /\ r_seizoen r = k.
Proof. unfold group. now rewrite filter_In, String.eqb_eq. Qed.

Lemma groupby_max_keys rows : map fst (groupby_max rows) = groupby_keys rows.
Proof. unfold groupby_max. rewrite map_map. cbn. apply map_id. Qed.

(** Each row of the table of maxima holds a season of the frame with the
    largest depth among all rows of that season. *)
Lemma groupby_max_spec rows s m :
  In (s, m) (groupby_max rows) ->
  (exists r, In r rows /\ r_seizoen r = s /\ r_depth r = m) /\
  (forall r, In r rows -> r_seizoen r = s -> r_depth r <= m).
Proof.
  unfold groupby_max. rewrite in_map_iff. intros (k & E & Hk).
  injection E as -> <-.
  apply groupby_keys_In in Hk as (r0 & Hr0 & Hs0).
  assert (NE : map r_depth (group s rows) <> []).
  { intros N. apply map_eq_nil in N.
    assert (I : In r0 (group s rows)) by now apply group_In.
    rewrite N in I. contradiction. }
  destruct (series_max_spec _ NE) as [Hin Hub]. split.
  - apply in_map_iff in Hin as (r & E & Hr). apply group_In in Hr as [Hr Hs]. eauto.
  - intros r Hr Hs. apply Hub. apply in_map. now apply group_In.
Qed.

Lemma firstn_length_min {A : Type} n (l : list A) :
  List.length (firstn n l) = Nat.min n (List.length l).
Proof. apply length_firstn. Qed.

Lemma In_firstn {A : Type} n (l : list A) x : In x (firstn n l) -> In x l.
Proof.
  intros H. rewrite <- (firstn_skipn n l). apply in_or_app. now left.
Qed.

Lemma NoDup_firstn {A : Type} n (l : list A) : NoDup l -> NoDup (firstn n l).
Proof.
  intros H. rewrite <- (firstn_skipn n l) in H. now apply NoDup_app_remove_r in H.
Qed.

Lemma mapM_Returns {A B : Type} (f : A -> outcome B) l :
  (forall x, In x l -> exists y, f x = Returns y) ->
  exists ys, mapM f l = Returns ys.
Proof.
  induction l as [|x l IH]; intros H; simpl; [eauto|].
  destruct (H x (or_introl eq_refl)) as [y ->].
  destruct IH as [ys ->]; [intros; apply H; now right|].
  simpl. eauto.
Qed.

Lemma fold_left_date_min2_In l x : In (fold_left date_min2 l x) (x :: l).
Proof.
  revert x. induction l as [|y l IH]; intros x; simpl; [now left|].
  destruct (IH (date_min2 x y)) as [H|H]; [|now right; right].
  unfold date_min2 in H at 1. destruct (date_leb x y); [left | right; left]; exact H.
Qed.

Lemma fold_left_date_max2_In l x : In (fold_left date_max2 l x) (x :: l).
Proof.
  revert x. induction l as [|y l IH]; intros x; simpl; [now left|].
  destruct (IH (date_max2 x y)) as [H|H]; [|now right; right].
  unfold date_max2 in H at 1. destruct (date_leb x y); [right; left | left]; exact H.
Qed.

Lemma index_min_In l d : index_min l = Some d -> In d l.
Proof.
  destruct l as [|x l]; simpl; [discriminate|]. intros [= <-].
  apply fold_left_date_min2_In.
Qed.

Lemma index_max_In l d : index_max l = Some d -> In d l.
Proof.
  destruct l as [|x l]; simpl; [discriminate|]. intros [= <-].
  apply fold_left_date_max2_In.
Qed.

Lemma groupby_index_min_In rows s d :
  In (s, d) (groupby_index_min rows) -> In d (map r_date rows).
Proof.
  unfold groupby_index_min. rewrite in_flat_map. intros (k & _ & H).
  destruct (index_min (map r_date (group k rows))) as [d'|] eqn:E; [|contradiction].
  destruct H as [[= <- <-]|[]].
  apply index_min_In in E. apply in_map_iff in E as (r & <- & Hr).
  apply in_map. now apply group_In in Hr.
Qed.

Lemma groupby_index_max_In rows s d :
  In (s, d) (groupby_index_max rows) -> In d (map r_date rows).
Proof.
  unfold groupby_index_max. rewrite in_flat_map. intros (k & _ & H).
  destruct (index_max (map r_date (group k rows))) as [d'|] eqn:E; [|contradiction].
  destruct H as [[= <- <-]|[]].
  apply index_max_In in E. apply in_map_iff in E as (r & <- & Hr).
  apply in_map. now apply group_In in Hr.
Qed.

Lemma ordinal_ranking_Returns asc tbl :
  (forall s d, In (s, d) tbl -> ordinal_defined d) ->
  exists r, ordinal_ranking asc tbl = Returns r.
Proof.
  intros H. unfold ordinal_ranking, add_seasonal_ordinal.
  destruct (mapM_Returns
              (fun sd => o <- get_seasonal_ordinal (snd sd);; Returns (sd, o)) tbl)
    as [t ->].
  - intros [s d] Hin. cbn [snd]. destruct (H s d Hin) as [V D].
    destruct (get_seasonal_ordinal_defined d V D) as (n & -> & _).
    simpl. eauto.
  - simpl. eauto.
Qed.

(** With at least one snow day, all of them on dates whose ordinal is
    defined, the engine returns a dictionary of records; its first ranking
    is [yearly_max] of the whole frame and its longest period is
    [longest_streak] of the snow dates. *)
Lemma calculate_snow_records_Returns df :
  (exists e, In e df /\ 0 < snd e) ->
  (forall e, In e df -> 0 < snd e -> ordinal_defined (fst e)) ->
  exists rs,
    calculate_snow_records df = Returns (Some rs) /\
    top10_hoogste_max rs = yearly_max (temp_df_of df) /\
    absoluut_langste_periode rs =
      option_map format_streak (longest_streak (snow_dates df)) /\
    totaal_dagen_met_sneeuw rs = Some (Z.of_nat (List.length (snow_dates df))).
Proof.
  intros (e0 & Hin0 & Hpos0) Hdef.
  unfold calculate_snow_records, records_of_temp_df.
  change (filter (fun r => 0 <? r_depth r) (temp_df_of df))
    with (snow_days_of (temp_df_of df)).
  assert (D : forall d, In d (map r_date (snow_days_of (temp_df_of df))) ->
                        ordinal_defined d).
  { intros d Hd. rewrite snow_dates_temp_df in Hd.
    apply In_snow_dates in Hd as (x & H1 & H2). exact (Hdef (d, x) H1 H2). }
  assert (NE : In (fst e0) (snow_dates df)).
  { apply In_snow_dates. exists (snd e0). now destruct e0. }
  rewrite <- snow_dates_temp_df in NE.
  destruct (snow_days_of (temp_df_of df)) as [|r0 sd] eqn:Esd; [contradiction|].
  rewrite <- Esd in *.
  destruct (ordinal_ranking_Returns true (groupby_index_min (snow_days_of (temp_df_of df))))
    as [r1 ->]; [intros s d H; apply D; eapply groupby_index_min_In; eauto|].
  destruct (ordinal_ranking_Returns false (groupby_index_min (snow_days_of (temp_df_of df))))
    as [r2 ->]; [intros s d H; apply D; eapply groupby_index_min_In; eauto|].
  destruct (ordinal_ranking_Returns true (groupby_index_max (snow_days_of (temp_df_of df))))
    as [r3 ->]; [intros s d H; apply D; eapply groupby_index_max_In; eauto|].
  destruct (ordinal_ranking_Returns false (groupby_index_max (snow_days_of (temp_df_of df))))
    as [r4 ->]; [intros s d H; apply D; eapply groupby_index_max_In; eauto|].
  cbn [bind]. rewrite snow_dates_temp_df in *.
  destruct (snow_dates df) as [|d0 ds] eqn:Ed; [contradiction|].
  rewrite <- (length_map r_date), snow_dates_temp_df, Ed.
  eexists. split; [reflexivity|]. cbn. auto.
Qed.

(** Without a snow day the engine returns [None], and only then. *)
Lemma calculate_snow_records_None df :
  calculate_snow_records df = Returns None <->
  forall e, In e df -> ~ 0 < snd e.
Proof.
  unfold calculate_snow_records, records_of_temp_df.
  change (filter (fun r => 0 <? r_depth r) (temp_df_of df))
    with (snow_days_of (temp_df_of df)).
  split.
  - intros H e Hin Hpos.
    assert (I : In (fst e) (snow_dates df)).
    { apply In_snow_dates. exists (snd e). now destruct e. }
    rewrite <- snow_dates_temp_df in I.
    destruct (snow_days_of (temp_df_of df)) as [|r0 sd] eqn:Esd; [contradiction|].
    rewrite <- Esd in H.
    destruct (ordinal_ranking true _) in H; [|discriminate].
    destruct (ordinal_ranking false _) in H; [|discriminate].
    destruct (ordinal_ranking true _) in H; [|discriminate].
    destruct (ordinal_ranking false _) in H; [|discriminate].
    cbn [bind] in H.
    destruct (map r_date (snow_days_of (temp_df_of df))); discriminate.
  - intros H. rewrite snow_days_of_temp_df.
    destruct (filter (fun e => 0 <? snd e) df) as [|e l] eqn:E; [reflexivity|].
    exfalso. assert (I : In e (filter (fun e => 0 <? snd e) df)) by (rewrite E; now left).
    apply filter_In in I as [I1 I2]. apply Z.ltb_lt in I2. exact (H e I1 I2).
Qed.

Lemma In_temp_df df r :
  In r (temp_df_of df) <->
  exists e, In e df /\ r = mkrow (fst e) (snd e) (season_label (fst e)).
Proof.
  rewrite temp_df_of_map, in_map_iff. split; intros (e & H1 & H2); eauto.
Qed.

Lemma groupby_keys_temp_df df :
  Permutation (groupby_keys (temp_df_of df)) (seasons_of df).
Proof.
  unfold seasons_of. rewrite groupby_keys_perm.
  rewrite temp_df_of_map, map_map. unfold index. rewrite map_map. reflexivity.
Qed.

(** What ranking 1 holds, whatever the depths are. *)
Lemma yearly_max_spec df :
  let ranking := yearly_max (temp_df_of df) in
  (forall s m, In (s, m) ranking ->
     (exists e, In e df /\ season_label (fst e) = s /\ snd e = m) /\
     (forall e, In e df -> season_label (fst e) = s -> snd e <= m)) /\
  StronglySorted (fun a b => snd b <= snd a) ranking /\
  NoDup (map fst ranking) /\
  List.length ranking = Nat.min 10 (List.length (seasons_of df)) /\
  (forall e, In e df -> ~ In (season_label (fst e)) (map fst ranking) ->
     forall s m, In (s, m) ranking -> snd e <= m) /\
  (Nat.le (List.length (seasons_of df)) 10 ->
   forall e, In e df -> In (season_label (fst e)) (map fst ranking)).
Proof.
  cbv zeta. unfold yearly_max, head.
  set (table := groupby_max (temp_df_of df)).
  set (sorted := sort_values snd false table).
  assert (P : Permutation sorted table) by apply sort_values_perm.
  assert (S : StronglySorted (fun a b => snd b <= snd a) sorted)
    by apply sort_values_descending.
  assert (Spec : forall s m, In (s, m) sorted ->
     (exists e, In e df /\ season_label (fst e) = s /\ snd e = m) /\
     (forall e, In e df -> season_label (fst e) = s -> snd e <= m)).
  { intros s m H. apply (Permutation_in _ P) in H.
    destruct (groupby_max_spec _ _ _ H) as [(r & Hr & Hs & Hm) Hub]. split.
    - apply In_temp_df in Hr as (e & He & ->). cbn in Hs, Hm. eauto.
    - intros e He Hs'. apply (Hub (mkrow (fst e) (snd e) (season_label (fst e)))).
      + apply In_temp_df. eauto.
      + exact Hs'. }
  assert (K : Permutation (map fst sorted) (seasons_of df)).
  { rewrite P. unfold table. rewrite groupby_max_keys. apply groupby_keys_temp_df. }
  assert (All : forall e, In e df -> exists m, In (season_label (fst e), m) sorted).
  { intros e He.
    assert (I : In (season_label (fst e)) (map fst sorted)).
    { apply (Permutation_in _ (Permutation_sym K)). unfold seasons_of.
      apply (unique_In String.eqb String.eqb_eq). apply in_map.
      unfold index. now apply in_map. }
    apply in_map_iff in I as ([s m] & E & I). cbn in E. subst s. eauto. }
  split; [|split; [|split; [|split; [|split]]]].
  - intros s m H. apply Spec. eapply In_firstn; eauto.
  - now apply StronglySorted_firstn.
  - rewrite <- firstn_map. apply NoDup_firstn.
    eapply Permutation_NoDup; [symmetry; exact K|].
    apply (unique_NoDup String.eqb String.eqb_eq).
  - rewrite firstn_length_min. f_equal.
    rewrite <- (length_map fst). now apply Permutation_length.
  - intros e He Hnot s m Hin.
    destruct (All e He) as [m' Hm'].
    assert (Hs : In (season_label (fst e), m') (skipn 10 sorted)).
    { rewrite <- (firstn_skipn 10 sorted) in Hm'.
      apply in_app_or in Hm' as [Hm'|Hm']; [|exact Hm'].
      exfalso. apply Hnot. apply in_map_iff. exists (season_label (fst e), m'). auto. }
    pose proof (StronglySorted_firstn_skipn _ 10 sorted _ _ S Hin Hs) as Hle.
    cbn in Hle.
    assert (Hm'2 : In (season_label (fst e), m') sorted).
    { rewrite <- (firstn_skipn 10 sorted). apply in_or_app. now right. }
    destruct (Spec _ _ Hm'2) as [_ Hub]. specialize (Hub e He eq_refl). lia.
  - intros Hlen e He.
    destruct (All e He) as [m' Hm'].
    rewrite firstn_all2.
    + apply in_map_iff. exists (season_label (fst e), m'). auto.
    + rewrite <- (length_map fst), (Permutation_length K). exact Hlen.
Qed.

(** C5, as amended.  The engine returns [None] exactly for the series
    without an entry of positive depth, and a series whose depths are all
    zero gives [None]; a series with a positive depth gives a dictionary
    of records when its snow days lie on dates of the calendar outside
    January to June of year 1, where the seasonal ordinal is defined.
    This holds for every series, in particular for the non-empty ones
    with non-negative depths. *)
Theorem no_records_iff_no_snow_day (df : DataFrame) :
  (calculate_snow_records df = Returns None <->
   forall e, In e df -> ~ 0 < snd e) /\
  ((forall e, In e df -> snd e = 0) -> calculate_snow_records df = Returns None) /\
  ((exists e, In e df /\ 0 < snd e) ->
   (forall e, In e df -> 0 < snd e -> ordinal_defined (fst e)) ->
   exists rs, calculate_snow_records df = Returns (Some rs)).
Proof.
  split; [apply calculate_snow_records_None|]. split.
  - intros Z. apply calculate_snow_records_None. intros e He.
    rewrite (Z e He). lia.
  - intros Hex Hdef.
    destruct (calculate_snow_records_Returns df Hex Hdef) as (rs & H & _). eauto.
Qed.

Lemma no_records_iff_no_snow_day_witness :
  (exists e, In e series_two_seasons /\ 0 < snd e) /\
  (forall e, In e series_two_seasons -> 0 < snd e -> ordinal_defined (fst e)) /\
  (exists rs, calculate_snow_records series_two_seasons = Returns (Some rs)) /\
  calculate_snow_records [(mkdate 2021 12 1, 0); (mkdate 2021 12 2, 0)] = Returns None.
Proof.
  assert (Hex : exists e, In e series_two_seasons /\ 0 < snd e).
  { exists (mkdate 2020 12 1, 120). split; [now left | reflexivity]. }
  assert (Hdef : forall e, In e series_two_seasons -> 0 < snd e ->
                           ordinal_defined (fst e)).
  { intros e [<-|[<-|[<-|[<-|[]]]]] _; (split; [reflexivity | right; reflexivity]). }
  split; [exact Hex|]. split; [exact Hdef|]. split.
  - exact (proj2 (proj2 (no_records_iff_no_snow_day series_two_seasons)) Hex Hdef).
  - apply (proj1 (proj2 (no_records_iff_no_snow_day _))).
    intros e [<-|[<-|[]]]; reflexivity.
Defined.

(** C5, as stated, fails on the series with 1 cm of snow on 0001-01-01:
    the series is not empty, its date is a date of the calendar, no depth
    is negative and one is positive, yet the call raises [ValueError] when
    it ranks the start of the snow cover (the seasonal ordinal of a day in
    January to June of year 1 asks for December 31 of year 0), and so
    yields no dictionary of records. *)
Lemma snow_in_year_1_yields_no_records :
  series_year_1 <> [] /\
  (forall e, In e series_year_1 -> valid_date (fst e) /\ 0 <= snd e) /\
  (exists e, In e series_year_1 /\ 0 < snd e) /\
  calculate_snow_records series_year_1 = Raises ValueError /\
  ~ (exists rs, calculate_snow_records series_year_1 = Returns (Some rs)).
Proof.
  split; [discriminate|]. split.
  - intros e [<-|[]]. split; [reflexivity | cbn; lia].
  - split; [exists (mkdate 1 1 1, 10); split; [now left | reflexivity]|].
    assert (R : calculate_snow_records series_year_1 = Raises ValueError)
      by (vm_compute; reflexivity).
    split; [exact R|]. intros [rs H]. rewrite R in H. discriminate.
Qed.

(** C4, as amended.  The ranking by maximum depth is computed from all
    entries of the series, snow days or not: each of its rows holds a
    season of the series with the largest depth among all entries of that
    season; the rows are in descending order of depth, hold distinct
    seasons, and number ten or, if fewer, as many as the series has
    seasons; no entry of a season left out is deeper than a row kept; and
    when the series has at most ten seasons, every one of them appears. *)
Theorem top10_max_over_all_entries (df : DataFrame) :
  (exists e, In e df /\ 0 < snd e) ->
  (forall e, In e df -> 0 < snd e -> ordinal_defined (fst e)) ->
  exists rs,
    calculate_snow_records df = Returns (Some rs) /\
    let ranking := top10_hoogste_max rs in
    (forall s m, In (s, m) ranking ->
       (exists e, In e df /\ season_label (fst e) = s /\ snd e = m) /\
       (forall e, In e df -> season_label (fst e) = s -> snd e <= m)) /\
    StronglySorted (fun a b => snd b <= snd a) ranking /\
    NoDup (map fst ranking) /\
    List.length ranking = Nat.min 10 (List.length (seasons_of df)) /\
    (forall e, In e df -> ~ In (season_label (fst e)) (map fst ranking) ->
       forall s m, In (s, m) ranking -> snd e <= m) /\
    (Nat.le (List.length (seasons_of df)) 10 ->
     forall e, In e df -> In (season_label (fst e)) (map fst ranking)).
Proof.
  intros Hex Hdef.
  destruct (calculate_snow_records_Returns df Hex Hdef) as (rs & H & Htop & _).
  exists rs. split; [exact H|]. cbv zeta. rewrite Htop. apply yearly_max_spec.
Qed.

Lemma top10_max_over_all_entries_witness :
  (exists e, In e series_two_seasons /\ 0 < snd e) /\
  (forall e, In e series_two_seasons -> 0 < snd e -> ordinal_defined (fst e)) /\
  exists rs,
    calculate_snow_records series_two_seasons = Returns (Some rs) /\
    List.length (top10_hoogste_max rs)
    = Nat.min 10 (List.length (seasons_of series_two_seasons)).
Proof.
  assert (Hex : exists e, In e series_two_seasons /\ 0 < snd e).
  { exists (mkdate 2020 12 1, 120). split; [now left | reflexivity]. }
  assert (Hdef : forall e, In e series_two_seasons -> 0 < snd e ->
                           ordinal_defined (fst e)).
  { intros e [<-|[<-|[<-|[<-|[]]]]] _; (split; [reflexivity | right; reflexivity]). }
  split; [exact Hex|]. split; [exact Hdef|].
  destruct (top10_max_over_all_entries series_two_seasons Hex Hdef)
    as (rs & H & _ & _ & _ & L & _).
  exists rs. split; [exact H | exact L].
Defined.

(** C4, as stated, fails on a series with snow in season 2020/2021 and
    none in season 2021/2022: the ranking lists season 2021/2022, with
    maximum 0, and so differs from the ranking that the snow days alone
    would give. *)
Lemma top10_max_lists_snowless_season :
  ~ has_snow_day series_two_seasons "2021/2022" /\
  exists rs,
    calculate_snow_records series_two_seasons = Returns (Some rs) /\
    top10_hoogste_max rs = [("2020/2021"%string, 120); ("2021/2022"%string, 0)] /\
    In ("2021/2022"%string, 0) (top10_hoogste_max rs) /\
    top10_hoogste_max rs
    <> head 10 (sort_values snd false
                  (groupby_max (snow_days_of (temp_df_of series_two_seasons)))).
Proof.
  split.
  - intros (e & Hin & Hl & Hp).
    destruct Hin as [<-|[<-|[<-|[<-|[]]]]]; cbn in Hp; try lia;
      vm_compute in Hl; discriminate.
  - eexists. split; [vm_compute; reflexivity|].
    cbn [top10_hoogste_max]. split; [reflexivity|]. split; [right; now left|].
    vm_compute. discriminate.
Qed.

(* ------------------------------------------------------------------ *)
(** *** Runs of consecutive days *)

Lemma split_runs_cons d l :
  exists r rs, split_runs (d :: l) = (d :: r) :: rs.
Proof.
  simpl. destruct (split_runs l) as [|[|d' r] rs]; eauto.
  destruct (days_between d' d =? 1); eauto.
Qed.

Lemma split_runs_concat l : List.concat (split_runs l) = l.
Proof.
  induction l as [|d l IH]; simpl; [reflexivity|].
  destruct (split_runs l) as [|[|d' r] rs] eqn:E.
  - simpl in *. now subst.
  - destruct l as [|d2 l]; [reflexivity|].
    destruct (split_runs_cons d2 l) as (r' & rs' & E'). congruence.
  - destruct (days_between d' d =? 1); simpl in *; now rewrite IH.
Qed.

Lemma split_runs_nonempty l : Forall (fun r => r <> []) (split_runs l).
Proof.
  induction l as [|d l IH]; simpl; [constructor|].
  destruct (split_runs l) as [|[|d' r] rs].
  - repeat constructor. discriminate.
  - repeat constructor. discriminate.
  - inversion IH; subst.
    destruct (days_between d' d =? 1); repeat constructor;
      try discriminate; assumption.
Qed.

Lemma split_runs_consecutive l : Forall consecutive_days (split_runs l).
Proof.
  induction l as [|d l IH]; simpl; [constructor|].
  destruct (split_runs l) as [|[|d' r] rs].
  - repeat constructor.
  - repeat constructor.
  - inversion IH; subst.
    destruct (Z.eqb_spec (days_between d' d) 1); constructor;
      try assumption; simpl; auto.
Qed.

(** The group numbers that the engine computes number the runs from 1. *)
Lemma cumsum_label_runs acc d l :
  acc :: cumsum_from acc (map ne_1 (diff_days_from d l)) =
  label_runs acc (split_runs (d :: l)).
Proof.
  revert acc d. induction l as [|d2 l IH]; intros acc d.
  - simpl. reflexivity.
  - cbn [diff_days_from map cumsum_from]. cbv zeta. rewrite IH.
    change (split_runs (d :: d2 :: l))
      with (match split_runs (d2 :: l) with
            | (d' :: r) :: rs =>
                if days_between d' d =? 1 then (d :: d' :: r) :: rs
                else [d] :: (d' :: r) :: rs
            | _ => [[d]]
            end).
    destruct (split_runs_cons d2 l) as (r & rs & ->).
    cbn [ne_1].
    destruct (days_between d2 d =? 1); cbn [negb label_runs List.length repeat app].
    + now rewrite Z.add_0_r.
    + reflexivity.
Qed.

Lemma consecutive_groups_label_runs days :
  consecutive_groups days = label_runs 1 (split_runs days).
Proof.
  destruct days as [|d l]; [reflexivity|].
  unfold consecutive_groups, cumsum, diff_days.
  cbn [map cumsum_from ne_1]. cbv zeta. apply cumsum_label_runs.
Qed.

(** Between neighbours the group number stays when the second day comes
    one calendar day after the first, and goes up by one otherwise. *)
Lemma consecutive_groups_step days i d d' g g' :
  nth_error days i = Some d -> nth_error days (S i) = Some d' ->
  nth_error (consecutive_groups days) i = Some g ->
  nth_error (consecutive_groups days) (S i) = Some g' ->
  g' = g + (if days_between d' d =? 1 then 0 else 1).
Proof.
  destruct days as [|d0 l]; [destruct i; discriminate|].
  unfold consecutive_groups, cumsum, diff_days.
  cbn [map cumsum_from ne_1]. cbv zeta.
  generalize (0 + 1). revert d0 i d d' g g'.
  induction l as [|d1 l IH]; intros d0 i d d' g g' acc Hd Hd' Hg Hg'.
  - destruct i; simpl in Hd'; [discriminate | destruct i; discriminate].
  - cbn [diff_days_from map cumsum_from] in Hg, Hg'. cbv zeta in Hg, Hg'.
    destruct i as [|i].
    + simpl in *. injection Hd as <-. injection Hd' as <-.
      injection Hg as <-. injection Hg' as <-.
      destruct (days_between d1 d0 =? 1); reflexivity.
    + simpl in Hd, Hd', Hg. apply (IH d1 i d d' g g' _ Hd Hd' Hg).
      exact Hg'.
Qed.

Lemma label_runs_ge i rs g : In g (label_runs i rs) -> i <= g.
Proof.
  revert i. induction rs as [|r rs IH]; intros i; simpl; [contradiction|].
  rewrite in_app_iff. intros [H|H].
  - apply repeat_spec in H. lia.
  - apply IH in H. lia.
Qed.

Lemma number_runs_ge i rs g r : In (g, r) (number_runs i rs) -> i <= g.
Proof.
  revert i. induction rs as [|r0 rs IH]; intros i; simpl; [contradiction|].
  intros [[= <- <-]|H]; [lia|]. apply IH in H. lia.
Qed.

Lemma number_runs_In i rs g r : In (g, r) (number_runs i rs) -> In r rs.
Proof.
  revert i. induction rs as [|r0 rs IH]; intros i; simpl; [contradiction|].
  intros [[= <- <-]|H]; [now left | right; eauto].
Qed.

Lemma In_number_runs i rs r : In r rs -> exists g, In (g, r) (number_runs i rs).
Proof.
  revert i. induction rs as [|r0 rs IH]; intros i; simpl; [contradiction|].
  intros [->|H]; [eauto|]. destruct (IH (i + 1) H) as [g Hg]. eauto.
Qed.

Lemma label_runs_In i rs g :
  Forall (fun r => r <> []) rs ->
  (In g (label_runs i rs) <-> exists r, In (g, r) (number_runs i rs)).
Proof.
  intros NE. revert i. induction NE as [|r rs Hr NE IH]; intros i; simpl.
  - split; [contradiction | intros [? []]].
  - rewrite in_app_iff, IH. split.
    + intros [H|[r' H]]; [|eauto]. apply repeat_spec in H. subst. eauto.
    + intros [r' [[= <- <-]|H]]; [|eauto].
      left. destruct r as [|x r]; [congruence|]. simpl. now left.
Qed.

Lemma count_eq_app g l1 l2 : count_eq g (l1 ++ l2) = count_eq g l1 + count_eq g l2.
Proof. unfold count_eq. rewrite filter_app, length_app. lia. Qed.

Lemma count_eq_repeat g i n :
  count_eq g (repeat i n) = if i =? g then Z.of_nat n else 0.
Proof.
  unfold count_eq. induction n as [|n IH]; simpl; [now destruct (i =? g)|].
  destruct (i =? g) eqn:E; simpl; [|exact IH].
  rewrite Nat2Z.inj_succ in *. simpl in IH. lia.
Qed.

Lemma count_eq_absent g l : ~ In g l -> count_eq g l = 0.
Proof.
  intros H. unfold count_eq.
  replace (filter (fun x => x =? g) l) with (@nil Z); [reflexivity|].
  symmetry. induction l as [|x l IH]; simpl; [reflexivity|].
  destruct (Z.eqb_spec x g) as [->|N]; [exfalso; apply H; now left|].
  apply IH. intros I. apply H. now right.
Qed.

Lemma select_group_app d1 d2 g1 g2 g :
  List.length d1 = List.length g1 ->
  select_group (d1 ++ d2) (g1 ++ g2) g =
  select_group d1 g1 g ++ select_group d2 g2 g.
Proof.
  revert g1. induction d1 as [|x d1 IH]; intros [|y g1]; simpl; intros H;
    try discriminate; [reflexivity|].
  injection H as H. rewrite (IH g1 H). now destruct (y =? g).
Qed.

Lemma select_group_repeat r i g :
  select_group r (repeat i (List.length r)) g = if i =? g then r else [].
Proof.
  induction r as [|x r IH]; simpl; [now destruct (i =? g)|].
  rewrite IH. now destruct (i =? g).
Qed.

Lemma select_group_absent days groups g :
  ~ In g groups -> select_group days groups g = [].
Proof.
  revert groups. induction days as [|x days IH]; intros [|y groups] H; simpl;
    try reflexivity.
  destruct (Z.eqb_spec y g) as [->|N]; [exfalso; apply H; now left|].
  apply IH. intros I. apply H. now right.
Qed.

(** A numbered run occurs as often as it is long, and selecting its number
    gives the run back. *)
Lemma number_runs_spec i rs g r :
  In (g, r) (number_runs i rs) ->
  count_eq g (label_runs i rs) = Z.of_nat (List.length r) /\
  select_group (List.concat rs) (label_runs i rs) g = r.
Proof.
  revert i. induction rs as [|r0 rs IH]; intros i; simpl; [contradiction|].
  intros H.
  rewrite count_eq_app, count_eq_repeat.
  rewrite select_group_app by (now rewrite repeat_length).
  rewrite select_group_repeat.
  destruct H as [[= <- <-]|H].
  - rewrite Z.eqb_refl.
    assert (N : ~ In i (label_runs (i + 1) rs))
      by (intros I; apply label_runs_ge in I; lia).
    rewrite (count_eq_absent _ _ N), (select_group_absent _ _ _ N).
    split; [lia | apply app_nil_r].
  - pose proof (number_runs_ge _ _ _ _ H) as G.
    destruct (Z.eqb_spec i g) as [->|N]; [lia|].
    destruct (IH (i + 1) H) as [C S]. split; [lia | exact S].
Qed.

Lemma run_increasing x r :
  consecutive_days (x :: r) -> Forall (fun y => toordinal x < toordinal y) r.
Proof.
  revert x. induction r as [|y r IH]; intros x H; [constructor|].
  destruct H as [G C]. unfold days_between in G.
  constructor; [lia|].
  eapply Forall_impl; [|exact (IH y C)]. cbn. intros; lia.
Qed.

Lemma fold_left_date_min2_first l x :
  Forall (fun y => date_leb x y = true) l -> fold_left date_min2 l x = x.
Proof.
  induction 1 as [|y l H F IH]; simpl; [reflexivity|].
  unfold date_min2 at 2. now rewrite H.
Qed.

Lemma last_day_cons x y r : last_day (x :: y :: r) = last_day (y :: r).
Proof.
  unfold last_day. cbn [rev].
  destruct (rev r ++ [y]) as [|z l] eqn:E; [|reflexivity].
  now destruct (rev r).
Qed.

(** Within a run the first day is the earliest and the last day the
    latest, and the run is as long as the calendar span between them. *)
Lemma run_extremes x r :
  Forall valid_date (x :: r) -> consecutive_days (x :: r) ->
  exists b,
    last_day (x :: r) = Some b /\
    index_min (x :: r) = Some x /\
    index_max (x :: r) = Some b /\
    days_between b x + 1 = Z.of_nat (List.length (x :: r)).
Proof.
  revert x. induction r as [|y r IH]; intros x V C.
  - exists x. unfold days_between. cbn. repeat split. lia.
  - pose proof (run_increasing x (y :: r) C) as Inc.
    inversion V as [|? ? Vx Vr]; subst.
    assert (Le : Forall (fun z => date_leb x z = true) (y :: r)).
    { rewrite Forall_forall in *. intros z Hz.
      apply (date_le_toordinal x z Vx (Vr z Hz)). specialize (Inc z Hz). lia. }
    destruct C as [G C].
    destruct (IH y Vr C) as (b & Hl & _ & Hmax & Hlen).
    exists b. split; [now rewrite last_day_cons|]. split; [|split].
    + unfold index_min. f_equal. now apply fold_left_date_min2_first.
    + unfold index_max in *. cbn [fold_left].
      inversion Le as [|? ? Hxy _]; subst.
      unfold date_max2 at 2. now rewrite Hxy.
    + unfold days_between in *. cbn [List.length] in *.
      rewrite Nat2Z.inj_succ in *. lia.
Qed.

Lemma idxmax_spec (s : list (Z * Z)) :
  s <> [] ->
  exists p, In p s /\ idxmax s = Some (fst p) /\ snd p = series_max (map snd s).
Proof.
  intros NE. unfold idxmax.
  assert (NE' : map snd s <> []) by (intros N; apply map_eq_nil in N; contradiction).
  destruct (series_max_spec _ NE') as [Hin _].
  apply in_map_iff in Hin as (p0 & E0 & H0).
  destruct (filter (fun p => snd p =? series_max (map snd s)) s) as [|p l] eqn:F.
  - assert (I : In p0 (filter (fun p => snd p =? series_max (map snd s)) s)).
    { apply filter_In. split; [assumption | now apply Z.eqb_eq]. }
    rewrite F in I. contradiction.
  - assert (I : In p (filter (fun p => snd p =? series_max (map snd s)) s))
      by (rewrite F; now left).
    apply filter_In in I as [I1 I2]. apply Z.eqb_eq in I2. eauto.
Qed.

Lemma value_counts_In l g c :
  In (g, c) (value_counts l) <-> In g l /\ c = count_eq g l.
Proof.
  unfold value_counts.
  assert (P : In (g, c) (sort_values snd false
                           (map (fun g => (g, count_eq g l)) (unique Z.eqb l))) <->
              In (g, c) (map (fun g => (g, count_eq g l)) (unique Z.eqb l))).
  { split; apply Permutation_in;
      [apply sort_values_perm | symmetry; apply sort_values_perm]. }
  rewrite P, in_map_iff. split.
  - intros (g0 & [= <- <-] & H). rewrite (unique_In Z.eqb Z.eqb_eq) in H. auto.
  - intros [H ->]. exists g. split; [reflexivity|].
    now rewrite (unique_In Z.eqb Z.eqb_eq).
Qed.

(** The period that the engine reports is a longest run of the snow days. *)
Lemma longest_streak_spec days :
  days <> [] -> Forall valid_date days ->
  exists r a b,
    In r (split_runs days) /\
    (forall r', In r' (split_runs days) -> Nat.le (List.length r') (List.length r)) /\
    first_day r = Some a /\ last_day r = Some b /\
    longest_streak days = Some (Z.of_nat (List.length r), a, b) /\
    days_between b a + 1 = Z.of_nat (List.length r).
Proof.
  intros NE V. unfold longest_streak. cbv zeta.
  rewrite consecutive_groups_label_runs.
  set (rs := split_runs days). set (L := label_runs 1 rs).
  pose proof (split_runs_nonempty days) as RNE. fold rs in RNE.
  assert (Member : forall g r, In (g, r) (number_runs 1 rs) ->
            In (g, Z.of_nat (List.length r)) (value_counts L)).
  { intros g r H. apply value_counts_In.
    destruct (number_runs_spec _ _ _ _ H) as [C _]. split; [|symmetry; exact C].
    apply (label_runs_In 1 rs g RNE). eauto. }
  assert (SNE : value_counts L <> []).
  { destruct days as [|d l]; [congruence|].
    destruct (split_runs_cons d l) as (r0 & rs0 & E). fold rs in E.
    assert (I : In (1, d :: r0) (number_runs 1 rs)) by (rewrite E; now left).
    apply Member in I. intros N. rewrite N in I. contradiction. }
  destruct (idxmax_spec _ SNE) as ([g c] & Hin & -> & Hmax). cbn [fst snd] in *.
  apply value_counts_In in Hin as [HgL Hc].
  apply (label_runs_In 1 rs g RNE) in HgL as [r Hr].
  destruct (number_runs_spec _ _ _ _ Hr) as [C S].
  unfold rs in S at 1. rewrite split_runs_concat in S. fold L in C, S.
  rewrite S.
  pose proof (number_runs_In _ _ _ _ Hr) as Hrin.
  assert (Vr : Forall valid_date r).
  { rewrite Forall_forall in *. intros x Hx. apply V.
    rewrite <- (split_runs_concat days). apply in_concat. eauto. }
  assert (Cr : consecutive_days r).
  { pose proof (split_runs_consecutive days) as F. rewrite Forall_forall in F. auto. }
  destruct r as [|x r].
  { rewrite Forall_forall in RNE. exfalso. now apply (RNE [] Hrin). }
  destruct (run_extremes x r Vr Cr) as (b & Hl & Hmin & Hmx & Hlen).
  exists (x :: r), x, b. rewrite Hmin, Hmx.
  split; [exact Hrin|]. split; [|split; [reflexivity|split; [exact Hl|split]]].
  - intros r' Hr'. destruct (In_number_runs 1 rs r' Hr') as [g' Hg'].
    apply Member in Hg'.
    assert (NE' : map snd (value_counts L) <> [])
      by (intros N; apply map_eq_nil in N; contradiction).
    destruct (series_max_spec _ NE') as [_ Hub].
    specialize (Hub _ (in_map snd _ _ Hg')). cbn [snd] in Hub.
    rewrite <- Hmax, Hc, C in Hub. lia.
  - rewrite <- Hmax, Hc, C. reflexivity.
  - exact Hlen.
Qed.

Lemma split_runs_maximal days rs1 r1 r2 rs2 a b :
  split_runs days = rs1 ++ r1 :: r2 :: rs2 ->
  last_day r1 = Some a -> first_day r2 = Some b -> days_between b a <> 1.
Proof.
  revert rs1 r1. induction days as [|d l IH]; intros rs1 r1 E La Fb.
  - destruct rs1; discriminate.
  - simpl in E. destruct (split_runs l) as [|[|d' r] rs] eqn:El.
    + destruct rs1 as [|? [|? ?]]; discriminate.
    + destruct rs1 as [|? [|? ?]]; discriminate.
    + destruct (Z.eqb_spec (days_between d' d) 1) as [G|G].
      * destruct rs1 as [|x rs1]; simpl in E; injection E as E1 E2.
        -- subst r1. rewrite last_day_cons in La.
           apply (IH [] (d' :: r)); [now rewrite E2 | assumption | assumption].
        -- subst x. apply (IH ((d' :: r) :: rs1) r1); [now rewrite E2| |]; assumption.
      * destruct rs1 as [|x rs1]; simpl in E; injection E as E1 E2.
        -- subst r1 r2. cbn in La, Fb.
           injection La as <-. injection Fb as <-. exact G.
        -- subst x. apply (IH rs1 r1); assumption.
Qed.

(* ------------------------------------------------------------------ *)
(** *** The text of the longest period can be read back *)

Lemma string_of_uint_digits c d :
  contains_char c "0123456789" = false ->
  contains_char c (NilEmpty.string_of_uint d) = false.
Proof.
  intros H. cbn [contains_char] in H.
  repeat (apply orb_false_iff in H; destruct H as [? H]).
  induction d; cbn [NilEmpty.string_of_uint contains_char];
    try reflexivity; apply orb_false_iff; split; assumption.
Qed.

Lemma string_of_uint_zero_digits c d :
  contains_char c "0123456789" = false ->
  contains_char c (NilZero.string_of_uint d) = false.
Proof.
  intros H. pose proof (string_of_uint_digits c d H) as D.
  destruct d; try exact D.
  cbn [contains_char] in H. apply orb_false_iff in H as [H0 _].
  change (Ascii.eqb "0" c || false = false). now rewrite H0.
Qed.

(** A numeral holds digits and, when negative, a sign. *)
Lemma str_digits c n :
  contains_char c "-0123456789" = false -> contains_char c (str n) = false.
Proof.
  intros H. cbn [contains_char] in H. apply orb_false_iff in H as [Hs H].
  pose proof (fun d => string_of_uint_zero_digits c d H) as D.
  unfold str. destruct (Z.to_int n) as [d|d]; cbn [NilZero.string_of_int].
  - apply D.
  - cbn [contains_char]. now rewrite Hs, D.
Qed.

Lemma str_no_sign n : 0 <= n -> contains_char "-" (str n) = false.
Proof.
  intros H. unfold str.
  destruct n as [|p|p]; [reflexivity| |lia].
  cbn [Z.to_int NilZero.string_of_int].
  now apply string_of_uint_zero_digits.
Qed.

Lemma days_in_month_le_31 y m : 1 <= m <= 12 -> days_in_month y m <= 31.
Proof.
  intros Hm. unfold days_in_month.
  split_month Hm; rewrite M; repeat calendar_step;
    destruct (is_leap y); cbn [andb]; lia.
Qed.

Lemma zeros_no_char c k s :
  Ascii.eqb "0" c = false -> contains_char c s = false ->
  contains_char c (zeros k s) = false.
Proof.
  intros H0 Hs. induction k as [|k IH]; [exact Hs|].
  change (Ascii.eqb "0" c || contains_char c (zeros k s) = false).
  now rewrite H0, IH.
Qed.

Lemma zfill_no_sign w n : 0 <= n -> contains_char "-" (zfill w (str n)) = false.
Proof.
  intros H. apply zeros_no_char; [reflexivity | now apply str_no_sign].
Qed.

(** The two digits of a day or a month give it back. *)
Lemma zfill_2_read_back n :
  0 <= n <= 31 ->
  option_map Z.of_int (NilZero.int_of_string (zfill 2 (str n))) = Some n.
Proof.
  intros H.
  assert (A : forallb (fun k : nat =>
                match NilZero.int_of_string (zfill 2 (str (Z.of_nat k))) with
                | Some i => Z.of_int i =? Z.of_nat k
                | None => false
                end) (seq 0 32) = true) by (vm_compute; reflexivity).
  rewrite forallb_forall in A.
  specialize (A (Z.to_nat n) ltac:(apply in_seq; lia)).
  rewrite Z2Nat.id in A by lia.
  destruct (NilZero.int_of_string (zfill 2 (str n))) as [i|]; [|discriminate].
  apply Z.eqb_eq in A. cbn [option_map]. now rewrite A.
Qed.

Lemma zfill_2_inj a b :
  0 <= a <= 31 -> 0 <= b <= 31 -> zfill 2 (str a) = zfill 2 (str b) -> a = b.
Proof.
  intros Ha Hb E.
  pose proof (zfill_2_read_back a Ha) as Ra.
  pose proof (zfill_2_read_back b Hb) as Rb.
  rewrite E in Ra. congruence.
Qed.

Lemma append_inv_head (s x y : string) :
  (s ++ x)%string = (s ++ y)%string -> x = y.
Proof.
  induction s as [|c s IH]; simpl; [auto|]. intros [= E]. auto.
Qed.

(** The text [dd-mm-Y] of a date, followed by a character that no numeral
    holds, gives the date back. *)
Lemma strftime_dmY_read_back c a a' t t' :
  valid_date a -> valid_date a' ->
  contains_char c "-0123456789" = false ->
  (strftime_dmY a ++ String c t)%string = (strftime_dmY a' ++ String c t')%string ->
  a = a' /\ t = t'.
Proof.
  intros V V' Hc E.
  destruct (valid_date_fields a V) as (Hy & Hm & Hd).
  destruct (valid_date_fields a' V') as (Hy' & Hm' & Hd').
  pose proof (days_in_month_le_31 (year a) (month a)) as B.
  pose proof (days_in_month_le_31 (year a') (month a')) as B'.
  unfold strftime_dmY, strftime_Y in E.
  rewrite !string_append_assoc in E.
  change ("-" ++ ?x)%string with (String "-" x) in E.
  apply (append_char_inj "-"%char) in E; try (apply zfill_no_sign; lia).
  destruct E as [Ed E].
  apply (append_char_inj "-"%char) in E; try (apply zfill_no_sign; lia).
  destruct E as [Em E].
  apply (append_char_inj c) in E; try (now apply str_digits).
  destruct E as [Ey Et].
  apply zfill_2_inj in Ed; try lia. apply zfill_2_inj in Em; try lia.
  apply str_inj in Ey.
  split; [|exact Et].
  destruct a, a'; cbn [year month day] in *; congruence.
Qed.

(** The text that reports a period names its length, its first day and its
    last day: no other length and days are printed the same. *)
Lemma format_streak_inj n a b n' a' b' :
  valid_date a -> valid_date b -> valid_date a' -> valid_date b' ->
  format_streak (n, a, b) = format_streak (n', a', b') ->
  n = n' /\ a = a' /\ b = b'.
Proof.
  intros Va Vb Va' Vb' E. unfold format_streak in E.
  change (" dagen (" ++ ?x)%string with (String " " ("dagen (" ++ x)) in E.
  apply (append_char_inj " "%char) in E; try (now apply str_digits).
  destruct E as [En E]. apply str_inj in En.
  apply append_inv_head in E.
  change (" t/m " ++ ?x)%string with (String " " ("t/m " ++ x)) in E.
  apply (strftime_dmY_read_back " "%char) in E; try assumption; [|reflexivity].
  destruct E as [Ea E]. apply append_inv_head in E.
  change ")"%string with (String ")" EmptyString) in E.
  apply (strftime_dmY_read_back ")"%char) in E; try assumption; [|reflexivity].
  destruct E as [Eb _]. auto.
Qed.

(** The text of a period, spelled out. *)
Lemma format_streak_text n a b :
  format_streak (n, a, b)
  = (str n ++ " dagen ("
     ++ zfill 2 (str (day a)) ++ "-" ++ zfill 2 (str (month a)) ++ "-" ++ str (year a)
     ++ " t/m "
     ++ zfill 2 (str (day b)) ++ "-" ++ zfill 2 (str (month b)) ++ "-" ++ str (year b)
     ++ ")")%string.
Proof.
  unfold format_streak, strftime_dmY, strftime_Y.
  now rewrite !string_append_assoc.
Qed.

(** The first and the last day of a run are days of the run, and the days
    of a run are days of the list that was split. *)
Lemma run_ends_In r a b :
  first_day r = Some a -> last_day r = Some b -> In a r /\ In b r.
Proof.
  unfold first_day, last_day. intros Ha Hb.
  destruct r as [|x r]; [discriminate|].
  cbn [hd_error] in Ha. injection Ha as <-. split; [now left|].
  apply in_rev. destruct (rev (x :: r)) as [|y l]; [discriminate|].
  cbn [hd_error] in Hb. injection Hb as <-. now left.
Qed.

Lemma split_runs_In days r d : In r (split_runs days) -> In d r -> In d days.
Proof.
  intros Hr Hd. rewrite <- (split_runs_concat days). apply in_concat. eauto.
Qed.

(** C6.  Over the whole series, whatever the seasons: the snow days fall
    into runs in which each day comes one calendar day after the one
    before, neighbouring runs are not one day apart, and the group number
    that the engine gives to a snow day is that of the day before it
    exactly when the two are one calendar day apart; the engine reports
    the length, the first day and the last day of a run than which none is
    longer: the text it stores reads [N dagen (dd-mm-Y t/m dd-mm-Y)] with
    the length of that run and its first and last day, and the text of no
    other length or days is the same.  On snow from 2020-12-01 to
    2020-12-05, none on 2020-12-06 and snow from 2020-12-07 to 2020-12-10
    it reports the first run, 5 days. *)
Theorem longest_streak_over_whole_span (df : DataFrame) :
  (exists e, In e df /\ 0 < snd e) ->
  (forall e, In e df -> 0 < snd e -> ordinal_defined (fst e)) ->
  let days := snow_dates df in
  (List.concat (split_runs days) = days /\
   Forall consecutive_days (split_runs days) /\
   (forall rs1 r1 r2 rs2 a b,
      split_runs days = rs1 ++ r1 :: r2 :: rs2 ->
      last_day r1 = Some a -> first_day r2 = Some b -> days_between b a <> 1)) /\
  (consecutive_groups days = label_runs 1 (split_runs days) /\
   forall i d d' g g',
     nth_error days i = Some d -> nth_error days (S i) = Some d' ->
     nth_error (consecutive_groups days) i = Some g ->
     nth_error (consecutive_groups days) (S i) = Some g' ->
     g' = g + (if days_between d' d =? 1 then 0 else 1)) /\
  (exists rs r a b,
     calculate_snow_records df = Returns (Some rs) /\
     In r (split_runs days) /\
     (forall r', In r' (split_runs days) -> Nat.le (List.length r') (List.length r)) /\
     first_day r = Some a /\ last_day r = Some b /\
     days_between b a + 1 = Z.of_nat (List.length r) /\
     absoluut_langste_periode rs =
       Some (format_streak (Z.of_nat (List.length r), a, b)) /\
     absoluut_langste_periode rs =
       Some (str (Z.of_nat (List.length r)) ++ " dagen ("
             ++ zfill 2 (str (day a)) ++ "-" ++ zfill 2 (str (month a)) ++ "-"
             ++ str (year a)
             ++ " t/m "
             ++ zfill 2 (str (day b)) ++ "-" ++ zfill 2 (str (month b)) ++ "-"
             ++ str (year b)
             ++ ")")%string /\
     forall n' a' b',
       valid_date a' -> valid_date b' ->
       absoluut_langste_periode rs = Some (format_streak (n', a', b')) ->
       n' = Z.of_nat (List.length r) /\ a' = a /\ b' = b) /\
  (exists rs,
     calculate_snow_records series_december_2020 = Returns (Some rs) /\
     absoluut_langste_periode rs
     = Some "5 dagen (01-12-2020 t/m 05-12-2020)"%string).
Proof.
  intros Hex Hdef days.
  split; [|split; [|split]].
  - split; [apply split_runs_concat|]. split; [apply split_runs_consecutive|].
    intros rs1 r1 r2 rs2 a b. apply split_runs_maximal.
  - split; [apply consecutive_groups_label_runs|].
    intros i d d' g g'. apply consecutive_groups_step.
  - destruct (calculate_snow_records_Returns df Hex Hdef) as (rs & H & _ & Hs & _).
    assert (NE : days <> []).
    { destruct Hex as ([d x] & Hin & Hpos).
      assert (I : In d days) by (apply In_snow_dates; eauto).
      intros N. rewrite N in I. contradiction. }
    assert (V : Forall valid_date days).
    { apply Forall_forall. intros d Hd.
      apply In_snow_dates in Hd as (x & H1 & H2). exact (proj1 (Hdef (d, x) H1 H2)). }
    destruct (longest_streak_spec days NE V) as (r & a & b & Hr & Hmax & Ha & Hb & Hl & Hlen).
    exists rs, r, a, b. fold days in Hs. rewrite Hl in Hs. cbn [option_map] in Hs.
    destruct (run_ends_In r a b Ha Hb) as [Ia Ib].
    rewrite Forall_forall in V.
    pose proof (V a (split_runs_In days r a Hr Ia)) as Va.
    pose proof (V b (split_runs_In days r b Hr Ib)) as Vb.
    repeat (split; [assumption|]). split.
    + rewrite Hs. f_equal. apply format_streak_text.
    + intros n' a' b' Va' Vb' E. rewrite Hs in E. injection E as E.
      destruct (format_streak_inj _ _ _ _ _ _ Va Vb Va' Vb' E) as (-> & -> & ->).
      auto.
  - eexists. split; [vm_compute; reflexivity|]. reflexivity.
Qed.

Lemma longest_streak_over_whole_span_witness :
  (exists e, In e series_across_july_1 /\ 0 < snd e) /\
  (forall e, In e series_across_july_1 -> 0 < snd e -> ordinal_defined (fst e)) /\
  split_runs (snow_dates series_across_july_1)
  = [[mkdate 2021 6 29; mkdate 2021 6 30; mkdate 2021 7 1; mkdate 2021 7 2]] /\
  exists rs r a b,
    calculate_snow_records series_across_july_1 = Returns (Some rs) /\
    In r (split_runs (snow_dates series_across_july_1)) /\
    (forall r', In r' (split_runs (snow_dates series_across_july_1)) ->
                Nat.le (List.length r') (List.length r)) /\
    first_day r = Some a /\ last_day r = Some b /\
    days_between b a + 1 = Z.of_nat (List.length r) /\
    absoluut_langste_periode rs =
      Some (format_streak (Z.of_nat (List.length r), a, b)) /\
    forall n' a' b',
      valid_date a' -> valid_date b' ->
      absoluut_langste_periode rs = Some (format_streak (n', a', b')) ->
      n' = Z.of_nat (List.length r) /\ a' = a /\ b' = b.
Proof.
  assert (Hex : exists e, In e series_across_july_1 /\ 0 < snd e).
  { exists (mkdate 2021 6 29, 10). split; [now left | reflexivity]. }
  assert (Hdef : forall e, In e series_across_july_1 -> 0 < snd e ->
                           ordinal_defined (fst e)).
  { intros e [<-|[<-|[<-|[<-|[]]]]] _; (split; [reflexivity | right; reflexivity]). }
  split; [exact Hex|]. split; [exact Hdef|]. split; [reflexivity|].
  destruct (proj1 (proj2 (proj2
             (longest_streak_over_whole_span series_across_july_1 Hex Hdef))))
    as (rs & r & a & b & H1 & H2 & H3 & H4 & H5 & H6 & H7 & _ & H9).
  exists rs, r, a, b. repeat (split; [assumption|]). exact H9.
Defined.

(* ------------------------------------------------------------------ *)
(** *** Retrieval in chunks *)

Lemma date_add_days_Returns d n :
  1 <= d + n <= MAXORDINAL -> date_add_days d n = Returns (d + n).
Proof.
  intros H. unfold date_add_days. cbv zeta.
  destruct (Z.leb_spec 1 (d + n)); [|lia].
  destruct (Z.leb_spec (d + n) MAXORDINAL); [reflexivity | lia].
Qed.

Lemma date_add_days_inv d n r :
  date_add_days d n = Returns r -> r = d + n /\ 1 <= r <= MAXORDINAL.
Proof.
  unfold date_add_days. cbv zeta.
  destruct (Z.leb_spec 1 (d + n)); cbn [andb]; [|discriminate].
  destruct (Z.leb_spec (d + n) MAXORDINAL); [|discriminate].
  intros [= <-]. lia.
Qed.

Lemma date_add_days_Raises d n x :
  date_add_days d n = Raises x -> x = OverflowError.
Proof.
  unfold date_add_days. cbv zeta.
  destruct ((1 <=? d + n) && (d + n <=? MAXORDINAL)); [discriminate|].
  now intros [= <-].
Qed.

Lemma successful_frames_cons {Frame : Type} (fetch : Z -> Z -> option Frame) a b rest acc :
  append_chunk acc (fetch a b) ++ successful_frames fetch rest =
  acc ++ successful_frames fetch ((a, b) :: rest).
Proof.
  unfold successful_frames, append_chunk. cbn [flat_map fst snd].
  destruct (fetch a b); [now rewrite <- app_assoc | reflexivity].
Qed.

(** When no shift of a date leaves the calendar, the loop returns: it has
    requested chunks that split the range from the current start to the
    end date, and has appended the frames of the successful ones. *)
Lemma chunk_loop_covers {Frame : Type} (fetch : Z -> Z -> option Frame) k e acc s :
  0 <= k -> e + (k * 365 + 10) <= MAXORDINAL -> 1 <= s ->
  exists chunks,
    covers (k * 365 + 10) s e chunks /\
    chunk_loop fetch k e acc s = Returns (acc ++ successful_frames fetch chunks).
Proof.
  funelim (chunk_loop fetch k e acc s); intros Hk He Hs;
    repeat match goal with
           | H : sigmaI _ _ _ = _ |- _ => clear H
           end;
    repeat match goal with
           | H : date_add_days ?d ?n = _ |- _ =>
               rewrite date_add_days_Returns in H by lia;
               first [discriminate H | injection H as <-]
           end.
  - exists []. split; [simpl; lia | now rewrite app_nil_r].
  - exists [(cs, Z.min (cs + (k * 365 + 10)) end_date)]. split.
    + simpl. repeat split; lia.
    + rewrite <- successful_frames_cons. cbn. now rewrite app_nil_r.
  - match goal with
    | IH : _ -> _ -> _ -> exists _, _ |- _ =>
        destruct (IH Hk He ltac:(lia)) as (chunks & Hcov & Hrun)
    end.
    exists ((cs, Z.min (cs + (k * 365 + 10)) end_date) :: chunks). split.
    + cbn [covers]. repeat split; try lia.
      destruct chunks as [|c chunks]; [simpl in Hcov; lia|].
      split; [lia | exact Hcov].
    + rewrite Hrun. f_equal. apply successful_frames_cons.
  - exfalso. lia.
Qed.

Lemma covers_unique delta e c1 : forall s c2,
  covers delta s e c1 -> covers delta s e c2 -> c1 = c2.
Proof.
  induction c1 as [|[a b] c1 IH]; intros s [|[a' b'] c2] H1 H2; simpl in *;
    try reflexivity; try lia.
  destruct H1 as (-> & Hs & -> & H1). destruct H2 as (-> & _ & -> & H2).
  f_equal.
  destruct c1 as [|x c1], c2 as [|y c2]; try reflexivity; try lia.
  destruct H1 as [_ H1]. destruct H2 as [_ H2]. exact (IH _ _ H1 H2).
Qed.

Lemma successful_frames_record chunks :
  successful_frames (fun a b => Some (a, b)) chunks = chunks.
Proof.
  unfold successful_frames. induction chunks as [|[a b] l IH]; simpl; [reflexivity|].
  now rewrite IH.
Qed.

Lemma successful_frames_nil {Frame : Type} (fetch : Z -> Z -> option Frame) chunks :
  successful_frames fetch chunks = [] <->
  forall a b, In (a, b) chunks -> fetch a b = None.
Proof.
  unfold successful_frames. induction chunks as [|[a b] l IH]; simpl.
  - split; [intros _ ? ? [] | reflexivity].
  - destruct (fetch a b) eqn:E; simpl.
    + split; [discriminate|]. intros H. specialize (H a b (or_introl eq_refl)).
      congruence.
    + rewrite IH. split.
      * intros H a' b' [[= <- <-]|I]; auto.
      * intros H a' b' I. apply H. now right.
Qed.

Lemma existsb_date_eqb d seen : existsb (date_eqb d) seen = true <-> In d seen.
Proof.
  rewrite existsb_exists. split.
  - intros (x & H & E). apply date_eqb_eq in E. now subst.
  - intros H. exists d. split; [assumption | now apply date_eqb_eq].
Qed.

(** Rows kept by the mask: those whose date is neither in [seen] nor on an
    earlier row. *)
Lemma drop_duplicated_from_In seen (df : DataFrame) d v :
  In (d, v) (boolean_mask df (map negb (duplicated_from seen (index df)))) <->
  ~ In d seen /\
  exists l1 l2, df = l1 ++ (d, v) :: l2 /\ ~ In d (index l1).
Proof.
  revert seen. induction df as [|[d0 v0] df IH]; intros seen.
  - simpl. split; [contradiction|]. intros (_ & [|? ?] & ? & ? & _); discriminate.
  - cbn [index map fst duplicated_from boolean_mask].
    destruct (existsb (date_eqb d0) seen) eqn:E; cbn [negb].
    + apply existsb_date_eqb in E. unfold index in IH. rewrite IH. split.
      * intros (N & l1 & l2 & -> & N1). split; [intros I; apply N; now right|].
        exists ((d0, v0) :: l1), l2. split; [reflexivity|].
        simpl. intros [->|I]; [apply N; now left | contradiction].
      * intros (N & l1 & l2 & H & N1).
        destruct l1 as [|x l1]; simpl in H; injection H as ? ?; subst.
        -- contradiction.
        -- split; [intros [->|I]; [apply N1; now left | contradiction]|].
           exists l1, l2. split; [reflexivity|]. intros I. apply N1. now right.
    + assert (E' : ~ In d0 seen).
      { intros I. apply existsb_date_eqb in I. congruence. }
      cbn [In]. unfold index in IH. rewrite IH. split.
      * intros [[= <- <-]|(N & l1 & l2 & -> & N1)].
        -- split; [assumption|]. exists [], df. split; [reflexivity | intros []].
        -- split; [intros I; apply N; now right|].
           exists ((d0, v0) :: l1), l2. split; [reflexivity|].
           simpl. intros [->|I]; [apply N; now left | contradiction].
      * intros (N & l1 & l2 & H & N1).
        destruct l1 as [|x l1]; simpl in H; injection H as ? ?; subst.
        -- now left.
        -- right. split; [intros [->|I]; [apply N1; now left | contradiction]|].
           exists l1, l2. split; [reflexivity|]. intros I. apply N1. now right.
Qed.

Lemma drop_duplicated_from_NoDup seen (df : DataFrame) :
  NoDup (index (boolean_mask df (map negb (duplicated_from seen (index df))))).
Proof.
  revert seen. induction df as [|[d0 v0] df IH]; intros seen; [constructor|].
  cbn [index map fst duplicated_from boolean_mask].
  destruct (existsb (date_eqb d0) seen); cbn [negb]; [apply IH|].
  cbn [map fst]. constructor; [|apply IH].
  intros I. apply in_map_iff in I as ([d v] & E & I). cbn in E. subst d.
  apply drop_duplicated_from_In in I as [N _]. apply N. now left.
Qed.

(** [drop_duplicated] keeps, for every date, the first row that has it. *)
Lemma drop_duplicated_spec df :
  NoDup (index (drop_duplicated df)) /\
  (forall d v, In (d, v) (drop_duplicated df) <->
     exists l1 l2, df = l1 ++ (d, v) :: l2 /\ ~ In d (index l1)).
Proof.
  unfold drop_duplicated, duplicated. split; [apply drop_duplicated_from_NoDup|].
  intros d v. rewrite drop_duplicated_from_In. simpl. tauto.
Qed.

(** C8, as amended.  When a date string does not parse the function
    returns [None] without a request.  Otherwise, for a chunk size that is
    not negative, a start date [s] and an end date [e] that lies at least
    [365 * chunk_size_years + 10] days before 9999-12-31, so that no shift
    leaves the calendar, it requests chunks that split the inclusive range
    [s..e] from left to right, goes on after a failed fetch, returns
    [None] exactly when every fetch fails, and when one succeeds returns
    the frames of the successful chunks, in order and concatenated, with
    only the first row of each date kept. *)
Theorem chunked_retrieval (strptime_ymd : string -> option Z)
    (fetch : Z -> Z -> option DataFrame)
    (start_date_api end_date_api : string) (k : Z) :
  (strptime_ymd start_date_api = None \/ strptime_ymd end_date_api = None ->
   get_all_historical_data strptime_ymd fetch start_date_api end_date_api k
   = Returns None /\
   requested_chunks strptime_ymd start_date_api end_date_api k = Returns []) /\
  (forall s e,
     strptime_ymd start_date_api = Some s ->
     strptime_ymd end_date_api = Some e ->
     1 <= s -> 0 <= k -> e + (k * 365 + 10) <= MAXORDINAL ->
     exists chunks,
       requested_chunks strptime_ymd start_date_api end_date_api k = Returns chunks /\
       covers (k * 365 + 10) s e chunks /\
       (get_all_historical_data strptime_ymd fetch start_date_api end_date_api k
        = Returns None <->
        forall a b, In (a, b) chunks -> fetch a b = None) /\
       ((exists a b, In (a, b) chunks /\ fetch a b <> None) ->
        exists result,
          get_all_historical_data strptime_ymd fetch start_date_api end_date_api k
          = Returns (Some result) /\
          result = drop_duplicated (List.concat (successful_frames fetch chunks)) /\
          NoDup (index result) /\
          forall d v,
            In (d, v) result <->
            exists l1 l2,
              List.concat (successful_frames fetch chunks) = l1 ++ (d, v) :: l2 /\
              ~ In d (index l1))).
Proof.
  unfold get_all_historical_data, requested_chunks. split.
  - intros [H|H]; rewrite H; [now split|].
    destruct (strptime_ymd start_date_api); now split.
  - intros s e -> -> Hs Hk He.
    destruct (chunk_loop_covers fetch k e [] s Hk He Hs) as (chunks & Hcov & Hrun).
    destruct (chunk_loop_covers (fun a b => Some (a, b)) k e [] s Hk He Hs)
      as (chunks' & Hcov' & Hrun').
    rewrite successful_frames_record in Hrun'.
    rewrite (covers_unique _ _ _ _ _ Hcov' Hcov) in Hrun'.
    exists chunks. unfold chunk_plan. rewrite Hrun', Hrun. cbn [bind app].
    split; [reflexivity|]. split; [exact Hcov|]. split.
    + rewrite <- successful_frames_nil.
      destruct (successful_frames fetch chunks); split; try reflexivity;
        discriminate.
    + intros (a & b & Hin & Hok).
      destruct (successful_frames fetch chunks) as [|f fs] eqn:E.
      * exfalso. apply Hok. exact (proj1 (successful_frames_nil fetch chunks) E a b Hin).
      * eexists. split; [reflexivity|]. split; [reflexivity|].
        apply drop_duplicated_spec.
Qed.

Lemma chunked_retrieval_witness :
  sample_strptime "2015-07-01" = Some 735780 /\
  sample_strptime "2025-06-30" = Some 739432 /\
  1 <= 735780 /\ 0 <= 4 /\ 739432 + (4 * 365 + 10) <= MAXORDINAL /\
  exists chunks,
    requested_chunks sample_strptime "2015-07-01" "2025-06-30" 4 = Returns chunks /\
    covers (4 * 365 + 10) 735780 739432 chunks /\
    (get_all_historical_data sample_strptime sample_fetch "2015-07-01" "2025-06-30" 4
     = Returns None <->
     forall a b, In (a, b) chunks -> sample_fetch a b = None) /\
    ((exists a b, In (a, b) chunks /\ sample_fetch a b <> None) ->
     exists result,
       get_all_historical_data sample_strptime sample_fetch
         "2015-07-01" "2025-06-30" 4
       = Returns (Some result) /\
       result = drop_duplicated (List.concat (successful_frames sample_fetch chunks)) /\
       NoDup (index result) /\
       forall d v,
         In (d, v) result <->
         exists l1 l2,
           List.concat (successful_frames sample_fetch chunks) = l1 ++ (d, v) :: l2 /\
           ~ In d (index l1)).
Proof.
  split; [reflexivity|]. split; [reflexivity|].
  split; [lia|]. split; [lia|]. split; [unfold MAXORDINAL; lia|].
  apply (proj2 (chunked_retrieval sample_strptime sample_fetch
                  "2015-07-01" "2025-06-30" 4) 735780 739432);
    try reflexivity; try lia.
  unfold MAXORDINAL; lia.
Defined.

(** A chunk end past the last date of the calendar: the shift raises. *)
Lemma chunk_loop_overflow {Frame : Type} (fetch : Z -> Z -> option Frame) k e acc s :
  s <= e -> MAXORDINAL < s + (k * 365 + 10) ->
  chunk_loop fetch k e acc s = Raises OverflowError.
Proof.
  funelim (chunk_loop fetch k e acc s); intros Hse Hov;
    repeat match goal with
           | H : sigmaI _ _ _ = _ |- _ => clear H
           end;
    repeat match goal with
           | H : date_add_days _ _ = Raises _ |- _ =>
               apply date_add_days_Raises in H; subst
           | H : date_add_days _ _ = Returns _ |- _ =>
               apply date_add_days_inv in H; destruct H
           end;
    try reflexivity; lia.
Qed.

(** A full chunk that ends before the end date: the loop goes on with the
    day after it. *)
Lemma chunk_loop_next {Frame : Type} (fetch : Z -> Z -> option Frame) k e acc s :
  1 <= s + (k * 365 + 10) -> s + (k * 365 + 10) < e -> e <= MAXORDINAL ->
  0 <= k * 365 + 10 ->
  chunk_loop fetch k e acc s
  = chunk_loop fetch k e (append_chunk acc (fetch s (s + (k * 365 + 10))))
      (s + (k * 365 + 10) + 1).
Proof.
  funelim (chunk_loop fetch k e acc s); intros Hlo Hlt Hmax Hdelta;
    repeat match goal with
           | H : sigmaI _ _ _ = _ |- _ => clear H
           end;
    repeat match goal with
           | H : date_add_days _ _ = Raises _ |- _ =>
               unfold date_add_days in H; cbv zeta in H
           | H : date_add_days _ _ = Returns _ |- _ =>
               apply date_add_days_inv in H; destruct H
           end;
    repeat match goal with
           | H : context [(?a <=? ?b)] |- _ =>
               destruct (Z.leb_spec a b); cbn [andb] in H
           end;
    try discriminate; try lia.
  subst. rewrite Z.min_l by lia. reflexivity.
Qed.

(** C8, as stated, fails at the end of the calendar, with the chunk size
    of 4 years that the page uses.  For 9999-01-01 to 9999-12-31 the end
    of the first chunk, 1470 days after the start, lies past 9999-12-31:
    the shift raises [OverflowError] before any request, so the call does
    not return [None] although no fetch succeeds.  For 9990-01-01 to
    9999-12-31 the first two chunks are fetched with success and the
    shift raises in the third, so the call does not return the frames of
    the successful chunks. *)
Lemma retrieval_overflows_in_year_9999 :
  (sample_strptime_9999 "9999-01-01" = Some (toordinal (mkdate 9999 1 1)) /\
   sample_strptime_9999 "9999-12-31" = Some (toordinal (mkdate 9999 12 31)) /\
   toordinal (mkdate 9999 1 1) <= toordinal (mkdate 9999 12 31) /\
   (forall a b, failing_fetch a b = None) /\
   get_all_historical_data sample_strptime_9999 failing_fetch
     "9999-01-01" "9999-12-31" 4 = Raises OverflowError /\
   get_all_historical_data sample_strptime_9999 failing_fetch
     "9999-01-01" "9999-12-31" 4 <> Returns None) /\
  (sample_strptime_9999 "9990-01-01" = Some (toordinal (mkdate 9990 1 1)) /\
   toordinal (mkdate 9990 1 1) + (4 * 365 + 10) <= toordinal (mkdate 9999 12 31) /\
   two_day_fetch (toordinal (mkdate 9990 1 1))
     (toordinal (mkdate 9990 1 1) + (4 * 365 + 10)) <> None /\
   get_all_historical_data sample_strptime_9999 two_day_fetch
     "9990-01-01" "9999-12-31" 4 = Raises OverflowError /\
   ~ (exists result,
        get_all_historical_data sample_strptime_9999 two_day_fetch
          "9990-01-01" "9999-12-31" 4 = Returns (Some result))).
Proof.
  assert (A : get_all_historical_data sample_strptime_9999 failing_fetch
                "9999-01-01" "9999-12-31" 4 = Raises OverflowError).
  { unfold get_all_historical_data.
    change (sample_strptime_9999 "9999-01-01") with (Some 3651695).
    change (sample_strptime_9999 "9999-12-31") with (Some 3652059).
    cbv iota beta.
    rewrite chunk_loop_overflow; [reflexivity | lia | unfold MAXORDINAL; lia]. }
  assert (B : get_all_historical_data sample_strptime_9999 two_day_fetch
                "9990-01-01" "9999-12-31" 4 = Raises OverflowError).
  { unfold get_all_historical_data.
    change (sample_strptime_9999 "9990-01-01") with (Some 3648408).
    change (sample_strptime_9999 "9999-12-31") with (Some 3652059).
    cbv iota beta.
    rewrite chunk_loop_next by (unfold MAXORDINAL; lia).
    rewrite chunk_loop_next by (unfold MAXORDINAL; lia).
    rewrite chunk_loop_overflow; [reflexivity | lia | unfold MAXORDINAL; lia]. }
  split.
  - split; [reflexivity|]. split; [reflexivity|].
    split; [vm_compute; discriminate|]. split; [reflexivity|].
    split; [exact A|]. rewrite A. discriminate.
  - split; [reflexivity|]. split; [vm_compute; discriminate|].
    split; [discriminate|]. split; [exact B|].
    intros [result H]. rewrite B in H. discriminate.
Qed.

(* ------------------------------------------------------------------ *)
(** *** The input frame is left as it was *)

Module HeapFacts.
Import stdpp.base stdpp.gmap.
Import Heap HeapSample.

(** Assigning the column changes the object it is applied to. *)
Lemma df_setitem_seizoen_updates (h : heap) l f col :
  h !! l = Some f ->
  exists h',
    df_setitem_seizoen l col h = Some (tt, h') /\
    h' !! l = Some (mkframe (fo_rows f) (Some col)).
Proof.
  intros H. unfold df_setitem_seizoen. rewrite H.
  eexists. split; [reflexivity|]. apply lookup_insert_eq.
Qed.

(** A copy lives at a location that held no object. *)
Lemma df_copy_fresh (h : heap) l f :
  h !! l = Some f ->
  exists l', df_copy l h = Some (l', <[l' := f]> h) /\ h !! l' = None /\ l' <> l.
Proof.
  intros H. unfold df_copy. rewrite H. cbv zeta.
  set (l' := fresh (dom h)).
  assert (N : h !! l' = None).
  { apply not_elem_of_dom. apply is_fresh. }
  exists l'. split; [reflexivity|]. split; [exact N|].
  intros E. rewrite E in N. congruence.
Qed.

(** C10.  A call of [calculate_snow_records] on a reference to a frame
    leaves that frame, its dates and its depths, as it was, and every
    other object of the store too: the column ['Seizoen'] is assigned to a
    copy that lives at a new location, and the result is computed from
    the copy. *)
Theorem calculate_snow_records_keeps_input (h : heap) (df : positive)
    (f : frame_obj) :
  h !! df = Some f ->
  exists h' temp_df,
    calculate_snow_records_st df h
    = Some (calculate_snow_records (fo_rows f), h') /\
    h' !! df = Some f /\
    (forall l, is_Some (h !! l) -> h' !! l = h !! l) /\
    h !! temp_df = None /\
    h' !! temp_df
    = Some (mkframe (fo_rows f) (Some (seizoen_column (index (fo_rows f))))).
Proof.
  intros H.
  destruct (df_copy_fresh h df f H) as (temp & Hcopy & Hfresh & Hne).
  exists (<[temp := mkframe (fo_rows f) (Some (seizoen_column (index (fo_rows f))))]>
            (<[temp := f]> h)), temp.
  split; [|split; [|split; [|split]]].
  - unfold calculate_snow_records_st, st_bind. rewrite Hcopy.
    unfold df_index. rewrite lookup_insert_eq.
    unfold df_setitem_seizoen. rewrite lookup_insert_eq.
    unfold df_rows. rewrite lookup_insert_eq. reflexivity.
  - rewrite !lookup_insert_ne by done. exact H.
  - intros l [x Hl]. rewrite !lookup_insert_ne; [reflexivity|..];
      intros ->; congruence.
  - exact Hfresh.
  - apply lookup_insert_eq.
Qed.

Lemma calculate_snow_records_keeps_input_witness :
  sample_heap !! 5%positive = Some (mkframe series_two_seasons None) /\
  exists h' temp_df,
    calculate_snow_records_st 5 sample_heap
    = Some (calculate_snow_records series_two_seasons, h') /\
    h' !! 5%positive = Some (mkframe series_two_seasons None) /\
    (forall l, is_Some (sample_heap !! l) -> h' !! l = sample_heap !! l) /\
    sample_heap !! temp_df = None /\
    h' !! temp_df
    = Some (mkframe series_two_seasons
              (Some (seizoen_column (index series_two_seasons)))).
Proof.
  split; [reflexivity|].
  apply (calculate_snow_records_keeps_input sample_heap 5
           (mkframe series_two_seasons None)).
  reflexivity.
Defined.

End HeapFacts.

(* ================================================================== *)
(** ** Further properties *)

(* ------------------------------------------------------------------ *)
(** *** The seasonal ordinal: range and dependence on the year *)

Lemma tm_yday_first_half d :
  valid_date d -> month d < 7 -> tm_yday d <= tm_yday (mkdate (year d) 6 30).
Proof.
  intros V H7. destruct (valid_date_fields d V) as (_ & Hm & Hd).
  rewrite tm_yday_june_30.
  split_month Hm; try lia; calendar; rewrite M in *; calendar;
    destruct (is_leap (year d)); lia.
Qed.

(** X1.  Where it is defined the seasonal ordinal lies between 1 and 366;
    the dates of July to December get the ordinals up to 184 and the dates
    of January to June the ordinals from 185 on. *)
Theorem seasonal_ordinal_range (d : date) :
  valid_date d -> 7 <= month d \/ MINYEAR < year d ->
  exists n,
    get_seasonal_ordinal d = Returns n /\
    1 <= n <= 366 /\
    (n <= 184 <-> 7 <= month d).
Proof.
  intros V H.
  destruct (Z.le_gt_cases 7 (month d)) as [H7|H7].
  - rewrite (get_seasonal_ordinal_second_half_of_year d V H7).
    eexists; split; [reflexivity|].
    pose proof (tm_yday_second_half d V H7). lia.
  - destruct H as [H|H]; [lia|].
    rewrite (get_seasonal_ordinal_first_half_of_year d V H7 H).
    eexists; split; [reflexivity|].
    rewrite second_half_length.
    pose proof (tm_yday_first_half d V H7) as U. rewrite tm_yday_june_30 in U.
    pose proof (tm_yday_bounds d V).
    destruct (is_leap (year d)); lia.
Qed.

Lemma seasonal_ordinal_range_witness :
  valid_date (mkdate 2024 2 29) /\
  exists n,
    get_seasonal_ordinal (mkdate 2024 2 29) = Returns n /\
    1 <= n <= 366 /\ (n <= 184 <-> 7 <= 2).
Proof.
  split; [reflexivity|].
  apply (seasonal_ordinal_range (mkdate 2024 2 29)); [reflexivity|].
  right. reflexivity.
Defined.

(** X2.  Two dates with the same month and day get the same seasonal
    ordinal when they lie in July to February or in years that are both
    leap years or both not; from March to June the date in a leap year
    gets the ordinal one higher than the date in a common year. *)
Theorem seasonal_ordinal_across_years (d1 d2 : date) :
  valid_date d1 -> valid_date d2 ->
  7 <= month d1 \/ MINYEAR < year d1 ->
  7 <= month d2 \/ MINYEAR < year d2 ->
  month d1 = month d2 -> day d1 = day d2 ->
  exists n1 n2,
    get_seasonal_ordinal d1 = Returns n1 /\
    get_seasonal_ordinal d2 = Returns n2 /\
    (7 <= month d1 \/ month d1 <= 2 \/ is_leap (year d1) = is_leap (year d2) ->
     n1 = n2) /\
    (3 <= month d1 <= 6 -> is_leap (year d1) = true -> is_leap (year d2) = false ->
     n1 = n2 + 1).
Proof.
  intros V1 V2 D1 D2 Em Ed.
  destruct (valid_date_fields d1 V1) as (_ & Hm & _).
  destruct (Z.le_gt_cases 7 (month d1)) as [H7|H7].
  - rewrite (get_seasonal_ordinal_second_half_of_year d1 V1 H7).
    rewrite (get_seasonal_ordinal_second_half_of_year d2 V2) by lia.
    do 2 eexists. split; [reflexivity|]. split; [reflexivity|].
    rewrite !tm_yday_june_30. unfold tm_yday, days_before_month.
    rewrite <- Em, <- Ed.
    split; [intros _|lia].
    split_month Hm; try lia; rewrite M; repeat calendar_step; cbn [andb];
      destruct (is_leap (year d1)), (is_leap (year d2)); lia.
  - assert (Y1 : MINYEAR < year d1) by (destruct D1; [lia | assumption]).
    assert (Y2 : MINYEAR < year d2) by (destruct D2; [lia | assumption]).
    rewrite (get_seasonal_ordinal_first_half_of_year d1 V1 H7 Y1).
    rewrite (get_seasonal_ordinal_first_half_of_year d2 V2) by (assumption || lia).
    do 2 eexists. split; [reflexivity|]. split; [reflexivity|].
    rewrite !second_half_length. unfold tm_yday, days_before_month.
    rewrite <- Em, <- Ed.
    split.
    + intros [C|[C|C]]; [lia| |rewrite C; reflexivity].
      split_month Hm; try lia; rewrite M; repeat calendar_step; cbn [andb];
        reflexivity.
    + intros C L1 L2. rewrite L1, L2.
      split_month Hm; try lia; rewrite M; repeat calendar_step; cbn [andb];
        lia.
Qed.

Lemma seasonal_ordinal_across_years_witness :
  valid_date (mkdate 2024 3 1) /\ valid_date (mkdate 2023 3 1) /\
  exists n1 n2,
    get_seasonal_ordinal (mkdate 2024 3 1) = Returns n1 /\
    get_seasonal_ordinal (mkdate 2023 3 1) = Returns n2 /\
    (7 <= 3 \/ 3 <= 2 \/ is_leap 2024 = is_leap 2023 -> n1 = n2) /\
    (3 <= 3 <= 6 -> is_leap 2024 = true -> is_leap 2023 = false -> n1 = n2 + 1).
Proof.
  split; [reflexivity|]. split; [reflexivity|].
  apply (seasonal_ordinal_across_years (mkdate 2024 3 1) (mkdate 2023 3 1));
    try reflexivity; right; reflexivity.
Defined.

(* ------------------------------------------------------------------ *)
(** *** First and last snow day of a season *)

Lemma toordinal_inj a b :
  valid_date a -> valid_date b -> toordinal a = toordinal b -> a = b.
Proof.
  intros Va Vb E. apply date_eqb_eq. unfold date_eqb.
  rewrite (date_compare_toordinal a b Va Vb), E, Z.compare_refl. reflexivity.
Qed.

Lemma date_min2_spec a b :
  valid_date a -> valid_date b ->
  valid_date (date_min2 a b) /\
  toordinal (date_min2 a b) = Z.min (toordinal a) (toordinal b).
Proof.
  intros Va Vb. unfold date_min2.
  pose proof (date_le_toordinal a b Va Vb) as H. unfold date_le in H.
  destruct (date_leb a b); split; try assumption.
  - assert (toordinal a <= toordinal b) by now apply H. lia.
  - assert (~ toordinal a <= toordinal b) by (intros C; apply H in C; discriminate).
    lia.
Qed.

Lemma date_max2_spec a b :
  valid_date a -> valid_date b ->
  valid_date (date_max2 a b) /\
  toordinal (date_max2 a b) = Z.max (toordinal a) (toordinal b).
Proof.
  intros Va Vb. unfold date_max2.
  pose proof (date_le_toordinal a b Va Vb) as H. unfold date_le in H.
  destruct (date_leb a b); split; try assumption.
  - assert (toordinal a <= toordinal b) by now apply H. lia.
  - assert (~ toordinal a <= toordinal b) by (intros C; apply H in C; discriminate).
    lia.
Qed.

Lemma fold_left_date_min2_le l x :
  Forall valid_date (x :: l) ->
  valid_date (fold_left date_min2 l x) /\
  forall y, In y (x :: l) -> toordinal (fold_left date_min2 l x) <= toordinal y.
Proof.
  revert x. induction l as [|z l IH]; intros x V.
  - inversion V; subst. split; [assumption|]. intros y [<-|[]]. cbn. lia.
  - inversion V as [|? ? Vx Vl]; subst. inversion Vl as [|? ? Vz Vl']; subst.
    destruct (date_min2_spec x z Vx Vz) as [Vm Em].
    destruct (IH (date_min2 x z) ltac:(constructor; assumption)) as [Vf Hf].
    split; [exact Vf|]. cbn [fold_left].
    intros y [<-|[<-|Hy]].
    + specialize (Hf _ (or_introl eq_refl)). lia.
    + specialize (Hf _ (or_introl eq_refl)). lia.
    + apply Hf. now right.
Qed.

Lemma fold_left_date_max2_ge l x :
  Forall valid_date (x :: l) ->
  valid_date (fold_left date_max2 l x) /\
  forall y, In y (x :: l) -> toordinal y <= toordinal (fold_left date_max2 l x).
Proof.
  revert x. induction l as [|z l IH]; intros x V.
  - inversion V; subst. split; [assumption|]. intros y [<-|[]]. cbn. lia.
  - inversion V as [|? ? Vx Vl]; subst. inversion Vl as [|? ? Vz Vl']; subst.
    destruct (date_max2_spec x z Vx Vz) as [Vm Em].
    destruct (IH (date_max2 x z) ltac:(constructor; assumption)) as [Vf Hf].
    split; [exact Vf|]. cbn [fold_left].
    intros y [<-|[<-|Hy]].
    + specialize (Hf _ (or_introl eq_refl)). lia.
    + specialize (Hf _ (or_introl eq_refl)). lia.
    + apply Hf. now right.
Qed.

Lemma index_min_spec l m :
  Forall valid_date l -> index_min l = Some m ->
  In m l /\ forall y, In y l -> date_le m y.
Proof.
  intros V H. split; [now apply index_min_In|].
  destruct l as [|x l]; [discriminate|]. injection H as <-.
  destruct (fold_left_date_min2_le l x V) as [Vm Hm].
  intros y Hy. apply date_le_toordinal; auto.
  rewrite Forall_forall in V. auto.
Qed.

Lemma index_max_spec l m :
  Forall valid_date l -> index_max l = Some m ->
  In m l /\ forall y, In y l -> date_le y m.
Proof.
  intros V H. split; [now apply index_max_In|].
  destruct l as [|x l]; [discriminate|]. injection H as <-.
  destruct (fold_left_date_max2_ge l x V) as [Vm Hm].
  intros y Hy. apply date_le_toordinal; auto.
  rewrite Forall_forall in V. auto.
Qed.

Lemma In_snow_days_of df r :
  In r (snow_days_of (temp_df_of df)) <->
  exists d x, In (d, x) df /\ 0 < x /\ r = mkrow d x (season_label d).
Proof.
  rewrite snow_days_of_temp_df, in_map_iff. split.
  - intros ([d x] & <- & H). apply filter_In in H as [H1 H2].
    apply Z.ltb_lt in H2. exists d, x. auto.
  - intros (d & x & H1 & H2 & ->). exists (d, x). split; [reflexivity|].
    apply filter_In. split; [assumption | now apply Z.ltb_lt].
Qed.

Lemma group_snow_dates df s d :
  In d (map r_date (group s (snow_days_of (temp_df_of df)))) <->
  snow_date_in df s d.
Proof.
  rewrite in_map_iff. unfold snow_date_in. split.
  - intros (r & <- & H). apply group_In in H as [H Hs].
    apply In_snow_days_of in H as (d' & x & H1 & H2 & ->). cbn in *. eauto.
  - intros (Hs & x & H1 & H2). exists (mkrow d x (season_label d)).
    split; [reflexivity|]. apply group_In. split; [|exact Hs].
    apply In_snow_days_of. eauto.
Qed.

Lemma snow_keys_In df s :
  In s (groupby_keys (snow_days_of (temp_df_of df))) <-> has_snow_day df s.
Proof.
  rewrite groupby_keys_In. unfold has_snow_day. split.
  - intros (r & H & <-). apply In_snow_days_of in H as (d & x & H1 & H2 & ->).
    exists (d, x). cbn. auto.
  - intros ([d x] & H1 & H2 & H3). cbn in *.
    exists (mkrow d x (season_label d)). split; [|exact H2].
    apply In_snow_days_of. eauto.
Qed.

Lemma groupby_index_min_iff rows s a :
  In (s, a) (groupby_index_min rows) <->
  In s (groupby_keys rows) /\ index_min (map r_date (group s rows)) = Some a.
Proof.
  unfold groupby_index_min. rewrite in_flat_map. split.
  - intros (k & Hk & H).
    destruct (index_min (map r_date (group k rows))) eqn:E; [|contradiction].
    destruct H as [[= <- <-]|[]]. auto.
  - intros [Hk E]. exists s. split; [assumption|]. rewrite E. now left.
Qed.

Lemma groupby_index_max_iff rows s a :
  In (s, a) (groupby_index_max rows) <->
  In s (groupby_keys rows) /\ index_max (map r_date (group s rows)) = Some a.
Proof.
  unfold groupby_index_max. rewrite in_flat_map. split.
  - intros (k & Hk & H).
    destruct (index_max (map r_date (group k rows))) eqn:E; [|contradiction].
    destruct H as [[= <- <-]|[]]. auto.
  - intros [Hk E]. exists s. split; [assumption|]. rewrite E. now left.
Qed.

Lemma group_nonempty rows s :
  In s (groupby_keys rows) -> map r_date (group s rows) <> [].
Proof.
  intros H N. apply groupby_keys_In in H as (r & Hr & Hs).
  apply map_eq_nil in N.
  assert (I : In r (group s rows)) by now apply group_In.
  rewrite N in I. contradiction.
Qed.

Lemma flat_map_keys {B : Type} (f : string -> option B) keys :
  (forall k, In k keys -> f k <> None) ->
  map fst (flat_map (fun k => match f k with
                              | Some d => [(k, d)]
                              | None => []
                              end) keys) = keys.
Proof.
  induction keys as [|k keys IH]; intros H; simpl; [reflexivity|].
  destruct (f k) eqn:E; [|exfalso; now apply (H k (or_introl eq_refl))].
  simpl. f_equal. apply IH. intros k' Hk'. apply H. now right.
Qed.

Lemma groupby_index_min_keys rows :
  map fst (groupby_index_min rows) = groupby_keys rows.
Proof.
  apply flat_map_keys. intros k Hk N.
  apply (group_nonempty rows k Hk).
  destruct (map r_date (group k rows)); [reflexivity | discriminate].
Qed.

Lemma groupby_index_max_keys rows :
  map fst (groupby_index_max rows) = groupby_keys rows.
Proof.
  apply flat_map_keys. intros k Hk N.
  apply (group_nonempty rows k Hk).
  destruct (map r_date (group k rows)); [reflexivity | discriminate].
Qed.

(** X3.  The tables [earliest_snow_all] and [latest_snow_all] hold one
    row for each season that has a snow day and no other row; the two
    dates of a season are snow days of that season, every snow day of the
    season lies between them, and they coincide exactly when the season
    has a single snow day. *)
Theorem snow_cover_onset_and_end (df : DataFrame) :
  (forall e, In e df -> 0 < snd e -> valid_date (fst e)) ->
  (forall s, has_snow_day df s <-> exists a, In (s, a) (earliest_snow_all df)) /\
  (forall s, has_snow_day df s <-> exists b, In (s, b) (latest_snow_all df)) /\
  NoDup (map fst (earliest_snow_all df)) /\
  NoDup (map fst (latest_snow_all df)) /\
  forall s a b,
    In (s, a) (earliest_snow_all df) -> In (s, b) (latest_snow_all df) ->
    snow_date_in df s a /\ snow_date_in df s b /\
    (forall d, snow_date_in df s d -> date_le a d /\ date_le d b) /\
    (a = b <-> forall d, snow_date_in df s d -> d = a).
Proof.
  intros V. unfold earliest_snow_all, latest_snow_all.
  set (rows := snow_days_of (temp_df_of df)).
  assert (VG : forall s, Forall valid_date (map r_date (group s rows))).
  { intros s. apply Forall_forall. intros d Hd.
    apply group_snow_dates in Hd as (_ & x & H1 & H2). exact (V (d, x) H1 H2). }
  split; [|split; [|split; [|split]]].
  - intros s. rewrite <- snow_keys_In. fold rows. split.
    + intros Hk.
      destruct (index_min (map r_date (group s rows))) as [a|] eqn:E.
      * exists a. now apply groupby_index_min_iff.
      * exfalso. apply (group_nonempty rows s Hk).
        destruct (map r_date (group s rows)); [reflexivity | discriminate].
    + intros [a H]. now apply groupby_index_min_iff in H.
  - intros s. rewrite <- snow_keys_In. fold rows. split.
    + intros Hk.
      destruct (index_max (map r_date (group s rows))) as [a|] eqn:E.
      * exists a. now apply groupby_index_max_iff.
      * exfalso. apply (group_nonempty rows s Hk).
        destruct (map r_date (group s rows)); [reflexivity | discriminate].
    + intros [a H]. now apply groupby_index_max_iff in H.
  - rewrite groupby_index_min_keys. apply groupby_keys_NoDup.
  - rewrite groupby_index_max_keys. apply groupby_keys_NoDup.
  - intros s a b Ha Hb.
    apply groupby_index_min_iff in Ha as [_ Ha].
    apply groupby_index_max_iff in Hb as [_ Hb].
    destruct (index_min_spec _ _ (VG s) Ha) as [Ia La].
    destruct (index_max_spec _ _ (VG s) Hb) as [Ib Lb].
    apply group_snow_dates in Ia. apply group_snow_dates in Ib.
    split; [exact Ia|]. split; [exact Ib|]. split.
    + intros d Hd. apply group_snow_dates in Hd. auto.
    + split.
      * intros <- d Hd.
        assert (Vd : valid_date d) by (destruct Hd as (_ & x & H1 & H2); exact (V (d, x) H1 H2)).
        assert (Va : valid_date a) by (destruct Ia as (_ & x & H1 & H2); exact (V (a, x) H1 H2)).
        apply group_snow_dates in Hd.
        pose proof (La d Hd) as L1. pose proof (Lb d Hd) as L2.
        apply (date_le_toordinal a d Va Vd) in L1.
        apply (date_le_toordinal d a Vd Va) in L2.
        apply toordinal_inj; auto. lia.
      * intros H. symmetry. now apply H.
Qed.

Lemma snow_cover_onset_and_end_witness :
  (forall e, In e series_december_2020 -> 0 < snd e -> valid_date (fst e)) /\
  In ("2020/2021"%string, mkdate 2020 12 1) (earliest_snow_all series_december_2020) /\
  In ("2020/2021"%string, mkdate 2020 12 10) (latest_snow_all series_december_2020) /\
  (forall d, snow_date_in series_december_2020 "2020/2021" d ->
             date_le (mkdate 2020 12 1) d /\ date_le d (mkdate 2020 12 10)).
Proof.
  assert (V : forall e, In e series_december_2020 -> 0 < snd e -> valid_date (fst e)).
  { intros e H _. cbn in H.
    repeat (destruct H as [<-|H]; [reflexivity|]). contradiction. }
  assert (Ha : In ("2020/2021"%string, mkdate 2020 12 1)
                  (earliest_snow_all series_december_2020))
    by (vm_compute; now left).
  assert (Hb : In ("2020/2021"%string, mkdate 2020 12 10)
                  (latest_snow_all series_december_2020))
    by (vm_compute; now left).
  split; [exact V|]. split; [exact Ha|]. split; [exact Hb|].
  exact (proj1 (proj2 (proj2
    (proj2 (proj2 (proj2 (proj2 (snow_cover_onset_and_end series_december_2020 V))))
       _ _ _ Ha Hb)))).
Defined.

(* ------------------------------------------------------------------ *)
(** *** The rankings of the dictionary of records *)

Lemma calculate_snow_records_fields df rs :
  calculate_snow_records df = Returns (Some rs) ->
  ordinal_ranking true (earliest_snow_all df) = Returns (top10_vroegste_start rs) /\
  ordinal_ranking false (earliest_snow_all df) = Returns (top10_laatste_start rs) /\
  ordinal_ranking true (latest_snow_all df) = Returns (top10_vroegste_einde rs) /\
  ordinal_ranking false (latest_snow_all df) = Returns (top10_laatste_einde rs) /\
  top10_meeste_dagen rs
  = head 10 (sort_values snd false (groupby_size (snow_days_of (temp_df_of df)))).
Proof.
  unfold calculate_snow_records, records_of_temp_df, earliest_snow_all,
    latest_snow_all.
  change (filter (fun r => 0 <? r_depth r) (temp_df_of df))
    with (snow_days_of (temp_df_of df)).
  destruct (snow_days_of (temp_df_of df)) as [|r0 sd] eqn:Esd; [discriminate|].
  rewrite <- Esd.
  destruct (ordinal_ranking true (groupby_index_min _)) as [r1|]; [|discriminate].
  destruct (ordinal_ranking false (groupby_index_min _)) as [r2|]; [|discriminate].
  destruct (ordinal_ranking true (groupby_index_max _)) as [r3|]; [|discriminate].
  destruct (ordinal_ranking false (groupby_index_max _)) as [r4|]; [|discriminate].
  cbn [bind].
  destruct (map r_date (snow_days_of (temp_df_of df))); intros [= <-]; cbn; auto.
Qed.

Lemma mapM_inv {A B : Type} (f : A -> outcome B) l ys :
  mapM f l = Returns ys -> Forall2 (fun x y => f x = Returns y) l ys.
Proof.
  revert ys. induction l as [|x l IH]; intros ys; simpl.
  - intros [= <-]. constructor.
  - destruct (f x) as [y|] eqn:E; [|discriminate]. simpl.
    destruct (mapM f l) as [ys'|]; [|discriminate]. simpl.
    intros [= <-]. constructor; [exact E | now apply IH].
Qed.

Lemma add_seasonal_ordinal_inv tbl t :
  add_seasonal_ordinal tbl = Returns t ->
  map fst t = tbl /\
  Forall (fun x => get_seasonal_ordinal (snd (fst x)) = Returns (snd x)) t.
Proof.
  intros H. apply mapM_inv in H.
  induction H as [|sd x tbl t Hx _ IH]; [split; constructor|].
  destruct IH as [IH1 IH2].
  destruct (get_seasonal_ordinal (snd sd)) as [o|] eqn:E; [|discriminate].
  simpl in Hx. injection Hx as <-. split.
  - simpl. now rewrite IH1.
  - constructor; [exact E | exact IH2].
Qed.

(** What [ordinal_ranking] returns is a ranking of its table. *)
Lemma ordinal_ranking_spec asc tbl r :
  ordinal_ranking asc tbl = Returns r -> is_ordinal_ranking asc tbl r.
Proof.
  unfold ordinal_ranking.
  destruct (add_seasonal_ordinal tbl) as [t|] eqn:E; [|discriminate].
  simpl. intros [= <-].
  destruct (add_seasonal_ordinal_inv _ _ E) as [Hfst Hord].
  set (sorted := sort_values snd asc t).
  assert (P : Permutation sorted t) by apply sort_values_perm.
  assert (S : StronglySorted (fun x y => if asc then snd x <= snd y
                                         else snd y <= snd x) sorted).
  { unfold sorted. destruct asc;
      [apply sort_values_ascending | apply sort_values_descending]. }
  exists (head 10 sorted). unfold head.
  split; [reflexivity|]. split; [|split; [|split]].
  - rewrite firstn_length_min, (Permutation_length P), <- Hfst, length_map.
    reflexivity.
  - apply Forall_forall. intros x Hx. apply In_firstn in Hx.
    apply (Permutation_in _ P) in Hx. split.
    + rewrite <- Hfst. now apply in_map.
    + rewrite Forall_forall in Hord. now apply Hord.
  - now apply StronglySorted_firstn.
  - intros sd o Hsd Ho.
    assert (I : In (sd, o) sorted).
    { apply (Permutation_in _ (Permutation_sym P)).
      rewrite <- Hfst in Hsd. apply in_map_iff in Hsd as ([sd' o'] & <- & Hin).
      rewrite Forall_forall in Hord. specialize (Hord _ Hin). cbn in Hord, Ho |- *.
      rewrite Ho in Hord. injection Hord as ->. exact Hin. }
    rewrite <- (firstn_skipn 10 sorted) in I.
    apply in_app_or in I as [I|I]; [now left|right].
    apply Forall_forall. intros x Hx.
    exact (StronglySorted_firstn_skipn _ 10 sorted _ _ S Hx I).
Qed.

(** X4.  The four rankings of the start and of the end of the snow cover
    are rankings by seasonal ordinal of the first snow days of the seasons
    (earliest start ascending, latest start descending) and of their last
    snow days (earliest end ascending, latest end descending): each shows
    ten seasons, or all seasons with snow if there are fewer, in the order
    of the ordinals, and no season left out comes before one shown. *)
Theorem start_and_end_rankings (df : DataFrame) :
  (exists e, In e df /\ 0 < snd e) ->
  (forall e, In e df -> 0 < snd e -> ordinal_defined (fst e)) ->
  exists rs,
    calculate_snow_records df = Returns (Some rs) /\
    is_ordinal_ranking true (earliest_snow_all df) (top10_vroegste_start rs) /\
    is_ordinal_ranking false (earliest_snow_all df) (top10_laatste_start rs) /\
    is_ordinal_ranking true (latest_snow_all df) (top10_vroegste_einde rs) /\
    is_ordinal_ranking false (latest_snow_all df) (top10_laatste_einde rs).
Proof.
  intros Hex Hdef.
  destruct (calculate_snow_records_Returns df Hex Hdef) as (rs & H & _).
  destruct (calculate_snow_records_fields df rs H) as (H1 & H2 & H3 & H4 & _).
  exists rs. split; [exact H|].
  repeat split; now apply ordinal_ranking_spec.
Qed.

Lemma start_and_end_rankings_witness :
  (exists e, In e series_two_seasons /\ 0 < snd e) /\
  (forall e, In e series_two_seasons -> 0 < snd e -> ordinal_defined (fst e)) /\
  exists rs,
    calculate_snow_records series_two_seasons = Returns (Some rs) /\
    is_ordinal_ranking true (earliest_snow_all series_two_seasons)
      (top10_vroegste_start rs) /\
    is_ordinal_ranking false (earliest_snow_all series_two_seasons)
      (top10_laatste_start rs) /\
    is_ordinal_ranking true (latest_snow_all series_two_seasons)
      (top10_vroegste_einde rs) /\
    is_ordinal_ranking false (latest_snow_all series_two_seasons)
      (top10_laatste_einde rs).
Proof.
  assert (Hex : exists e, In e series_two_seasons /\ 0 < snd e).
  { exists (mkdate 2020 12 1, 120). split; [now left | reflexivity]. }
  assert (Hdef : forall e, In e series_two_seasons -> 0 < snd e ->
                           ordinal_defined (fst e)).
  { intros e [<-|[<-|[<-|[<-|[]]]]] _; (split; [reflexivity | right; reflexivity]). }
  split; [exact Hex|]. split; [exact Hdef|].
  exact (start_and_end_rankings series_two_seasons Hex Hdef).
Defined.

Lemma filter_filter_andb {A : Type} (f g : A -> bool) l :
  filter f (filter g l) = filter (fun x => g x && f x) l.
Proof.
  induction l as [|x l IH]; simpl; [reflexivity|].
  destruct (g x); simpl; [|exact IH].
  destruct (f x); now rewrite IH.
Qed.

Lemma group_snow_length df s :
  List.length (group s (snow_days_of (temp_df_of df))) = snow_days_in_season df s.
Proof.
  unfold group, snow_days_in_season.
  rewrite snow_days_of_temp_df, filter_map_commute, length_map, filter_filter_andb.
  reflexivity.
Qed.

Lemma snow_keys_perm df :
  Permutation (groupby_keys (snow_days_of (temp_df_of df))) (snow_seasons_of df).
Proof.
  unfold snow_seasons_of, snow_dates. rewrite groupby_keys_perm.
  rewrite snow_days_of_temp_df, !map_map. reflexivity.
Qed.

Lemma days_with_snow_length df :
  days_with_snow df = List.length (snow_dates df).
Proof. unfold days_with_snow, snow_dates. now rewrite length_map. Qed.

Lemma sum_Z_perm l l' : Permutation l l' -> sum_Z l = sum_Z l'.
Proof. induction 1; simpl; lia. Qed.

Lemma sum_Z_add {A : Type} (f g : A -> Z) l :
  sum_Z (map (fun k => f k + g k) l) = sum_Z (map f l) + sum_Z (map g l).
Proof. induction l as [|x l IH]; simpl; lia. Qed.

Lemma sum_Z_indicator x keys :
  NoDup keys ->
  sum_Z (map (fun k => if String.eqb x k then 1 else 0) keys)
  = if in_dec string_dec x keys then 1 else 0.
Proof.
  induction 1 as [|k keys N ND IH]; simpl; [reflexivity|].
  rewrite IH. destruct (String.eqb_spec x k) as [->|NE].
  - destruct (string_dec k k); [|congruence].
    destruct (in_dec string_dec k keys); [contradiction | reflexivity].
  - destruct (string_dec k x); [congruence|].
    destruct (in_dec string_dec x keys); reflexivity.
Qed.

(** The sizes of the groups of a frame add up to its number of rows. *)
Lemma group_sizes_sum rows keys :
  NoDup keys -> (forall r, In r rows -> In (r_seizoen r) keys) ->
  sum_Z (map (fun k => Z.of_nat (List.length (group k rows))) keys)
  = Z.of_nat (List.length rows).
Proof.
  intros ND. induction rows as [|r rows IH]; intros H.
  - simpl. clear ND H. induction keys as [|k keys IHk]; simpl; [reflexivity|].
    rewrite IHk. reflexivity.
  - rewrite (map_ext _ (fun k => (if String.eqb (r_seizoen r) k then 1 else 0)
                                 + Z.of_nat (List.length (group k rows)))).
    + rewrite sum_Z_add, IH by (intros; apply H; now right).
      rewrite (sum_Z_indicator _ _ ND).
      destruct (in_dec string_dec (r_seizoen r) keys) as [|N].
      * cbn [List.length]. lia.
      * exfalso. apply N. apply H. now left.
    + intros k. unfold group. cbn [filter].
      destruct (String.eqb (r_seizoen r) k); cbn [List.length]; lia.
Qed.

Lemma groupby_size_iff rows s n :
  In (s, n) (groupby_size rows) <->
  In s (groupby_keys rows) /\ n = Z.of_nat (List.length (group s rows)).
Proof.
  unfold groupby_size. rewrite in_map_iff. split.
  - intros (k & [= <- <-] & H). auto.
  - intros [H ->]. eauto.
Qed.

Lemma groupby_size_keys rows : map fst (groupby_size rows) = groupby_keys rows.
Proof. unfold groupby_size. rewrite map_map. cbn. apply map_id. Qed.

(** X5.  The ranking of the seasons by number of snow days holds, for
    each season shown, its number of entries of positive depth, which is
    at least one; the rows are in descending order, hold distinct
    seasons, and number ten or as many as there are seasons with snow; and
    when there are at most ten such seasons the numbers add up to the total
    number of snow days that the dictionary reports. *)
Theorem most_snow_days_ranking (df : DataFrame) :
  (exists e, In e df /\ 0 < snd e) ->
  (forall e, In e df -> 0 < snd e -> ordinal_defined (fst e)) ->
  exists rs,
    calculate_snow_records df = Returns (Some rs) /\
    let ranking := top10_meeste_dagen rs in
    (forall s n, In (s, n) ranking ->
       has_snow_day df s /\ n = Z.of_nat (snow_days_in_season df s) /\ 1 <= n) /\
    StronglySorted (fun a b => snd b <= snd a) ranking /\
    NoDup (map fst ranking) /\
    List.length ranking = Nat.min 10 (List.length (snow_seasons_of df)) /\
    (Nat.le (List.length (snow_seasons_of df)) 10 ->
     sum_Z (map snd ranking) = Z.of_nat (days_with_snow df) /\
     totaal_dagen_met_sneeuw rs = Some (sum_Z (map snd ranking))).
Proof.
  intros Hex Hdef.
  destruct (calculate_snow_records_Returns df Hex Hdef) as (rs & H & _ & _ & Htot).
  destruct (calculate_snow_records_fields df rs H) as (_ & _ & _ & _ & Hr).
  exists rs. split; [exact H|]. cbv zeta. rewrite Hr. unfold head.
  set (rows := snow_days_of (temp_df_of df)).
  set (sorted := sort_values snd false (groupby_size rows)).
  assert (P : Permutation sorted (groupby_size rows)) by apply sort_values_perm.
  assert (K : Permutation (map fst sorted) (snow_seasons_of df)).
  { rewrite P, groupby_size_keys. apply snow_keys_perm. }
  split; [|split; [|split; [|split]]].
  - intros s n Hin. apply In_firstn in Hin. apply (Permutation_in _ P) in Hin.
    apply groupby_size_iff in Hin as [Hk ->].
    unfold rows in *. rewrite group_snow_length.
    apply snow_keys_In in Hk. split; [exact Hk|]. split; [reflexivity|].
    destruct Hk as ([d x] & H1 & H2 & H3). cbn in H2, H3.
    unfold snow_days_in_season.
    assert (I : In (d, x) (filter (fun e => (0 <? snd e)
                              && String.eqb (season_label (fst e)) s) df)).
    { apply filter_In. split; [assumption|]. cbn.
      apply andb_true_iff. split; [now apply Z.ltb_lt | now apply String.eqb_eq]. }
    destruct (filter _ df); [contradiction | cbn [List.length]; lia].
  - apply StronglySorted_firstn. apply sort_values_descending.
  - rewrite <- firstn_map. apply NoDup_firstn.
    eapply Permutation_NoDup; [symmetry; exact K|].
    apply (unique_NoDup String.eqb String.eqb_eq).
  - rewrite firstn_length_min. f_equal.
    rewrite <- (length_map fst). now apply Permutation_length.
  - intros Hlen.
    assert (E : firstn 10 sorted = sorted).
    { apply firstn_all2.
      rewrite <- (length_map fst), (Permutation_length K). exact Hlen. }
    rewrite E.
    assert (S : sum_Z (map snd sorted) = Z.of_nat (days_with_snow df)).
    { rewrite (sum_Z_perm _ _ (Permutation_map snd P)).
      unfold groupby_size. rewrite map_map. cbn [snd].
      rewrite (group_sizes_sum rows (groupby_keys rows)).
      - unfold rows. rewrite <- (length_map r_date), snow_dates_temp_df.
        now rewrite days_with_snow_length.
      - apply groupby_keys_NoDup.
      - intros r Hr'. apply groupby_keys_In. eauto. }
    split; [exact S|]. rewrite S, Htot. now rewrite days_with_snow_length.
Qed.

Lemma most_snow_days_ranking_witness :
  (exists e, In e series_two_seasons /\ 0 < snd e) /\
  (forall e, In e series_two_seasons -> 0 < snd e -> ordinal_defined (fst e)) /\
  exists rs,
    calculate_snow_records series_two_seasons = Returns (Some rs) /\
    List.length (top10_meeste_dagen rs)
    = Nat.min 10 (List.length (snow_seasons_of series_two_seasons)).
Proof.
  assert (Hex : exists e, In e series_two_seasons /\ 0 < snd e).
  { exists (mkdate 2020 12 1, 120). split; [now left | reflexivity]. }
  assert (Hdef : forall e, In e series_two_seasons -> 0 < snd e ->
                           ordinal_defined (fst e)).
  { intros e [<-|[<-|[<-|[<-|[]]]]] _; (split; [reflexivity | right; reflexivity]). }
  split; [exact Hex|]. split; [exact Hdef|].
  destruct (most_snow_days_ranking series_two_seasons Hex Hdef)
    as (rs & H & _ & _ & _ & L & _).
  exists rs. split; [exact H | exact L].
Defined.

Lemma In_concat_length {A : Type} (r : list A) rs :
  In r rs -> Nat.le (List.length r) (List.length (List.concat rs)).
Proof.
  induction rs as [|r0 rs IH]; simpl; [contradiction|].
  rewrite length_app. intros [->|H]; [lia|]. specialize (IH H). lia.
Qed.

(** X6.  The longest unbroken period that the dictionary reports starts
    and ends on snow days of the series, spans as many calendar days as it
    is long, and is at least one day and at most the total number of snow
    days, which is the number of entries of positive depth.  The text
    reads [N dagen (dd-mm-Y t/m dd-mm-Y)] with that length and those two
    days, and the text of no other length or days is the same. *)
Theorem longest_period_within_total (df : DataFrame) :
  (exists e, In e df /\ 0 < snd e) ->
  (forall e, In e df -> 0 < snd e -> ordinal_defined (fst e)) ->
  exists rs n a b,
    calculate_snow_records df = Returns (Some rs) /\
    totaal_dagen_met_sneeuw rs = Some (Z.of_nat (days_with_snow df)) /\
    absoluut_langste_periode rs = Some (format_streak (n, a, b)) /\
    1 <= n <= Z.of_nat (days_with_snow df) /\
    In a (snow_dates df) /\ In b (snow_dates df) /\
    days_between b a + 1 = n /\
    absoluut_langste_periode rs =
      Some (str n ++ " dagen ("
            ++ zfill 2 (str (day a)) ++ "-" ++ zfill 2 (str (month a)) ++ "-"
            ++ str (year a)
            ++ " t/m "
            ++ zfill 2 (str (day b)) ++ "-" ++ zfill 2 (str (month b)) ++ "-"
            ++ str (year b)
            ++ ")")%string /\
    forall n' a' b',
      valid_date a' -> valid_date b' ->
      absoluut_langste_periode rs = Some (format_streak (n', a', b')) ->
      n' = n /\ a' = a /\ b' = b.
Proof.
  intros Hex Hdef.
  destruct (calculate_snow_records_Returns df Hex Hdef) as (rs & H & _ & Hs & Htot).
  assert (NE : snow_dates df <> []).
  { destruct Hex as ([d x] & Hin & Hpos).
    assert (I : In d (snow_dates df)) by (apply In_snow_dates; eauto).
    intros N. rewrite N in I. contradiction. }
  assert (V : Forall valid_date (snow_dates df)).
  { apply Forall_forall. intros d Hd.
    apply In_snow_dates in Hd as (x & H1 & H2). exact (proj1 (Hdef (d, x) H1 H2)). }
  destruct (longest_streak_spec _ NE V)
    as (r & a & b & Hr & _ & Ha & Hb & Hl & Hlen).
  exists rs, (Z.of_nat (List.length r)), a, b.
  rewrite Hl in Hs. cbn [option_map] in Hs.
  pose proof (In_concat_length r _ Hr) as Hle. rewrite split_runs_concat in Hle.
  destruct (run_ends_In r a b Ha Hb) as [Ia Ib].
  pose proof (split_runs_In _ r a Hr Ia) as Sa.
  pose proof (split_runs_In _ r b Hr Ib) as Sb.
  rewrite Forall_forall in V.
  rewrite days_with_snow_length.
  split; [exact H|]. split; [exact Htot|]. split; [exact Hs|].
  split; [destruct r; [contradiction | cbn [List.length] in *; lia]|].
  split; [exact Sa|]. split; [exact Sb|]. split; [exact Hlen|]. split.
  - rewrite Hs. f_equal. apply format_streak_text.
  - intros n' a' b' Va' Vb' E. rewrite Hs in E. injection E as E.
    destruct (format_streak_inj _ _ _ _ _ _ (V a Sa) (V b Sb) Va' Vb' E)
      as (-> & -> & ->).
    auto.
Qed.

Lemma longest_period_within_total_witness :
  (exists e, In e series_december_2020 /\ 0 < snd e) /\
  (forall e, In e series_december_2020 -> 0 < snd e -> ordinal_defined (fst e)) /\
  exists rs n a b,
    calculate_snow_records series_december_2020 = Returns (Some rs) /\
    totaal_dagen_met_sneeuw rs = Some (Z.of_nat (days_with_snow series_december_2020)) /\
    absoluut_langste_periode rs = Some (format_streak (n, a, b)) /\
    1 <= n <= Z.of_nat (days_with_snow series_december_2020) /\
    In a (snow_dates series_december_2020) /\
    In b (snow_dates series_december_2020) /\
    days_between b a + 1 = n /\
    forall n' a' b',
      valid_date a' -> valid_date b' ->
      absoluut_langste_periode rs = Some (format_streak (n', a', b')) ->
      n' = n /\ a' = a /\ b' = b.
Proof.
  assert (Hex : exists e, In e series_december_2020 /\ 0 < snd e).
  { exists (mkdate 2020 12 1, 100). split; [now left | reflexivity]. }
  assert (Hdef : forall e, In e series_december_2020 -> 0 < snd e ->
                           ordinal_defined (fst e)).
  { intros e H _. cbn in H.
    repeat (destruct H as [<-|H]; [split; [reflexivity | right; reflexivity]|]).
    contradiction. }
  split; [exact Hex|]. split; [exact Hdef|].
  destruct (longest_period_within_total series_december_2020 Hex Hdef)
    as (rs & n & a & b & H1 & H2 & H3 & H4 & H5 & H6 & H7 & _ & H9).
  exists rs, n, a, b. repeat (split; [assumption|]). exact H9.
Defined.

(* ------------------------------------------------------------------ *)
(** *** Retrieval: the chunks, the chunk size and duplicate dates *)

(** What [covers] says of the single chunks. *)
Lemma covers_chunks delta e chunks : forall s,
  0 <= delta -> covers delta s e chunks ->
  (forall a b, In (a, b) chunks -> s <= a <= b /\ b = Z.min (a + delta) e) /\
  (forall x, s <= x <= e -> exists a b, In (a, b) chunks /\ a <= x <= b).
Proof.
  induction chunks as [|[a0 b0] chunks IH]; intros s Hd H.
  - simpl in H. split; [intros ? ? []|]. intros x Hx. lia.
  - cbn [covers] in H. destruct H as (-> & Hs & -> & H).
    destruct chunks as [|c chunks].
    + split.
      * intros a b [[= <- <-]|[]]. lia.
      * intros x Hx. exists s, (Z.min (s + delta) e). split; [now left | lia].
    + destruct H as [Hlt H]. destruct (IH _ Hd H) as [IH1 IH2]. split.
      * intros a b [[= <- <-]|Hin]; [lia|].
        destruct (IH1 a b Hin). lia.
      * intros x Hx.
        destruct (Z.le_gt_cases x (Z.min (s + delta) e)) as [L|G].
        -- exists s, (Z.min (s + delta) e). split; [now left | lia].
        -- destruct (IH2 x ltac:(lia)) as (a & b & Hin & Hab).
           exists a, b. split; [now right | exact Hab].
Qed.

Lemma covers_disjoint delta e chunks : forall s,
  0 <= delta -> covers delta s e chunks ->
  forall a b a' b' x,
    In (a, b) chunks -> In (a', b') chunks ->
    a <= x <= b -> a' <= x <= b' -> a = a' /\ b = b'.
Proof.
  induction chunks as [|[a0 b0] chunks IH]; intros s Hd H a b a' b' x;
    [intros []|].
  cbn [covers] in H. destruct H as (-> & Hs & -> & H).
  destruct chunks as [|c chunks].
  - intros [[= <- <-]|[]] [[= <- <-]|[]]. auto.
  - destruct H as [Hlt H].
    destruct (covers_chunks _ _ _ _ Hd H) as [Hc _].
    intros [[= <- <-]|Hin] [[= <- <-]|Hin'] Hx Hx'.
    + auto.
    + destruct (Hc _ _ Hin'). lia.
    + destruct (Hc _ _ Hin). lia.
    + exact (IH _ Hd H a b a' b' x Hin Hin' Hx Hx').
Qed.

Lemma covers_length delta e chunks : forall s,
  0 <= delta -> s <= e -> covers delta s e chunks ->
  Z.of_nat (List.length chunks) = (e - s + 1 + delta) / (delta + 1).
Proof.
  induction chunks as [|[a0 b0] chunks IH]; intros s Hd Hse H.
  - simpl in H. lia.
  - cbn [covers] in H. destruct H as (-> & Hs & -> & H).
    destruct chunks as [|c chunks].
    + cbn [List.length]. change (Z.of_nat 1) with 1.
      apply (Z.div_unique _ _ 1 (e - s)); lia.
    + destruct H as [Hlt H].
      assert (E : Z.min (s + delta) e = s + delta) by lia. rewrite E in *.
      change (List.length ((s, s + delta) :: c :: chunks))
        with (S (List.length (c :: chunks))).
      rewrite Nat2Z.inj_succ.
      rewrite (IH (s + delta + 1) Hd ltac:(lia) H).
      replace (e - s + 1 + delta) with ((e - (s + delta + 1) + 1 + delta) + 1 * (delta + 1))
        by lia.
      rewrite Z.div_add by lia. lia.
Qed.

Lemma chunk_plan_covers k e s :
  0 <= k -> e + (k * 365 + 10) <= MAXORDINAL -> 1 <= s ->
  exists chunks,
    chunk_plan k e s = Returns chunks /\ covers (k * 365 + 10) s e chunks.
Proof.
  intros Hk He Hs. unfold chunk_plan.
  destruct (chunk_loop_covers (fun a b => Some (a, b)) k e [] s Hk He Hs)
    as (chunks & Hcov & Hrun).
  rewrite successful_frames_record in Hrun. eauto.
Qed.

(** X7.  For a non-negative chunk size and dates whose shifts stay inside
    the calendar, the requested chunks lie inside the range, each ends
    [365 * chunk_size_years + 10] days after its start or at the end date if
    that comes first, every day of the range lies in exactly one chunk, and
    the number of requests is the number of days of the range divided by
    the days of a full chunk, rounded up. *)
Theorem requested_chunks_partition (k e s : Z) :
  0 <= k -> e + (k * 365 + 10) <= MAXORDINAL -> 1 <= s -> s <= e ->
  exists chunks,
    chunk_plan k e s = Returns chunks /\
    (forall a b, In (a, b) chunks ->
       s <= a <= b /\ b <= e /\ b = Z.min (a + (k * 365 + 10)) e) /\
    (forall x, s <= x <= e ->
       exists a b, In (a, b) chunks /\ a <= x <= b /\
         forall a' b', In (a', b') chunks -> a' <= x <= b' -> a' = a /\ b' = b) /\
    Z.of_nat (List.length chunks)
    = (e - s + 1 + (k * 365 + 10)) / (k * 365 + 11).
Proof.
  intros Hk He Hs Hse.
  destruct (chunk_plan_covers k e s Hk He Hs) as (chunks & Hrun & Hcov).
  assert (Hd : 0 <= k * 365 + 10) by lia.
  destruct (covers_chunks _ _ _ _ Hd Hcov) as [H1 H2].
  exists chunks. split; [exact Hrun|]. split; [|split].
  - intros a b Hin. destruct (H1 a b Hin). lia.
  - intros x Hx. destruct (H2 x Hx) as (a & b & Hin & Hab).
    exists a, b. split; [exact Hin|]. split; [exact Hab|].
    intros a' b' Hin' Hab'.
    exact (covers_disjoint _ _ _ _ Hd Hcov a' b' a b x Hin' Hin Hab' Hab).
  - rewrite (covers_length _ _ _ _ Hd Hse Hcov). f_equal. lia.
Qed.

Lemma requested_chunks_partition_witness :
  0 <= 4 /\ 739432 + (4 * 365 + 10) <= MAXORDINAL /\ 1 <= 735780 /\
  735780 <= 739432 /\
  exists chunks,
    chunk_plan 4 739432 735780 = Returns chunks /\
    (forall a b, In (a, b) chunks ->
       735780 <= a <= b /\ b <= 739432 /\ b = Z.min (a + (4 * 365 + 10)) 739432) /\
    (forall x, 735780 <= x <= 739432 ->
       exists a b, In (a, b) chunks /\ a <= x <= b /\
         forall a' b', In (a', b') chunks -> a' <= x <= b' -> a' = a /\ b' = b) /\
    Z.of_nat (List.length chunks)
    = (739432 - 735780 + 1 + (4 * 365 + 10)) / (4 * 365 + 11).
Proof.
  split; [lia|]. split; [unfold MAXORDINAL; lia|]. split; [lia|]. split; [lia|].
  apply (requested_chunks_partition 4 739432 735780); unfold MAXORDINAL; lia.
Defined.

Lemma frames_of_one_chunk {Frame : Type} (fetch : Z -> Z -> option Frame) k e s :
  0 <= k -> e + (k * 365 + 10) <= MAXORDINAL -> 1 <= s -> s <= e ->
  e - s <= k * 365 + 10 ->
  chunk_loop fetch k e [] s = Returns (successful_frames fetch [(s, e)]).
Proof.
  intros Hk He Hs Hse Hshort.
  destruct (chunk_loop_covers fetch k e [] s Hk He Hs) as (chunks & Hcov & Hrun).
  rewrite Hrun. cbn [app]. do 2 f_equal.
  apply (covers_unique _ _ _ _ _ Hcov). simpl. repeat split; lia.
Qed.

(** X8.  A range of at most [365 * chunk_size_years + 11] days is fetched
    with a single request for the whole range: the function returns
    [None] when that request fails and otherwise its frame with only the
    first row of each date kept. *)
Theorem short_range_single_request (strptime_ymd : string -> option Z)
    (fetch : Z -> Z -> option DataFrame)
    (start_date_api end_date_api : string) (k s e : Z) :
  strptime_ymd start_date_api = Some s ->
  strptime_ymd end_date_api = Some e ->
  0 <= k -> e + (k * 365 + 10) <= MAXORDINAL -> 1 <= s -> s <= e ->
  e - s <= k * 365 + 10 ->
  requested_chunks strptime_ymd start_date_api end_date_api k = Returns [(s, e)] /\
  get_all_historical_data strptime_ymd fetch start_date_api end_date_api k
  = Returns (option_map drop_duplicated (fetch s e)).
Proof.
  intros Ps Pe Hk He Hs Hse Hshort.
  unfold requested_chunks, get_all_historical_data, chunk_plan. rewrite Ps, Pe.
  rewrite !frames_of_one_chunk by assumption.
  split; [reflexivity|].
  unfold successful_frames. cbn [flat_map fst snd bind app].
  destruct (fetch s e) as [f|]; cbn; [|reflexivity].
  now rewrite app_nil_r.
Qed.

Lemma short_range_single_request_witness :
  sample_strptime_2020 "2020-07-01" = Some 737607 /\
  sample_strptime_2020 "2022-06-30" = Some 738336 /\
  0 <= 4 /\ 738336 + (4 * 365 + 10) <= MAXORDINAL /\ 1 <= 737607 /\
  737607 <= 738336 /\ 738336 - 737607 <= 4 * 365 + 10 /\
  requested_chunks sample_strptime_2020 "2020-07-01" "2022-06-30" 4
  = Returns [(737607, 738336)] /\
  get_all_historical_data sample_strptime_2020 failing_fetch
    "2020-07-01" "2022-06-30" 4
  = Returns (option_map drop_duplicated (failing_fetch 737607 738336)).
Proof.
  split; [reflexivity|]. split; [reflexivity|].
  split; [lia|]. split; [unfold MAXORDINAL; lia|]. split; [lia|].
  split; [lia|]. split; [lia|].
  apply (short_range_single_request sample_strptime_2020 failing_fetch
           "2020-07-01" "2022-06-30" 4 737607 738336);
    try reflexivity; unfold MAXORDINAL; lia.
Defined.

Lemma chunk_loop_negative {Frame : Type} (fetch : Z -> Z -> option Frame) k e acc s :
  k < 0 -> s <= e -> chunk_loop fetch k e acc s = Raises OverflowError.
Proof.
  funelim (chunk_loop fetch k e acc s); intros Hk Hse;
    repeat match goal with
           | H : sigmaI _ _ _ = _ |- _ => clear H
           end;
    repeat match goal with
           | H : date_add_days _ _ = Raises _ |- _ =>
               apply date_add_days_Raises in H; subst
           | H : date_add_days _ _ = Returns _ |- _ =>
               apply date_add_days_inv in H; destruct H
           end;
    try reflexivity; try lia.
  match goal with IH : _ -> _ -> _ = Raises OverflowError |- _ => apply IH end;
    lia.
Qed.

(** X9.  With a negative chunk size and a start date not after the end
    date the function returns no data: the chunk ends lie before the
    chunk starts, the loop walks backwards, and a shift below the first
    date of the calendar raises [OverflowError]. *)
Theorem negative_chunk_size_overflows (strptime_ymd : string -> option Z)
    (fetch : Z -> Z -> option DataFrame)
    (start_date_api end_date_api : string) (k s e : Z) :
  strptime_ymd start_date_api = Some s ->
  strptime_ymd end_date_api = Some e ->
  k < 0 -> s <= e ->
  get_all_historical_data strptime_ymd fetch start_date_api end_date_api k
  = Raises OverflowError.
Proof.
  intros Ps Pe Hk Hse. unfold get_all_historical_data. rewrite Ps, Pe.
  now rewrite chunk_loop_negative.
Qed.

Lemma negative_chunk_size_overflows_witness :
  sample_strptime "2015-07-01" = Some 735780 /\
  sample_strptime "2025-06-30" = Some 739432 /\
  -1 < 0 /\ 735780 <= 739432 /\
  get_all_historical_data sample_strptime sample_fetch "2015-07-01" "2025-06-30" (-1)
  = Raises OverflowError.
Proof.
  split; [reflexivity|]. split; [reflexivity|]. split; [lia|]. split; [lia|].
  apply (negative_chunk_size_overflows sample_strptime sample_fetch
           "2015-07-01" "2025-06-30" (-1) 735780 739432);
    try reflexivity; lia.
Defined.

Lemma drop_duplicated_from_id seen (df : DataFrame) :
  NoDup (index df) -> (forall d, In d (index df) -> ~ In d seen) ->
  boolean_mask df (map negb (duplicated_from seen (index df))) = df.
Proof.
  revert seen. induction df as [|[d0 v0] df IH]; intros seen ND H; [reflexivity|].
  cbn [index map fst duplicated_from boolean_mask] in *.
  inversion ND as [|? ? N ND']; subst.
  destruct (existsb (date_eqb d0) seen) eqn:E.
  - apply existsb_date_eqb in E. exfalso. apply (H d0); [now left | exact E].
  - cbn [negb]. f_equal. apply IH; [exact ND'|].
    intros d Hd [<-|I]; [contradiction|]. apply (H d); [now right | exact I].
Qed.

Lemma first_occurrence (df : DataFrame) d :
  In d (index df) ->
  exists l1 v l2, df = l1 ++ (d, v) :: l2 /\ ~ In d (index l1).
Proof.
  induction df as [|[d0 v0] df IH]; [intros []|].
  cbn [index map fst In]. intros H.
  destruct (date_eqb d0 d) eqn:E.
  - apply date_eqb_eq in E. subst. exists [], v0, df. split; [reflexivity | intros []].
  - assert (N : d0 <> d) by (intros ->; rewrite (proj2 (date_eqb_eq d d) eq_refl) in E;
                             discriminate).
    destruct H as [H|H]; [contradiction|].
    destruct (IH H) as (l1 & v & l2 & -> & N1).
    exists ((d0, v0) :: l1), v, l2. split; [reflexivity|].
    cbn. intros [C|C]; [contradiction | exact (N1 C)].
Qed.

Lemma boolean_mask_length {A : Type} (l : list A) m :
  Nat.le (List.length (boolean_mask l m)) (List.length l).
Proof.
  revert m. induction l as [|x l IH]; intros [|b m]; cbn [boolean_mask List.length];
    try lia.
  specialize (IH m). destruct b; cbn [List.length]; lia.
Qed.

Lemma drop_duplicated_id (df : DataFrame) :
  NoDup (index df) -> drop_duplicated df = df.
Proof.
  intros H. unfold drop_duplicated, duplicated.
  apply drop_duplicated_from_id; [exact H | intros ? _ []].
Qed.

(** X10.  Dropping the duplicated dates keeps every date of the frame,
    changes nothing in a frame whose dates are all distinct, has no
    further effect when applied a second time, and never adds a row. *)
Theorem drop_duplicated_stable (df : DataFrame) :
  (forall d, In d (index (drop_duplicated df)) <-> In d (index df)) /\
  (NoDup (index df) -> drop_duplicated df = df) /\
  drop_duplicated (drop_duplicated df) = drop_duplicated df /\
  Nat.le (List.length (drop_duplicated df)) (List.length df).
Proof.
  destruct (drop_duplicated_spec df) as [ND Hin].
  split; [|split; [|split]].
  - intros d. unfold index at 1. rewrite in_map_iff. split.
    + intros ([d' v] & <- & H). apply Hin in H as (l1 & l2 & -> & _).
      unfold index. rewrite map_app, in_app_iff. right. now left.
    + intros H. destruct (first_occurrence df d H) as (l1 & v & l2 & E & N).
      exists (d, v). split; [reflexivity|]. apply Hin. eauto.
  - apply drop_duplicated_id.
  - apply drop_duplicated_id. exact ND.
  - apply boolean_mask_length.
Qed.

Lemma drop_duplicated_stable_witness :
  NoDup (index (drop_duplicated frame_with_duplicate)) /\
  drop_duplicated (drop_duplicated frame_with_duplicate)
  = drop_duplicated frame_with_duplicate /\
  drop_duplicated frame_with_duplicate
  = [(mkdate 2020 12 1, 5); (mkdate 2020 12 2, 7)].
Proof.
  split; [apply drop_duplicated_spec|]. split; [|reflexivity].
  exact (proj1 (proj2 (proj2 (drop_duplicated_stable frame_with_duplicate)))).
Defined.

(** X11.  When the frames that come back share no date, the function
    returns their concatenation: no row is dropped. *)
Theorem distinct_dates_all_rows_kept (strptime_ymd : string -> option Z)
    (fetch : Z -> Z -> option DataFrame)
    (start_date_api end_date_api : string) (k s e : Z) :
  strptime_ymd start_date_api = Some s ->
  strptime_ymd end_date_api = Some e ->
  0 <= k -> e + (k * 365 + 10) <= MAXORDINAL -> 1 <= s ->
  exists chunks,
    requested_chunks strptime_ymd start_date_api end_date_api k = Returns chunks /\
    (successful_frames fetch chunks <> [] ->
     NoDup (index (List.concat (successful_frames fetch chunks))) ->
     get_all_historical_data strptime_ymd fetch start_date_api end_date_api k
     = Returns (Some (List.concat (successful_frames fetch chunks)))).
Proof.
  intros Ps Pe Hk He Hs.
  unfold requested_chunks, get_all_historical_data. rewrite Ps, Pe.
  destruct (chunk_plan_covers k e s Hk He Hs) as (chunks & Hplan & Hcov).
  destruct (chunk_loop_covers fetch k e [] s Hk He Hs) as (chunks' & Hcov' & Hrun).
  rewrite (covers_unique _ _ _ _ _ Hcov' Hcov) in Hrun.
  exists chunks. split; [exact Hplan|].
  intros NE ND. rewrite Hrun. cbn [bind app].
  destruct (successful_frames fetch chunks) as [|f fs] eqn:E; [congruence|].
  do 2 f_equal. now apply drop_duplicated_id.
Qed.

Lemma distinct_dates_all_rows_kept_witness :
  sample_strptime_2020 "2020-07-01" = Some 737607 /\
  sample_strptime_2020 "2022-06-30" = Some 738336 /\
  0 <= 4 /\ 738336 + (4 * 365 + 10) <= MAXORDINAL /\ 1 <= 737607 /\
  get_all_historical_data sample_strptime_2020 two_day_fetch
    "2020-07-01" "2022-06-30" 4
  = Returns (Some [(mkdate 2020 12 1, 5); (mkdate 2020 12 2, 7)]).
Proof.
  split; [reflexivity|]. split; [reflexivity|].
  split; [lia|]. split; [unfold MAXORDINAL; lia|]. split; [lia|].
  destruct (distinct_dates_all_rows_kept sample_strptime_2020 two_day_fetch
              "2020-07-01" "2022-06-30" 4 737607 738336 eq_refl eq_refl
              ltac:(lia) ltac:(unfold MAXORDINAL; lia) ltac:(lia))
    as (chunks & Hreq & Hall).
  vm_compute in Hreq. injection Hreq as <-.
  apply Hall; [discriminate|].
  repeat constructor; cbn; [intros [H|[]]; discriminate H | intros []].
Defined.

(* ------------------------------------------------------------------ *)
(** *** The record analysis of the page *)

Lemma chunk_loop_empty {Frame : Type} (fetch : Z -> Z -> option Frame) k e acc s :
  e < s -> chunk_loop fetch k e acc s = Returns acc.
Proof.
  funelim (chunk_loop fetch k e acc s); intros Hes; try reflexivity; lia.
Qed.

Lemma july_1_valid y : MINYEAR <= y <= MAXYEAR -> valid_date (mkdate y 7 1).
Proof.
  intros. apply valid_date_intro; try lia.
  change (days_in_month y 7) with 31. lia.
Qed.

Lemma june_30_before_july_1 E S :
  MINYEAR <= E <= MAXYEAR -> MINYEAR <= S <= MAXYEAR -> E <= S ->
  toordinal (mkdate E 6 30) < toordinal (mkdate S 7 1).
Proof.
  intros HE HS H.
  pose proof (date_compare_toordinal _ _ (june_30_valid E HE) (july_1_valid S HS)) as C.
  unfold date_compare in C. cbn [year month day] in C.
  unfold Z.lt. rewrite <- C.
  destruct (Z.compare_spec E S); try reflexivity. lia.
Qed.

Lemma july_1_before_june_30 S E :
  MINYEAR <= S <= MAXYEAR -> MINYEAR <= E <= MAXYEAR -> S < E ->
  toordinal (mkdate S 7 1) < toordinal (mkdate E 6 30).
Proof.
  intros HS HE H.
  pose proof (date_compare_toordinal _ _ (july_1_valid S HS) (june_30_valid E HE)) as C.
  unfold date_compare in C. cbn [year month day] in C.
  unfold Z.lt. rewrite <- C.
  destruct (Z.compare_spec S E); try reflexivity; lia.
Qed.

Lemma toordinal_positive d : valid_date d -> 1 <= toordinal d.
Proof.
  intros V. destruct (valid_date_fields d V) as (Hy & _ & _).
  pose proof (tm_yday_bounds d V) as B.
  pose proof (days_before_year_mono 1 (year d) ltac:(unfold MINYEAR in *; lia)) as M.
  change (days_before_year 1) with 0 in M.
  unfold toordinal, tm_yday in *. lia.
Qed.

(** X12.  The record analysis requests the days from July 1 of the start
    year to June 30 of the end year.  When the end year is not after the
    start year this range is empty: no request is made, no data comes
    back and no records are computed.  Otherwise the first request starts
    on July 1 of the start year, the first and the last day of the range
    carry the two season labels of the heading, and every day of the range
    belongs to a season that starts in one of the years from the start
    year to the year before the end year. *)
Theorem record_analysis_range (strptime_ymd : string -> option Z)
    (fetch : Z -> Z -> option DataFrame) (start_year end_year : Z) :
  MINYEAR <= start_year <= MAXYEAR -> MINYEAR <= end_year <= MAXYEAR ->
  reads_back strptime_ymd (mkdate start_year 7 1) ->
  reads_back strptime_ymd (mkdate end_year 6 30) ->
  toordinal (mkdate end_year 6 30) + (4 * 365 + 10) <= MAXORDINAL ->
  (end_year <= start_year ->
   requested_chunks strptime_ymd (strftime_Ymd (mkdate start_year 7 1))
     (strftime_Ymd (mkdate end_year 6 30)) 4 = Returns [] /\
   full_data strptime_ymd fetch start_year end_year = Returns None /\
   records strptime_ymd fetch start_year end_year = Returns None) /\
  (start_year < end_year ->
   (exists b rest,
      requested_chunks strptime_ymd (strftime_Ymd (mkdate start_year 7 1))
        (strftime_Ymd (mkdate end_year 6 30)) 4
      = Returns ((toordinal (mkdate start_year 7 1), b) :: rest)) /\
   season_label (mkdate start_year 7 1) = heading_first_season start_year /\
   season_label (mkdate end_year 6 30) = heading_last_season end_year /\
   forall d, valid_date d ->
     date_le (mkdate start_year 7 1) d -> date_le d (mkdate end_year 6 30) ->
     start_year <= season_start_year d <= end_year - 1).
Proof.
  intros HS HE Rs Re Hov. unfold reads_back in Rs, Re.
  pose proof (july_1_valid start_year HS) as Vs.
  pose proof (june_30_valid end_year HE) as Ve.
  split.
  - intros Hle.
    pose proof (june_30_before_july_1 end_year start_year HE HS Hle) as Hlt.
    unfold records, full_data, record_start_date_api, record_end_date_api,
      requested_chunks, get_all_historical_data, chunk_plan.
    rewrite (date_new_valid _ _ _ Vs), (date_new_valid _ _ _ Ve). cbn [bind].
    rewrite Rs, Re. rewrite !chunk_loop_empty by exact Hlt.
    repeat split.
  - intros Hlt. split; [|split; [|split]].
    + pose proof (july_1_before_june_30 start_year end_year HS HE Hlt) as Hse.
      unfold requested_chunks. rewrite Rs, Re.
      destruct (chunk_plan_covers 4 (toordinal (mkdate end_year 6 30))
                  (toordinal (mkdate start_year 7 1)) ltac:(lia) Hov
                  (toordinal_positive _ Vs)) as (chunks & Hplan & Hcov).
      rewrite Hplan. destruct chunks as [|[a b] rest]; [simpl in Hcov; lia|].
      cbn [covers] in Hcov. destruct Hcov as (-> & _). eauto.
    + reflexivity.
    + unfold season_label, heading_last_season, season_start_year.
      cbn [year month day]. change (7 <=? 6) with false. cbv iota.
      now replace (end_year - 1 + 1) with end_year by lia.
    + intros d V L1 L2. unfold date_le, date_leb, date_compare in L1, L2.
      cbn [year month day] in L1, L2. unfold season_start_year.
      destruct (valid_date_fields d V) as (_ & Hm & Hd).
      destruct (Z.compare_spec start_year (year d));
        destruct (Z.compare_spec (year d) end_year);
        destruct (Z.compare_spec 7 (month d));
        destruct (Z.compare_spec (month d) 6);
        destruct (Z.leb_spec 7 (month d)); try lia; try discriminate.
Qed.

Lemma record_analysis_range_witness :
  MINYEAR <= 2020 <= MAXYEAR /\ MINYEAR <= 2022 <= MAXYEAR /\
  reads_back sample_strptime_2020 (mkdate 2020 7 1) /\
  reads_back sample_strptime_2020 (mkdate 2020 6 30) /\
  reads_back sample_strptime_2020 (mkdate 2022 6 30) /\
  full_data sample_strptime_2020 two_day_fetch 2020 2020 = Returns None /\
  exists b rest,
    requested_chunks sample_strptime_2020 (strftime_Ymd (mkdate 2020 7 1))
      (strftime_Ymd (mkdate 2022 6 30)) 4
    = Returns ((toordinal (mkdate 2020 7 1), b) :: rest).
Proof.
  assert (B0 : MINYEAR <= 2020 <= MAXYEAR) by (unfold MINYEAR, MAXYEAR; lia).
  assert (B2 : MINYEAR <= 2022 <= MAXYEAR) by (unfold MINYEAR, MAXYEAR; lia).
  split; [exact B0|]. split; [exact B2|].
  split; [reflexivity|]. split; [reflexivity|]. split; [reflexivity|]. split.
  - apply (proj1 (record_analysis_range sample_strptime_2020 two_day_fetch
                    2020 2020 B0 B0 eq_refl eq_refl
                    ltac:(vm_compute; discriminate))).
    lia.
  - apply (proj2 (record_analysis_range sample_strptime_2020 two_day_fetch
                    2020 2022 B0 B2 eq_refl eq_refl
                    ltac:(vm_compute; discriminate))).
    lia.
Defined.

(* ------------------------------------------------------------------ *)
(** *** The statistics of the detail view *)

(** X13.  For a detail series with at least one day, the highest depth
    shown is the depth of one of its days and no day is deeper; the number
    of days with snow is at most the number of days; and it is zero
    exactly when the highest depth is not positive. *)
Theorem detail_statistics (daily_data_detail : DataFrame) :
  daily_data_detail <> [] ->
  (exists e, In e daily_data_detail /\ snd e = max_depth daily_data_detail) /\
  (forall e, In e daily_data_detail -> snd e <= max_depth daily_data_detail) /\
  Nat.le (days_with_snow daily_data_detail) (List.length daily_data_detail) /\
  (days_with_snow daily_data_detail = O <-> max_depth daily_data_detail <= 0).
Proof.
  intros NE. unfold max_depth, days_with_snow.
  assert (NE' : map snd daily_data_detail <> [])
    by (intros N; apply map_eq_nil in N; contradiction).
  destruct (series_max_spec _ NE') as [Hin Hub].
  apply in_map_iff in Hin as (e0 & E0 & H0).
  assert (Ub : forall e, In e daily_data_detail ->
                         snd e <= series_max (map snd daily_data_detail)).
  { intros e He. apply Hub. now apply in_map. }
  split; [eauto|]. split; [exact Ub|]. split; [apply filter_length_le|].
  split.
  - intros Z.
    destruct (Z.le_gt_cases (series_max (map snd daily_data_detail)) 0) as [|G];
      [assumption|].
    exfalso.
    assert (I : In e0 (filter (fun e => 0 <? snd e) daily_data_detail)).
    { apply filter_In. split; [assumption|]. apply Z.ltb_lt. lia. }
    apply length_zero_iff_nil in Z. rewrite Z in I. contradiction.
  - intros Hle. apply length_zero_iff_nil.
    destruct (filter (fun e => 0 <? snd e) daily_data_detail) as [|e l] eqn:F;
      [reflexivity|].
    assert (I : In e (filter (fun e => 0 <? snd e) daily_data_detail))
      by (rewrite F; now left).
    apply filter_In in I as [I1 I2]. apply Z.ltb_lt in I2.
    specialize (Ub e I1). lia.
Qed.

Lemma detail_statistics_witness :
  series_two_seasons <> [] /\
  (exists e, In e series_two_seasons /\ snd e = max_depth series_two_seasons) /\
  (forall e, In e series_two_seasons -> snd e <= max_depth series_two_seasons) /\
  Nat.le (days_with_snow series_two_seasons) (List.length series_two_seasons) /\
  (days_with_snow series_two_seasons = O <-> max_depth series_two_seasons <= 0).
Proof.
  split; [discriminate|].
  apply (detail_statistics series_two_seasons). discriminate.
Defined.

(* ------------------------------------------------------------------ *)
(** *** When the engine raises *)

Lemma mapM_Raises {A B : Type} (f : A -> outcome B) l e :
  (forall x, In x l -> (exists y, f x = Returns y) \/ f x = Raises e) ->
  (exists x, In x l /\ f x = Raises e) ->
  mapM f l = Raises e.
Proof.
  induction l as [|a l IH]; intros H (x & Hin & Hx); [contradiction|].
  simpl. destruct (H a (or_introl eq_refl)) as [[y Hy]|Hr].
  - rewrite Hy. simpl. destruct Hin as [->|Hin]; [congruence|].
    rewrite IH; [reflexivity | intros; apply H; now right | eauto].
  - now rewrite Hr.
Qed.

Lemma ordinal_ranking_Raises asc tbl :
  (forall s d, In (s, d) tbl -> valid_date d) ->
  (exists s d, In (s, d) tbl /\ month d < 7 /\ year d = MINYEAR) ->
  ordinal_ranking asc tbl = Raises ValueError.
Proof.
  intros V (s & d & Hin & Hm & Hy). unfold ordinal_ranking, add_seasonal_ordinal.
  rewrite (mapM_Raises _ tbl ValueError); [reflexivity| |].
  - intros [s' d'] Hin'. cbn [snd]. pose proof (V s' d' Hin') as Vd.
    destruct (valid_date_fields d' Vd) as (Hy' & _ & _).
    destruct (Z.le_gt_cases 7 (month d')) as [H7|H7].
    + destruct (get_seasonal_ordinal_defined d' Vd (or_introl H7)) as (n & -> & _).
      left. simpl. eauto.
    + destruct (Z.eq_dec (year d') MINYEAR) as [E|E].
      * right. now rewrite (get_seasonal_ordinal_year_1 d' Vd H7 E).
      * assert (Hlt : MINYEAR < year d') by lia.
        destruct (get_seasonal_ordinal_defined d' Vd (or_intror Hlt))
          as (n & -> & _).
        left. simpl. eauto.
  - exists (s, d). split; [exact Hin|]. cbn [snd].
    now rewrite (get_seasonal_ordinal_year_1 d (V s d Hin) Hm Hy).
Qed.

(** X14.  For a series whose snow days lie on dates of the calendar, the
    engine raises [ValueError] exactly when a snow day lies in January to
    June of year 1, the one season whose start has no calendar year; it
    raises nothing else. *)
Theorem records_raise_in_first_season (df : DataFrame) :
  (forall e, In e df -> 0 < snd e -> valid_date (fst e)) ->
  (calculate_snow_records df = Raises ValueError <->
   exists e, In e df /\ 0 < snd e /\ year (fst e) = MINYEAR /\ month (fst e) < 7) /\
  (forall x, calculate_snow_records df = Raises x -> x = ValueError).
Proof.
  intros V.
  assert (Up : (exists e, In e df /\ 0 < snd e /\ year (fst e) = MINYEAR /\
                          month (fst e) < 7) ->
               calculate_snow_records df = Raises ValueError).
  { intros ([d x] & Hin & Hpos & Hy & Hm). cbn [fst snd] in *.
    set (rows := snow_days_of (temp_df_of df)).
    assert (Hk : In (season_label d) (groupby_keys rows)).
    { apply snow_keys_In. exists (d, x). auto. }
    destruct (index_min (map r_date (group (season_label d) rows))) as [a|] eqn:E.
    2:{ exfalso. apply (group_nonempty rows _ Hk).
        destruct (map r_date (group (season_label d) rows));
          [reflexivity | discriminate]. }
    pose proof (index_min_In _ _ E) as Ia.
    apply group_snow_dates in Ia as (Hl & xa & Ha1 & Ha2).
    pose proof (V (a, xa) Ha1 Ha2) as Va. cbn [fst] in Va.
    destruct (valid_date_fields a Va) as (Hya & _ & _).
    apply season_label_eq_iff in Hl. unfold season_start_year in Hl.
    destruct (Z.leb_spec 7 (month a)); destruct (Z.leb_spec 7 (month d)); try lia.
    assert (R : ordinal_ranking true (groupby_index_min rows) = Raises ValueError).
    { apply ordinal_ranking_Raises.
      - intros s' d' H'. apply groupby_index_min_In in H'.
        unfold rows in H'. rewrite snow_dates_temp_df in H'.
        apply In_snow_dates in H' as (x' & H1 & H2). exact (V (d', x') H1 H2).
      - exists (season_label d), a. split; [now apply groupby_index_min_iff|].
        split; lia. }
    unfold calculate_snow_records, records_of_temp_df.
    change (filter (fun r => 0 <? r_depth r) (temp_df_of df)) with rows.
    fold rows. cbv zeta.
    destruct rows as [|r0 sd] eqn:Er.
    - apply groupby_keys_In in Hk as (r & [] & _).
    - rewrite R. reflexivity. }
  assert (Down : forall x, calculate_snow_records df = Raises x ->
            exists e, In e df /\ 0 < snd e /\ year (fst e) = MINYEAR /\
                      month (fst e) < 7).
  { intros x R.
    destruct (existsb (fun e => (0 <? snd e) && (year (fst e) =? MINYEAR)
                                && (month (fst e) <? 7)) df) eqn:F.
    - apply existsb_exists in F as (e & Hin & F).
      rewrite !andb_true_iff, Z.ltb_lt, Z.eqb_eq, Z.ltb_lt in F.
      exists e. tauto.
    - exfalso.
      assert (D : forall e, In e df -> 0 < snd e -> ordinal_defined (fst e)).
      { intros e Hin Hpos. split; [now apply V|].
        destruct (valid_date_fields _ (V e Hin Hpos)) as (Hy & _ & _).
        destruct (Z.le_gt_cases 7 (month (fst e))) as [|Hm]; [now left|right].
        destruct (Z.eq_dec (year (fst e)) MINYEAR) as [Ey|Ey]; [|lia].
        assert (T : existsb (fun e => (0 <? snd e) && (year (fst e) =? MINYEAR)
                                      && (month (fst e) <? 7)) df = true).
        { apply existsb_exists. exists e. split; [exact Hin|].
          rewrite !andb_true_iff, Z.ltb_lt, Z.eqb_eq, Z.ltb_lt. lia. }
        rewrite T in F. discriminate. }
      destruct (existsb (fun e => 0 <? snd e) df) eqn:G.
      + apply existsb_exists in G as (e & Hin & G). apply Z.ltb_lt in G.
        destruct (calculate_snow_records_Returns df (ex_intro _ e (conj Hin G)) D)
          as (rs & H & _).
        rewrite H in R. discriminate.
      + assert (N : calculate_snow_records df = Returns None).
        { apply calculate_snow_records_None. intros e Hin Hpos.
          assert (T : existsb (fun e => 0 <? snd e) df = true).
          { apply existsb_exists. exists e. split; [exact Hin | now apply Z.ltb_lt]. }
          rewrite T in G. discriminate. }
        rewrite N in R. discriminate. }
  split; [split; [apply Down | exact Up]|].
  intros x R. pose proof (Up (Down x R)) as R'. rewrite R in R'.
  now injection R'.
Qed.

Lemma records_raise_in_first_season_witness :
  (forall e, In e series_year_1 -> 0 < snd e -> valid_date (fst e)) /\
  calculate_snow_records series_year_1 = Raises ValueError.
Proof.
  assert (V : forall e, In e series_year_1 -> 0 < snd e -> valid_date (fst e)).
  { intros e [<-|[]] _. reflexivity. }
  split; [exact V|].
  apply (proj1 (records_raise_in_first_season series_year_1 V)).
  exists (mkdate 1 1 1, 10).
  split; [now left|]. split; [reflexivity|]. split; [reflexivity|]. reflexivity.
Defined.
